(** * excel_cleaner: the table-cleaning pipeline of [utils/cleaner.py]

    A shallow embedding of [clean_dataframe] and of the pandas operations it
    calls, followed by the properties of the pipeline.

    Scope of the model.
    - Cells are scalars: text, integers, binary64 floats, booleans,
      timestamps, and one missing marker (pandas' None / NaN / NaT).
    - Column labels are text.  For a label carried by two columns pandas
      answers [df[c]] with a table, not a series, and [ser.dtype] in the
      finalizer raises: [clean_dataframe] returns nothing.  The functions
      below describe the runs that return; on a table with a repeated label
      [df[c]] reads the first column carrying it, and every theorem about a
      returned table or report states the distinctness of the labels as a
      hypothesis.
    - Text is a sequence of 8-bit characters; the character classes of
      Python ([str.strip], [\s], [str.lower], [(?i)]) are modelled on ASCII,
      where they are exact.  The theorems whose conclusion depends on the
      class of a character beyond ASCII state [ascii_text] of the text
      concerned.
    - Numbers are IEEE binary64 values (Rocq's primitive floats); an integer
      is converted by rounding to nearest.
    - What pandas decides on its own (the grammar of numerals and dates, the
      text of a float, which fill values a dtype refuses, the order in which
      numpy adds the cells of a sum) is an interface, [Pandas], that every
      definition and theorem is parametric in. *)

From Stdlib Require Import ZArith List String Ascii Bool Lia.
From Stdlib Require Import Floats.PrimFloat Floats.SpecFloat Floats.FloatOps Floats.FloatAxioms.
From Stdlib Require Import Numbers.Cyclic.Int63.Uint63.
From stdpp Require Import gmap strings list pretty.

Set Warnings "-inexact-float".

Local Open Scope string_scope.
Local Open Scope list_scope.
Local Open Scope nat_scope.

(** ** Python text helpers *)

Module Py.

Definition code (c : ascii) : nat := nat_of_ascii c.

(** [str.isspace] on ASCII: TAB..CR, FS..US and the space. *)
Definition is_space (c : ascii) : bool :=
  let n := code c in
  ((9 <=? n) && (n <=? 13)) || ((28 <=? n) && (n <=? 32)).

Definition is_digit (c : ascii) : bool :=
  let n := code c in (48 <=? n) && (n <=? 57).

Definition is_upper (c : ascii) : bool :=
  let n := code c in (65 <=? n) && (n <=? 90).

Definition is_lower (c : ascii) : bool :=
  let n := code c in (97 <=? n) && (n <=? 122).

Definition is_alpha (c : ascii) : bool := is_upper c || is_lower c.

(** A character of the class [[0-9a-zA-Z_]]. *)
Definition is_word (c : ascii) : bool :=
  is_digit c || is_alpha c || Ascii.eqb c "_".

Definition lower_char (c : ascii) : ascii :=
  if is_upper c then ascii_of_nat (code c + 32) else c.

Fixpoint lstrip (s : list ascii) : list ascii :=
  match s with
  | c :: s' => if is_space c then lstrip s' else s
  | [] => []
  end.

Definition rstrip (s : list ascii) : list ascii := rev (lstrip (rev s)).

(** [str.strip()] *)
Definition strip (s : string) : string :=
  string_of_list_ascii (rstrip (lstrip (list_ascii_of_string s))).

(** [str.lower()] *)
Definition lower (s : string) : string :=
  string_of_list_ascii (map lower_char (list_ascii_of_string s)).

Fixpoint starts_with (p s : list ascii) : bool :=
  match p, s with
  | [], _ => true
  | a :: p', b :: s' => Ascii.eqb a b && starts_with p' s'
  | _ :: _, [] => false
  end.

Definition ends_with (p s : list ascii) : bool :=
  starts_with (rev p) (rev s).

End Py.

(** ** A model of Python's [re] for the pattern of the date-like gate

    [compile] follows [sre_parse]: a pattern is an alternation of sequences
    of atoms, an atom is a literal, [.], or a bracketed set, and an atom
    may carry one repetition.  The bracketed set is parsed as [sre_parse]
    does it: a backslash and the character after it form one token, and
    [x-y] is a range, refused when [y] comes before [x].  Syntax outside
    this fragment is reported as [ReUnsupported], never as an error. *)

Module Re.

Inductive result (A : Type) : Type :=
| ReOk (a : A)
| ReError (msg : string)      (* Python raises re.error *)
| ReUnsupported.              (* outside the modelled fragment *)
Arguments ReOk {A} a.
Arguments ReError {A} msg.
Arguments ReUnsupported {A}.

Inductive set_item : Type :=
| SLit (c : ascii)
| SRange (lo hi : ascii)
| SCat (k : ascii).           (* \d \s \w and their complements *)

Inductive atom : Type :=
| ALit (c : ascii)
| AAny
| ASet (negate : bool) (items : list set_item).

Record piece : Type := mkPiece {
  p_atom : atom;
  p_min : nat;
  p_max : option nat;         (* None: unbounded *)
  p_repeated : bool           (* a repetition was already applied *)
}.

Definition regex : Type := list (list piece).

(** *** Parsing *)

(** One token of a set: the source character, or the meaning of an
    escape ([_class_escape]). *)
Definition class_escape (e : ascii) : result set_item :=
  if Ascii.eqb e "\" then ReOk (SLit "\")
  else if Ascii.eqb e "a" then ReOk (SLit (ascii_of_nat 7))
  else if Ascii.eqb e "b" then ReOk (SLit (ascii_of_nat 8))
  else if Ascii.eqb e "f" then ReOk (SLit (ascii_of_nat 12))
  else if Ascii.eqb e "n" then ReOk (SLit (ascii_of_nat 10))
  else if Ascii.eqb e "r" then ReOk (SLit (ascii_of_nat 13))
  else if Ascii.eqb e "t" then ReOk (SLit (ascii_of_nat 9))
  else if Ascii.eqb e "v" then ReOk (SLit (ascii_of_nat 11))
  else if existsb (Ascii.eqb e) ["d"; "D"; "s"; "S"; "w"; "W"]%char then ReOk (SCat e)
  else if Py.is_digit e || existsb (Ascii.eqb e) ["x"; "u"; "U"; "N"]%char then ReUnsupported
  else if Py.is_alpha e then ReError "bad escape"
  else ReOk (SLit e).

Definition set_token (s : list ascii) : result (set_item * list ascii) :=
  match s with
  | [] => ReError "unterminated character set"
  | c :: rest =>
      if Ascii.eqb c "\" then
        match rest with
        | [] => ReError "bad escape (end of pattern)"
        | e :: rest' =>
            match class_escape e with
            | ReOk it => ReOk (it, rest')
            | ReError m => ReError m
            | ReUnsupported => ReUnsupported
            end
        end
      else ReOk (SLit c, rest)
  end.

(** The loop of [sre_parse._parse] over the inside of [[...]];
    [acc] holds the items read so far, last first. *)
Fixpoint parse_set (fuel : nat) (acc : list set_item) (s : list ascii)
  : result (list set_item * list ascii) :=
  match fuel with
  | O => ReUnsupported
  | S fuel' =>
      match s with
      | [] => ReError "unterminated character set"
      | c :: rest =>
          if Ascii.eqb c "]" && negb (Nat.eqb (length acc) 0) then ReOk (rev acc, rest)
          else
            match set_token s with
            | ReError m => ReError m
            | ReUnsupported => ReUnsupported
            | ReOk (code1, rest1) =>
                match rest1 with
                | d :: rest2 =>
                    if Ascii.eqb d "-" then
                      match rest2 with
                      | [] => ReError "unterminated character set"
                      | t :: rest3 =>
                          if Ascii.eqb t "]" then ReOk (rev (SLit "-" :: code1 :: acc), rest3)
                          else
                            match set_token rest2 with
                            | ReError m => ReError m
                            | ReUnsupported => ReUnsupported
                            | ReOk (code2, rest4) =>
                                match code1, code2 with
                                | SLit lo, SLit hi =>
                                    if Py.code hi <? Py.code lo
                                    then ReError "bad character range"
                                    else parse_set fuel' (SRange lo hi :: acc) rest4
                                | _, _ => ReError "bad character range"
                                end
                            end
                      end
                    else parse_set fuel' (code1 :: acc) rest1
                | [] => parse_set fuel' (code1 :: acc) rest1
                end
            end
      end
  end.

Fixpoint take_digits (s : list ascii) : list ascii * list ascii :=
  match s with
  | c :: s' =>
      if Py.is_digit c then let '(ds, r) := take_digits s' in (c :: ds, r) else ([], s)
  | [] => ([], [])
  end.

Definition nat_of_digits (ds : list ascii) : nat :=
  fold_left (fun n c => 10 * n + (Py.code c - 48)) ds 0.

(** The text after [{]: [Some (min, max, rest)] for a well-formed
    [{m}], [{m,}], [{,n}] or [{m,n}]; [None] when the brace is a literal. *)
Definition parse_braces (s : list ascii) : option (nat * option nat * list ascii) :=
  let '(lo, r1) := take_digits s in
  let '(hi, has_comma, r2) :=
    match r1 with
    | c :: r1' => if Ascii.eqb c "," then let '(h, r) := take_digits r1' in (h, true, r)
                  else (lo, false, r1)
    | [] => (lo, false, r1)
    end in
  match r2 with
  | c :: r3 =>
      if Ascii.eqb c "}" then
        Some (match lo with [] => 0 | _ => nat_of_digits lo end,
              match hi with [] => None | _ => Some (nat_of_digits hi) end,
              r3)
      else None
  | [] => None
  end.

(** Apply a repetition to the last atom read ([cur] is last first). *)
Definition repeat_last (lo : nat) (hi : option nat) (cur : list piece)
  : result (list piece) :=
  match cur with
  | [] => ReError "nothing to repeat"
  | p :: cur' =>
      if p_repeated p then ReError "multiple repeat"
      else
        match hi with
        | Some h => if h <? lo then ReError "min repeat greater than max repeat"
                    else ReOk (mkPiece (p_atom p) lo hi true :: cur')
        | None => ReOk (mkPiece (p_atom p) lo hi true :: cur')
        end
  end.

(** A repetition followed by [?] or [+] (lazy, possessive) is left out. *)
Definition no_suffix (s : list ascii) : bool :=
  match s with
  | c :: _ => negb (Ascii.eqb c "?" || Ascii.eqb c "+")
  | [] => true
  end.

Fixpoint parse (fuel : nat) (alts : list (list piece)) (cur : list piece)
  (s : list ascii) : result regex :=
  match fuel with
  | O => ReUnsupported
  | S fuel' =>
      match s with
      | [] => ReOk (rev (rev cur :: alts))
      | c :: rest =>
          let repeat lo hi rest' :=
            if no_suffix rest' then
              match repeat_last lo hi cur with
              | ReOk cur' => parse fuel' alts cur' rest'
              | ReError m => ReError m
              | ReUnsupported => ReUnsupported
              end
            else ReUnsupported in
          if Ascii.eqb c "|" then parse fuel' (rev cur :: alts) [] rest
          else if Ascii.eqb c "[" then
            let '(neg, body) :=
              match rest with
              | n :: rest' => if Ascii.eqb n "^" then (true, rest') else (false, rest)
              | [] => (false, rest)
              end in
            match parse_set (S (length body)) [] body with
            | ReOk (items, rest') => parse fuel' alts (mkPiece (ASet neg items) 1 (Some 1) false :: cur) rest'
            | ReError m => ReError m
            | ReUnsupported => ReUnsupported
            end
          else if Ascii.eqb c "." then parse fuel' alts (mkPiece AAny 1 (Some 1) false :: cur) rest
          else if Ascii.eqb c "*" then repeat 0 None rest
          else if Ascii.eqb c "+" then repeat 1 None rest
          else if Ascii.eqb c "?" then repeat 0 (Some 1) rest
          else if Ascii.eqb c "{" then
            match parse_braces rest with
            | Some (lo, hi, rest') => repeat lo hi rest'
            | None => parse fuel' alts (mkPiece (ALit c) 1 (Some 1) false :: cur) rest
            end
          else if existsb (Ascii.eqb c) ["\"; "("; ")"; "^"; "$"]%char then ReUnsupported
          else parse fuel' alts (mkPiece (ALit c) 1 (Some 1) false :: cur) rest
      end
  end.

(** [re.compile(pattern)] *)
Definition compile (pattern : string) : result regex :=
  let s := list_ascii_of_string pattern in
  parse (S (length s)) [] [] s.

(** *** Matching *)

Definition item_matches (c : ascii) (it : set_item) : bool :=
  match it with
  | SLit x => Ascii.eqb c x
  | SRange lo hi => (Py.code lo <=? Py.code c) && (Py.code c <=? Py.code hi)
  | SCat k =>
      if Ascii.eqb k "d" then Py.is_digit c
      else if Ascii.eqb k "D" then negb (Py.is_digit c)
      else if Ascii.eqb k "s" then Py.is_space c
      else if Ascii.eqb k "S" then negb (Py.is_space c)
      else if Ascii.eqb k "w" then Py.is_word c
      else negb (Py.is_word c)
  end.

Definition atom_matches (a : atom) (c : ascii) : bool :=
  match a with
  | ALit x => Ascii.eqb c x
  | AAny => negb (Ascii.eqb c (ascii_of_nat 10))
  | ASet neg items => xorb neg (existsb (item_matches c) items)
  end.

Definition within (n : nat) (hi : option nat) : bool :=
  match hi with Some h => n <=? h | None => true end.

(** Does some prefix of [s] match the sequence [ps]? *)
Fixpoint match_seq (ps : list piece) (s : list ascii) : bool :=
  match ps with
  | [] => true
  | p :: ps' =>
      (fix rep (n : nat) (s : list ascii) {struct s} : bool :=
         ((p_min p <=? n) && match_seq ps' s)
         || match s with
            | c :: s' => within (S n) (p_max p) && atom_matches (p_atom p) c && rep (S n) s'
            | [] => false
            end) 0 s
  end.

Fixpoint suffixes (s : list ascii) : list (list ascii) :=
  s :: match s with [] => [] | _ :: s' => suffixes s' end.

(** [regex.search(text) is not None] *)
Definition search (r : regex) (text : string) : bool :=
  existsb (fun suf => existsb (fun alt => match_seq alt suf) r)
          (suffixes (list_ascii_of_string text)).

End Re.

(** The pattern of the date-like gate, as the two call sites write it
    (a raw string: the two backslashes are two characters). *)
Definition date_like_pattern : string := "[/\\-.]|[A-Za-z]{3,}".

Example date_like_pattern_length : String.length date_like_pattern = 20.
Proof. reflexivity. Qed.

Example date_like_pattern_does_not_compile :
  Re.compile date_like_pattern = Re.ReError "bad character range".
Proof. reflexivity. Qed.

(** With one backslash the same engine accepts the pattern and finds the
    separators and the alphabetic runs. *)
Example single_backslash_pattern_compiles :
  match Re.compile "[/\-.]|[A-Za-z]{3,}" with
  | Re.ReOk r =>
      Re.search r "2020-01-01" = true /\ Re.search r "12 Mar" = true /\
      Re.search r "12 ab 7" = false /\ Re.search r "1234" = false
  | _ => False
  end.
Proof. vm_compute. repeat split. Qed.

(** ** Cells, columns, tables *)

Inductive value : Type :=
| NA                         (* the missing marker: None, NaN, NaT *)
| VStr (s : string)
| VInt (z : Z)
| VFloat (f : float)
| VBool (b : bool)
| VTime (t : Z).             (* a timestamp, in nanoseconds *)

Inductive dtype : Type :=
| object | int64 | float64 | bool_ | datetime64 | string_.

Definition dtype_eqb (a b : dtype) : bool :=
  match a, b with
  | object, object | int64, int64 | float64, float64
  | bool_, bool_ | datetime64, datetime64 | string_, string_ => true
  | _, _ => false
  end.

(** [str(series.dtype)] *)
Definition dtype_name (d : dtype) : string :=
  match d with
  | object => "object" | int64 => "int64" | float64 => "float64"
  | bool_ => "bool" | datetime64 => "datetime64[ns]" | string_ => "string"
  end.

(** [pd.api.types.is_numeric_dtype] (booleans count as numeric) *)
Definition is_numeric_dtype (d : dtype) : bool :=
  match d with int64 | float64 | bool_ => true | _ => false end.

(** Membership in [select_dtypes(include=['number'])] (booleans do not) *)
Definition is_number_dtype (d : dtype) : bool :=
  match d with int64 | float64 => true | _ => false end.

Record column : Type := mkColumn {
  name : string;
  dtype_of : dtype;
  values : list value
}.

(** A table: the length of its index and its columns in order.  The index
    is kept apart from the columns because a table without columns still
    has rows ([df.shape = (nrows, 0)]). *)
Record DataFrame : Type := mkDataFrame {
  nrows : nat;
  columns : list column
}.

Definition ncols (df : DataFrame) : nat := length (columns df).
Definition shape (df : DataFrame) : nat * nat := (nrows df, ncols df).
Definition names (df : DataFrame) : list string := map name (columns df).

(** Every column holds one cell per row. *)
Definition well_formed (df : DataFrame) : Prop :=
  Forall (fun c => length (values c) = nrows df) (columns df).

(** ** Floats *)

(** The binary64 value of an integer, rounded to nearest (ties to even). *)
Definition Z2F (z : Z) : float :=
  SF2Prim (binary_normalize prec emax z 0 false).

Definition N2F (n : nat) : float := Z2F (Z.of_nat n).

Arguments Z2F : simpl never.
Arguments N2F : simpl never.

(** [a / max(1, b)] on two counts *)
Definition ratio (a b : nat) : float := (N2F a / N2F (Nat.max 1 b))%float.

(** [pd.isna] on a float *)
Definition is_nan (f : float) : bool := negb (PrimFloat.eqb f f).

Definition nan : float := PrimFloat.nan.

(** [x >= y] and [x > y] on floats (false when either is NaN) *)
Definition fge (x y : float) : bool := PrimFloat.leb y x.
Definition fgt (x y : float) : bool := PrimFloat.ltb y x.

(** ** pandas element-wise operations *)

Definition isna (v : value) : bool :=
  match v with
  | NA => true
  | VFloat f => is_nan f
  | _ => false
  end.

Definition notna (v : value) : bool := negb (isna v).

(** [series.dropna()] *)
Definition dropna_values (vs : list value) : list value := List.filter notna vs.

(** [series.isna().sum()] *)
Definition na_count (vs : list value) : nat := length (List.filter isna vs).

(** The float a numeric cell stands for; NaN for anything else. *)
Definition to_float (v : value) : float :=
  match v with
  | VInt z => Z2F z
  | VFloat f => f
  | VBool b => if b then 1%float else 0%float
  | _ => nan
  end.

(** Equality of two cells as [duplicated] and [mode] see it: missing cells
    are equal to each other, numbers are compared by value across int,
    float and bool, text by its characters. *)
Definition value_eqb (a b : value) : bool :=
  if isna a then isna b
  else if isna b then false
  else match a, b with
       | VStr s, VStr t => String.eqb s t
       | VInt x, VInt y => Z.eqb x y
       | VTime x, VTime y => Z.eqb x y
       | VStr _, _ | _, VStr _ | VTime _, _ | _, VTime _ | NA, _ | _, NA => false
       | _, _ => PrimFloat.eqb (to_float a) (to_float b)
       end.

(** What pandas decides on its own. *)
Record Pandas : Type := mkPandas {
  (** [pd.to_numeric] on one text cell: the number read, [None] when the
      text is not a numeral (the cell is then coerced to NaN). *)
  num_of_string : string -> option value;
  (** [pd.to_datetime] on one cell: the timestamp read, or [None] (NaT). *)
  parse_datetime : value -> option Z;
  (** [str(x)] for a float and for a timestamp. *)
  repr_float : float -> string;
  repr_time : Z -> string;
  (** Whether [fillna(v)] on a column of the given dtype raises. *)
  fillna_refuses : dtype -> value -> bool;
  (** Whether [astype("string")] raises on these cells. *)
  astype_string_refuses : list value -> bool;
  (** The sum numpy returns for the cells of a series of the given dtype,
      taken as binary64 values.  Which additions are made first is numpy's
      business (it adds in blocks, pairwise), so the last bit of a sum is
      not that of adding from left to right. *)
  sum_floats : dtype -> list float -> float
}.

(** ** Configuration and report *)

(** The configuration dictionary: one optional entry per recognised key
    ([None]: the key is absent). *)
Record Config : Type := mkConfig {
  normalize_columns : option bool;
  trim_whitespace : option bool;
  null_handling : option string;
  fill_strategy : option string;
  fill_constant : option value;
  drop_blank_rows : option bool;
  drop_blank_cols : option bool;
  drop_duplicates : option bool;
  infer_types : option bool;
  date_detect_thresh : option float;
  detect_outliers : option bool;
  outlier_method : option string;
  outlier_threshold : option float;
  outlier_action : option string
}.

(** [config.get(key)] used as a condition *)
Definition enabled (o : option bool) : bool := default false o.

(** The values stored in the report dictionary. *)
Inductive rvalue : Type :=
| RShape (s : nat * nat)
| RCount (z : Z)
| RRenames (m : gmap string string)
| RFilled (m : gmap string nat)
| RDtypes (m : gmap string (string * string))      (* from, to *)
| ROutliers (m : gmap string (nat * float)).       (* count, percent *)

Abbreviation Report := (gmap string rvalue).

(** The outcome of a [try] body. *)
Inductive attempt (A : Type) : Type :=
| Done (a : A)
| Raised (e : string).
Arguments Done {A} a.
Arguments Raised {A} e.

(** ** Access to a table *)

(** [df[c]] *)
Definition get_col (df : DataFrame) (c : string) : option column :=
  find (fun col => String.eqb (name col) c) (columns df).

(** [df[c] = series] for a label the table already has *)
Definition set_col (df : DataFrame) (c : string) (d : dtype) (vs : list value) : DataFrame :=
  mkDataFrame (nrows df)
    (map (fun col => if String.eqb (name col) c then mkColumn c d vs else col) (columns df)).

(** Row [i] across the columns. *)
Definition row (df : DataFrame) (i : nat) : list value :=
  map (fun c => nth i (values c) NA) (columns df).

Definition rows (df : DataFrame) : list (list value) :=
  map (row df) (seq 0 (nrows df)).

(** The entries of [xs] at the positions where [keep] is true. *)
Fixpoint select {A : Type} (keep : list bool) (xs : list A) : list A :=
  match keep, xs with
  | k :: keep', x :: xs' => if k then x :: select keep' xs' else select keep' xs'
  | _, _ => []
  end.

Definition count_true (mask : list bool) : nat := length (List.filter id mask).

(** Boolean indexing of the rows, [df.loc[keep]]. *)
Definition take_rows (keep : list bool) (df : DataFrame) : DataFrame :=
  mkDataFrame (count_true keep)
    (map (fun c => mkColumn (name c) (dtype_of c) (select keep (values c))) (columns df)).

(** ** Statistics of a numeric column *)

Definition floats (vs : list value) : list float := map to_float (dropna_values vs).

(** The cells as binary64 values, a missing cell counting as zero: what
    pandas hands to numpy's sum when it skips the missing cells. *)
Definition zero_filled (vs : list value) : list float :=
  map (fun v => if isna v then 0%float else to_float v) vs.

(** [series.mean()] on a series of dtype [d]: the sum of the cells over the
    number of cells present; NaN when none is. *)
Definition mean (pd : Pandas) (d : dtype) (vs : list value) : float :=
  let n := length (dropna_values vs) in
  if n =? 0 then nan
  else (sum_floats pd d (zero_filled vs) / N2F n)%float.

(** [series.std(ddof=0)]: the cells are converted to binary64 first, the
    squared deviations from the average are summed and divided by the
    number of cells present. *)
Definition std0 (pd : Pandas) (vs : list value) : float :=
  let n := length (dropna_values vs) in
  if n =? 0 then nan
  else
    let avg := (sum_floats pd float64 (zero_filled vs) / N2F n)%float in
    let sqr := map (fun v => if isna v then 0%float
                             else ((avg - to_float v) * (avg - to_float v))%float) vs in
    PrimFloat.sqrt (sum_floats pd float64 sqr / N2F n)%float.

Fixpoint insert_sorted {A : Type} (leb : A -> A -> bool) (x : A) (l : list A) : list A :=
  match l with
  | [] => [x]
  | y :: l' => if leb x y then x :: l else y :: insert_sorted leb x l'
  end.

Definition sort_by {A : Type} (leb : A -> A -> bool) (l : list A) : list A :=
  fold_right (insert_sorted leb) [] l.

(** numpy's linear interpolation between two neighbours. *)
Definition lerp (a b t : float) : float :=
  let d := (b - a)%float in
  if fge t 0.5%float then (b - d * (1 - t))%float else (a + d * t)%float.

(** [series.quantile(k/4)] with linear interpolation: the position
    [(n-1)*k/4] is split into its integer part and its fraction. *)
Definition quantile (k : nat) (vs : list value) : float :=
  let s := sort_by PrimFloat.leb (floats vs) in
  let n := length s in
  let pos := (n - 1) * k in
  let lo := pos / 4 in
  let hi := Nat.min (lo + 1) (n - 1) in
  lerp (nth lo s nan) (nth hi s nan) (N2F (pos mod 4) / 4)%float.

(** [series.median()] *)
Definition median (vs : list value) : float :=
  let s := sort_by PrimFloat.leb (floats vs) in
  let n := length s in
  if n =? 0 then nan
  else if Nat.odd n then nth (n / 2) s nan
  else ((nth (n / 2 - 1) s nan + nth (n / 2) s nan) / 2)%float.

(** Order used to sort the modes: numbers by value, text by characters;
    cells of different kinds are left in place. *)
Definition value_leb (a b : value) : bool :=
  match a, b with
  | VStr s, VStr t => String.leb s t
  | VTime x, VTime y => (x <=? y)%Z
  | VStr _, _ | _, VStr _ | VTime _, _ | _, VTime _ | NA, _ | _, NA => true
  | _, _ => PrimFloat.leb (to_float a) (to_float b)
  end.

Definition occurrences (v : value) (vs : list value) : nat :=
  length (List.filter (value_eqb v) vs).

(** The distinct cells of [vs], first occurrences in order. *)
Fixpoint distinct (seen vs : list value) : list value :=
  match vs with
  | [] => []
  | v :: vs' =>
      if existsb (value_eqb v) seen then distinct seen vs'
      else v :: distinct (v :: seen) vs'
  end.

(** [series.mode(dropna=True)]: the most frequent non-missing cells, sorted. *)
Definition mode (vs : list value) : list value :=
  let nn := dropna_values vs in
  let ds := distinct [] nn in
  let top := fold_right Nat.max 0 (map (fun v => occurrences v nn) ds) in
  sort_by value_leb (List.filter (fun v => occurrences v nn =? top) ds).

(** ** Stage 1: column names *)

(** [re.sub(r"\s+", "_", name)]: every run of whitespace becomes one
    underscore ([in_run]: the previous character was whitespace). *)
Fixpoint sub_space_runs (in_run : bool) (s : list ascii) : list ascii :=
  match s with
  | [] => []
  | c :: s' =>
      if Py.is_space c
      then (if in_run then sub_space_runs true s' else "_"%char :: sub_space_runs true s')
      else c :: sub_space_runs false s'
  end.

Definition _normalize_column_name (name : string) : string :=
  let name := Py.strip name in
  let name := string_of_list_ascii (sub_space_runs false (list_ascii_of_string name)) in
  let name := string_of_list_ascii (List.filter Py.is_word (list_ascii_of_string name)) in
  Py.lower name.

Example normalize_Name : _normalize_column_name " Name " = "name".
Proof. reflexivity. Qed.

Example normalize_Age : _normalize_column_name "Age!" = "age".
Proof. reflexivity. Qed.

Example normalize_inner_space : _normalize_column_name "First   Name (x)" = "first_name_x".
Proof. reflexivity. Qed.

(** [df.columns = new_cols] *)
Definition rename_columns (new_cols : list string) (df : DataFrame) : DataFrame :=
  mkDataFrame (nrows df)
    (zip_with (fun c n => mkColumn n (dtype_of c) (values c)) (columns df) new_cols).

(** The dictionary of the names that changed. *)
Definition renames (old new : list string) : gmap string string :=
  fold_left (fun m '(o, n) => if String.eqb o n then m else <[o := n]> m)
            (zip old new) ∅.

Definition normalize_stage (cfg : Config) (df : DataFrame) : DataFrame * gmap string string :=
  if enabled (normalize_columns cfg) then
    let new_cols := map _normalize_column_name (names df) in
    (rename_columns new_cols df, renames (names df) new_cols)
  else (df, ∅).

(** ** ASCII text

    On text of ASCII characters the classes above are Python's: the
    whitespace of [str.strip] and [\s], the letters that [str.lower] and
    [(?i)] fold. *)
Definition ascii_text (s : string) : bool :=
  forallb (fun c => Py.code c <? 128) (list_ascii_of_string s).

(** Every integer cell is one a 64-bit signed column can hold. *)
Definition int64_cell (v : value) : bool :=
  match v with
  | VInt z => ((- 9223372036854775808 <=? z) && (z <=? 9223372036854775807))%Z
  | _ => true
  end.

Definition int64_cells (df : DataFrame) : bool :=
  forallb (fun c => forallb int64_cell (values c)) (columns df).

(** ** Identifier-like column names

    [re.search(r'(?i)(?:^id$|_id$|^id_)', str(c))]: case is ignored, and [$]
    also matches before a newline that ends the text. *)
Definition id_pattern_search (c : string) : bool :=
  let s := list_ascii_of_string (Py.lower c) in
  let nl := ascii_of_nat 10 in
  let whole (p : list ascii) := Py.starts_with p s && (length s =? length p) in
  whole ["i"; "d"]%char || whole ["i"; "d"; nl]%char
  || Py.ends_with ["_"; "i"; "d"]%char s || Py.ends_with ["_"; "i"; "d"; nl]%char s
  || Py.starts_with ["i"; "d"; "_"]%char s.

Example id_names :
  map id_pattern_search ["id"; "user_id"; "ID_number"; "Id"; "idea"; "paid"; "value"; "x_id_y"]
  = [true; true; true; true; false; false; false; false].
Proof. reflexivity. Qed.

Section Pipeline.

Variable pd : Pandas.

(** ** Stage 2: whitespace *)

(** [str(x)] of one cell, as [astype(str)] applies it. *)
Definition py_str (v : value) : string :=
  match v with
  | VStr s => s
  | VInt z => pretty z
  | VFloat f => if is_nan f then "nan" else repr_float pd f
  | VBool b => if b then "True" else "False"
  | VTime t => repr_time pd t
  | NA => "nan"
  end.

(** One cell through
    [astype(str).where(notna, None)] and then [.str.strip()]. *)
Definition trim_cell (v : value) : value :=
  if isna v then NA else VStr (Py.strip (py_str v)).

(** The body of the loop over the object columns.  Within the scalar
    cells of the model neither statement of the [try] raises. *)
Definition trim_column (df : DataFrame) (c : string) : DataFrame :=
  match get_col df c with
  | Some col => set_col df c object (map trim_cell (values col))
  | None => df
  end.

(** [df.select_dtypes(include=['object']).columns] *)
Definition object_names (df : DataFrame) : list string :=
  map name (List.filter (fun c => dtype_eqb (dtype_of c) object) (columns df)).

Definition trim_stage (cfg : Config) (df : DataFrame) : DataFrame :=
  if enabled (trim_whitespace cfg)
  then fold_left trim_column (object_names df) df
  else df.

(** ** Stage 3: missing cells *)

(** The dtype of a column after [fillna(v)]: kept when the column can
    hold [v], [object] otherwise. *)
Definition fill_dtype (d : dtype) (v : value) : dtype :=
  match d, v with
  | object, _ => object
  | float64, (VFloat _ | VInt _) => float64
  | int64, VInt _ => int64
  | bool_, VBool _ => bool_
  | datetime64, VTime _ => datetime64
  | string_, VStr _ => string_
  | _, _ => object
  end.

(** The cell written in place of a missing one. *)
Definition fill_cell (d : dtype) (v : value) : value :=
  match d, v with
  | float64, VInt z => VFloat (Z2F z)
  | _, _ => v
  end.

Definition is_number_cell (v : value) : bool :=
  match v with VInt _ | VFloat _ | VBool _ => true | _ => false end.

(** Whether [fillna(v)] raises on a column of dtype [d]: an object column
    holds any scalar and a numeric column any number; in the other cases
    pandas decides. *)
Definition fill_refused (d : dtype) (v : value) : bool :=
  match d with
  | object => false
  | int64 | float64 | bool_ => negb (is_number_cell v) && fillna_refuses pd d v
  | datetime64 | string_ => fillna_refuses pd d v
  end.

(** [col.fillna(v)]; [fillna(None)] raises [ValueError]. *)
Definition fillna (col : column) (v : option value) : attempt column :=
  match v with
  | None | Some NA => Raised "ValueError: Must specify a fill 'value' or 'method'."
  | Some v =>
      if fill_refused (dtype_of col) v then Raised "TypeError"
      else Done (mkColumn (name col) (fill_dtype (dtype_of col) v)
                   (map (fun x => if isna x then fill_cell (dtype_of col) v else x)
                        (values col)))
  end.

(** The value of the last branch:
    [col.fillna('') if col.dtype == object else col.fillna(0)]. *)
Definition fallback_fill (col : column) : attempt column :=
  if dtype_eqb (dtype_of col) object then fillna col (Some (VStr ""))
  else fillna col (Some (VInt 0)).

(** The body of the [try] of the fill loop. *)
Definition fill_attempt (strategy : string) (const : option value)
  (col : column) : attempt column :=
  let chosen s := String.eqb strategy s in
  if chosen "mean" && is_numeric_dtype (dtype_of col) then
    fillna col (Some (VFloat (mean pd (dtype_of col) (values col))))
  else if chosen "median" && is_numeric_dtype (dtype_of col) then
    fillna col (Some (VFloat (median (values col))))
  else if chosen "mode" then
    match mode (values col) with
    | v :: _ => fillna col (Some v)
    | [] => fallback_fill col
    end
  else if chosen "constant" then fillna col const
  else fallback_fill col.

(** One iteration of [for c in df.columns] in the fill branch. *)
Definition fill_column (strategy : string) (const : option value)
  (st : DataFrame * gmap string nat) (c : string) : DataFrame * gmap string nat :=
  let '(df, filled_counts) := st in
  match get_col df c with
  | None => st
  | Some col =>
      let n := na_count (values col) in
      if n =? 0 then st
      else
        match fill_attempt strategy const col with
        | Done col' => (set_col df c (dtype_of col') (values col'), <[c := n]> filled_counts)
        | Raised _ => st
        end
  end.

(** [df.dropna(how='any')] *)
Definition dropna_any (df : DataFrame) : DataFrame :=
  take_rows (map (forallb notna) (rows df)) df.

(** [df.dropna(how='all')] *)
Definition dropna_all (df : DataFrame) : DataFrame :=
  take_rows (map (existsb notna) (rows df)) df.

(** [df.dropna(axis=1, how='all')] *)
Definition dropna_all_columns (df : DataFrame) : DataFrame :=
  mkDataFrame (nrows df) (List.filter (fun c => existsb notna (values c)) (columns df)).

(** [before - len(df)] *)
Definition removed (before after : nat) : Z := (Z.of_nat before - Z.of_nat after)%Z.

(** The strategy in force: [config.get('fill_strategy', 'mode')]. *)
Definition strategy_of (cfg : Config) : string :=
  default "mode" (fill_strategy cfg).

(** The null handler: the table, [nulls_dropped] and [nulls_filled]. *)
Definition null_stage (cfg : Config) (df : DataFrame)
  : DataFrame * Z * gmap string nat :=
  let null_handling := default "none" (null_handling cfg) in
  if String.eqb null_handling "drop_rows" then
    let df' := dropna_any df in
    (df', removed (nrows df) (nrows df'), ∅)
  else if String.eqb null_handling "fill" then
    let '(df', filled_counts) :=
      fold_left (fill_column (strategy_of cfg) (fill_constant cfg)) (names df) (df, ∅) in
    (df', 0%Z, filled_counts)
  else (df, 0%Z, ∅).

(** ** Stages 4 and 5: blank rows, blank columns, duplicates *)

Definition blank_rows_stage (cfg : Config) (df : DataFrame) : DataFrame * Z :=
  if enabled (drop_blank_rows cfg) then
    let df' := dropna_all df in (df', removed (nrows df) (nrows df'))
  else (df, 0%Z).

Definition blank_cols_stage (cfg : Config) (df : DataFrame) : DataFrame * Z :=
  if enabled (drop_blank_cols cfg) then
    let df' := dropna_all_columns df in (df', removed (ncols df) (ncols df'))
  else (df, 0%Z).

Definition row_eqb (r s : list value) : bool :=
  (length r =? length s) && forallb (fun p => value_eqb (fst p) (snd p)) (zip r s).

(** The keep mask of [duplicated(keep='first')]: a row is kept when no
    earlier row ([seen]) equals it. *)
Fixpoint keep_first (seen : list (list value)) (rs : list (list value)) : list bool :=
  match rs with
  | [] => []
  | r :: rs' => negb (existsb (fun s => row_eqb s r) seen) :: keep_first (r :: seen) rs'
  end.

(** [df.drop_duplicates()]; an empty table is returned as it is. *)
Definition pd_drop_duplicates (df : DataFrame) : DataFrame :=
  if (nrows df =? 0) || (ncols df =? 0) then df
  else take_rows (keep_first [] (rows df)) df.

Definition duplicates_stage (cfg : Config) (df : DataFrame) : DataFrame * Z :=
  if enabled (drop_duplicates cfg) then
    let df' := pd_drop_duplicates df in (df', removed (nrows df) (nrows df'))
  else (df, 0%Z).

(** ** Stage 6: type inference *)

(** [pd.to_numeric(series, errors='coerce')], one cell.  A datetime
    column is read as its integer nanoseconds (the missing timestamp as
    the smallest integer). *)
Definition numeric_cell (d : dtype) (v : value) : value :=
  match v with
  | VStr s =>
      match num_of_string pd s with
      | Some (VInt z) => VInt z
      | Some (VFloat f) => VFloat f
      | _ => NA
      end
  | VInt z => VInt z
  | VFloat f => VFloat f
  | VBool b => VBool b
  | VTime t => if dtype_eqb d datetime64 then VInt t else NA
  | NA => if dtype_eqb d datetime64 then VInt (-9223372036854775808) else NA
  end.

Definition is_bool_cell (v : value) : bool :=
  match v with VBool _ => true | _ => false end.

Definition is_int_cell (v : value) : bool :=
  match v with VInt _ | VBool _ => true | _ => false end.

(** The converted series: its dtype and its cells. *)
Definition to_numeric (col : column) : dtype * list value :=
  let conv := map (numeric_cell (dtype_of col)) (values col) in
  if forallb is_bool_cell conv then (bool_, conv)
  else if forallb is_int_cell conv then
    (int64, map (fun v => match v with VBool b => VInt (if b then 1 else 0) | _ => v end) conv)
  else (float64, map (fun v => if isna v then NA else VFloat (to_float v)) conv).

(** [pd.to_datetime(series, errors='coerce')] *)
Definition to_datetime (vs : list value) : list value :=
  map (fun v => match parse_datetime pd v with Some t => VTime t | None => NA end) vs.

(** [conv.notna().sum()] *)
Definition notna_count (vs : list value) : nat := length (List.filter notna vs).

(** [series.str.contains(pat, regex=True)]: the pattern is compiled
    first, and a pattern that does not compile raises. *)
Definition str_contains (pat : string) (texts : list string) : attempt (list bool) :=
  match Re.compile pat with
  | Re.ReOk r => Done (map (Re.search r) texts)
  | Re.ReError m => Raised ("re.error: " ++ m)
  | Re.ReUnsupported => Raised "pattern outside the modelled fragment"
  end.

(** The [try] of the datetime attempt.  [Done (Some conv)]: the column is
    committed; [Done None]: the iteration ends without a change (the
    [continue] of the gate, or too few cells parsed). *)
Definition infer_datetime (thresh : float) (series : column) : attempt (option (list value)) :=
  let non_na := map py_str (dropna_values (values series)) in
  let gate : attempt bool :=
    if length non_na =? 0 then Done true
    else
      match str_contains date_like_pattern non_na with
      | Done hits =>
          Done (negb (PrimFloat.ltb (ratio (count_true hits) (length non_na)) thresh))
      | Raised e => Raised e
      end in
  match gate with
  | Raised e => Raised e
  | Done false => Done None
  | Done true =>
      let conv := to_datetime (values series) in
      if fge (ratio (notna_count conv) (length (values series))) thresh
      then Done (Some conv) else Done None
  end.

(** One iteration of [for c in df.columns] of the inference. *)
Definition infer_column (thresh : float)
  (st : DataFrame * gmap string (string * string)) (c : string)
  : DataFrame * gmap string (string * string) :=
  let '(df, dtype_changes) := st in
  match get_col df c with
  | None => st
  | Some series =>
      let old_dtype := dtype_name (dtype_of series) in
      if length (dropna_values (values series)) =? 0 then st
      else
        let '(d, conv) := to_numeric series in
        if fge (ratio (notna_count conv) (length (values series))) 0.9%float then
          (set_col df c d conv, <[c := (old_dtype, "numeric")]> dtype_changes)
        else
          match infer_datetime thresh series with
          | Done (Some conv) =>
              (set_col df c datetime64 conv, <[c := (old_dtype, "datetime")]> dtype_changes)
          | Done None | Raised _ => st
          end
  end.

Definition infer_stage (cfg : Config) (df : DataFrame)
  : DataFrame * gmap string (string * string) :=
  if enabled (infer_types cfg) then
    let thresh := default 0.5%float (date_detect_thresh cfg) in
    fold_left (infer_column thresh) (names df) (df, ∅)
  else (df, ∅).

(** ** Stage 7: the finalizer *)

(** The [try] of the datetime attempt of the finalizer. *)
Definition final_datetime (ser : column) : attempt (option (list value)) :=
  let non_na := map py_str (dropna_values (values ser)) in
  let date_like : attempt nat :=
    if length non_na =? 0 then Done 0
    else
      match str_contains date_like_pattern non_na with
      | Done hits => Done (count_true hits)
      | Raised e => Raised e
      end in
  match date_like with
  | Raised e => Raised e
  | Done k =>
      if PrimFloat.ltb (ratio k (length non_na)) 0.95%float
      then Raised "ValueError: Not enough date-like values"
      else
        let conv := to_datetime (values ser) in
        if fge (ratio (notna_count conv) (length (values ser))) 0.95%float
        then Done (Some conv) else Done None
  end.

(** [ser.astype("string")]: text cells, the missing marker kept. *)
Definition astype_string (vs : list value) : attempt (list value) :=
  if astype_string_refuses pd vs then Raised "astype: cannot convert to string dtype"
  else Done (map (fun v => if isna v then NA else VStr (py_str v)) vs).

(** [ser.astype(str)]: every cell through [str]. *)
Definition astype_str (vs : list value) : list value :=
  map (fun v => VStr (py_str v)) vs.

(** One iteration of the loop of [_make_arrow_compatible]. *)
Definition arrow_column (df : DataFrame) (c : string) : DataFrame :=
  match get_col df c with
  | None => df
  | Some ser =>
      if dtype_eqb (dtype_of ser) object then
        let '(d, conv) := to_numeric ser in
        if fge (ratio (notna_count conv) (length (values ser))) 0.95%float then
          set_col df c d conv
        else
          match final_datetime ser with
          | Done (Some conv) => set_col df c datetime64 conv
          | Done None | Raised _ =>
              match astype_string (values ser) with
              | Done vs => set_col df c string_ vs
              | Raised _ => set_col df c object (astype_str (values ser))
              end
          end
      else df
  end.

Definition _make_arrow_compatible (df : DataFrame) : DataFrame :=
  fold_left arrow_column (names df) df.

(** ** Stage 8: outliers *)

(** The columns the detector looks at: numeric, and not identifier-like. *)
Definition numeric_cols (df : DataFrame) : list string :=
  List.filter (fun c => negb (id_pattern_search c))
    (map name (List.filter (fun c => is_number_dtype (dtype_of c)) (columns df))).

Definition iqr_mask (thresh : float) (vs : list value) : list bool :=
  let q1 := quantile 1 vs in
  let q3 := quantile 3 vs in
  let iqr := (q3 - q1)%float in
  let lower := (q1 - thresh * iqr)%float in
  let upper := (q3 + thresh * iqr)%float in
  map (fun v => PrimFloat.ltb (to_float v) lower || PrimFloat.ltb upper (to_float v)) vs.

Definition zscore (mu sigma : float) (v : value) : float :=
  ((to_float v - mu) / sigma)%float.

(** The z-score branch on a column of dtype [d]: the mean and the deviation
    are those of [ser], the column without its missing cells. *)
Definition zscore_mask (d : dtype) (n : nat) (thresh : float) (vs : list value) : list bool :=
  let ser := dropna_values vs in
  let mu := mean pd d ser in
  let sigma := std0 pd ser in
  if PrimFloat.eqb sigma 0%float || is_nan sigma then repeat false n
  else map (fun v => fgt (PrimFloat.abs (zscore mu sigma v)) thresh) vs.

(** One iteration of [for c in numeric_cols]. *)
Definition outlier_column (df : DataFrame) (method : string) (thresh : float)
  (action : string) (st : gmap string (nat * float) * list bool) (c : string)
  : gmap string (nat * float) * list bool :=
  let '(outliers, removal_mask) := st in
  match get_col df c with
  | None => st
  | Some col =>
      if length (dropna_values (values col)) =? 0
      then (<[c := (0, 0%float)]> outliers, removal_mask)
      else
        let mask :=
          if String.eqb method "iqr" then iqr_mask thresh (values col)
          else zscore_mask (dtype_of col) (nrows df) thresh (values col) in
        let count := count_true mask in
        let percent := ratio count (nrows df) in
        (<[c := (count, percent)]> outliers,
         if String.eqb action "drop" && (0 <? count)
         then zip_with orb removal_mask mask else removal_mask)
  end.

(** The report entries and the removal mask after the loop. *)
Definition scan_outliers (method : string) (thresh : float) (action : string)
  (df : DataFrame) : gmap string (nat * float) * list bool :=
  fold_left (outlier_column df method thresh action) (numeric_cols df)
            (∅, repeat false (nrows df)).

(** The defensive pass over the keys of [report['outliers']]. *)
Definition purge_ids (outliers : gmap string (nat * float)) : gmap string (nat * float) :=
  filter (fun kv => id_pattern_search kv.1 = false) outliers.

Definition method_of (cfg : Config) : string := default "iqr" (outlier_method cfg).

Definition threshold_of (cfg : Config) : float :=
  default (if String.eqb (method_of cfg) "iqr" then 1.5%float else 3%float)
          (outlier_threshold cfg).

Definition action_of (cfg : Config) : string := default "report" (outlier_action cfg).

(** The detector: the table, [report['outliers']], [outliers_removed]. *)
Definition outlier_stage (cfg : Config) (df : DataFrame)
  : DataFrame * gmap string (nat * float) * Z :=
  if enabled (detect_outliers cfg) then
    let '(outliers, removal_mask) :=
      scan_outliers (method_of cfg) (threshold_of cfg) (action_of cfg) df in
    if String.eqb (action_of cfg) "drop" then
      let df' := take_rows (map negb removal_mask) df in
      (df', purge_ids outliers, removed (nrows df) (nrows df'))
    else (df, purge_ids outliers, 0%Z)
  else (df, ∅, 0%Z).

(** ** The pipeline *)

Definition clean_dataframe (df : DataFrame) (config : Config) : DataFrame * Report :=
  let original_shape := shape df in
  let report : Report := <["original_shape" := RShape original_shape]> ∅ in
  let '(df, col_renames) := normalize_stage config df in
  let report := <["col_renames" := RRenames col_renames]> report in
  let df := trim_stage config df in
  let '(df, nulls_dropped, nulls_filled) := null_stage config df in
  let report := <["nulls_dropped" := RCount nulls_dropped]> report in
  let report := <["nulls_filled" := RFilled nulls_filled]> report in
  let '(df, blank_rows_dropped) := blank_rows_stage config df in
  let report := <["blank_rows_dropped" := RCount blank_rows_dropped]> report in
  let '(df, blank_cols_dropped) := blank_cols_stage config df in
  let report := <["blank_cols_dropped" := RCount blank_cols_dropped]> report in
  let '(df, duplicates_dropped) := duplicates_stage config df in
  let report := <["duplicates_dropped" := RCount duplicates_dropped]> report in
  let '(df, dtype_changes) := infer_stage config df in
  let report := <["dtype_changes" := RDtypes dtype_changes]> report in
  let df := _make_arrow_compatible df in
  let '(df, outliers, outliers_removed) := outlier_stage config df in
  let report := <["outliers" := ROutliers outliers]> report in
  let report := <["outliers_removed" := RCount outliers_removed]> report in
  let cleaned_shape := shape df in
  let report := <["cleaned_shape" := RShape cleaned_shape]> report in
  let report := <["rows_removed" := RCount (removed (fst original_shape) (fst cleaned_shape))]> report in
  let report := <["cols_removed" := RCount (removed (snd original_shape) (snd cleaned_shape))]> report in
  (df, report).

End Pipeline.

(** ** A reference instance of the interface

    Enough of pandas to run the pipeline on concrete tables: numerals are
    an optional sign and decimal digits, with an optional fraction;
    dates are [YYYY-MM-DD]; a float prints as its integer part followed by
    [.0] (exact on the integral values the examples use); the string dtype
    refuses a fill value that is not text; a sum is numpy's pairwise one. *)

Module Ref.

Definition digits_value (ds : list ascii) : Z :=
  fold_left (fun n c => (10 * n + Z.of_nat (Py.code c - 48))%Z) ds 0%Z.

Definition all_digits (ds : list ascii) : bool :=
  negb (length ds =? 0) && forallb Py.is_digit ds.

Fixpoint split_at (sep : ascii) (s : list ascii) : list ascii * option (list ascii) :=
  match s with
  | [] => ([], None)
  | c :: s' =>
      if Ascii.eqb c sep then ([], Some s')
      else let '(a, b) := split_at sep s' in (c :: a, b)
  end.

Definition num_of_string (s : string) : option value :=
  let t := list_ascii_of_string (Py.strip s) in
  let '(neg, body) :=
    match t with
    | c :: t' => if Ascii.eqb c "-" then (true, t')
                 else if Ascii.eqb c "+" then (false, t') else (false, t)
    | [] => (false, t)
    end in
  let sign (z : Z) := if neg then (- z)%Z else z in
  match split_at "." body with
  | (int_part, None) =>
      if all_digits int_part then Some (VInt (sign (digits_value int_part))) else None
  | (int_part, Some frac) =>
      if all_digits int_part && all_digits frac then
        Some (VFloat (Z2F (sign (digits_value (int_part ++ frac)))
                      / Z2F (10 ^ Z.of_nat (length frac)))%float)
      else None
  end.

(** Days from 1970-01-01 to a civil date. *)
Definition days_from_civil (y m d : Z) : Z :=
  let y := (if m <=? 2 then y - 1 else y)%Z in
  let era := (y / 400)%Z in
  let yoe := (y - era * 400)%Z in
  let doy := ((153 * (if m >? 2 then m - 3 else m + 9) + 2) / 5 + d - 1)%Z in
  let doe := (yoe * 365 + yoe / 4 - yoe / 100 + doy)%Z in
  (era * 146097 + doe - 719468)%Z.

Definition parse_datetime (v : value) : option Z :=
  match v with
  | VStr s =>
      let t := list_ascii_of_string (Py.strip s) in
      match split_at "-" t with
      | (y, Some rest) =>
          match split_at "-" rest with
          | (m, Some d) =>
              if all_digits y && all_digits m && all_digits d
                 && (length y =? 4) && (length m =? 2) && (length d =? 2)
                 && (1 <=? digits_value m)%Z && (digits_value m <=? 12)%Z
                 && (1 <=? digits_value d)%Z && (digits_value d <=? 31)%Z
              then Some (days_from_civil (digits_value y) (digits_value m) (digits_value d)
                         * 86400000000000)%Z
              else None
          | _ => None
          end
      | _ => None
      end
  | VTime t => Some t
  | _ => None
  end.

Definition is_text (v : value) : bool :=
  match v with VStr _ => true | _ => false end.

(** The integer part of the magnitude of a float ([frshiftexp] biases
    the exponent by 2101; the mantissa has 53 bits). *)
Definition trunc_abs (f : float) : Z :=
  let '(m, e) := PrimFloat.frshiftexp (PrimFloat.abs f) in
  Z.shiftl (Uint63.to_Z (PrimFloat.normfr_mantissa m))
           (Uint63.to_Z e - 2101 - 53).

Definition repr_float (f : float) : string :=
  (if PrimFloat.ltb f 0 then "-" else "") ++ pretty (trunc_abs f) ++ ".0".

(** numpy's sum of a float array.  Fewer than eight cells are added in
    order.  Up to 128 cells are added as eight interleaved partial sums,
    the eight are combined as a tree and the cells left over (fewer than
    eight) are added in order.  A longer array is split in two, the first
    part a multiple of eight long, and the two sums are added. *)
Definition in_order (acc : float) (xs : list float) : float :=
  fold_left PrimFloat.add xs acc.

Fixpoint interleaved (fuel : nat) (r xs : list float) : list float * list float :=
  match fuel with
  | 0 => (r, xs)
  | S fuel' =>
      if length xs <? 8 then (r, xs)
      else interleaved fuel' (zip_with PrimFloat.add r (firstn 8 xs)) (skipn 8 xs)
  end.

Definition tree8 (r : list float) : float :=
  match r with
  | [r0; r1; r2; r3; r4; r5; r6; r7] =>
      (((r0 + r1) + (r2 + r3)) + ((r4 + r5) + (r6 + r7)))%float
  | _ => nan
  end.

Fixpoint pairwise_sum (fuel : nat) (xs : list float) : float :=
  let n := length xs in
  if n <? 8 then in_order 0%float xs
  else if n <=? 128 then
    let '(r, rest) := interleaved n (firstn 8 xs) (skipn 8 xs) in
    in_order (tree8 r) rest
  else
    match fuel with
    | 0 => in_order 0%float xs
    | S fuel' =>
        let n2 := n / 2 - (n / 2) mod 8 in
        (pairwise_sum fuel' (firstn n2 xs) + pairwise_sum fuel' (skipn n2 xs))%float
    end.

Definition sum_floats (d : dtype) (xs : list float) : float :=
  pairwise_sum (length xs) xs.

Definition pandas : Pandas :=
  mkPandas num_of_string parse_datetime repr_float
    (fun t => pretty t)
    (fun d v => dtype_eqb d string_ && negb (is_text v))
    (fun _ => false)
    sum_floats.

End Ref.

(** The configuration with no key set. *)
Definition no_config : Config :=
  mkConfig None None None None None None None None None None None None None None.

(** ** The table and the report entries after each stage *)

Section Stages.

Variable pd : Pandas.
Variable cfg : Config.
Variable df : DataFrame.

Definition table_after_normalize : DataFrame := fst (normalize_stage cfg df).
Definition table_after_trim : DataFrame := trim_stage pd cfg table_after_normalize.
Definition null_result := null_stage pd cfg table_after_trim.
Definition table_after_nulls : DataFrame := fst (fst null_result).
Definition table_after_blank_rows : DataFrame := fst (blank_rows_stage cfg table_after_nulls).
Definition table_after_blank_cols : DataFrame := fst (blank_cols_stage cfg table_after_blank_rows).
Definition table_after_duplicates : DataFrame := fst (duplicates_stage cfg table_after_blank_cols).
Definition table_after_infer : DataFrame := fst (infer_stage pd cfg table_after_duplicates).
Definition table_after_finalizer : DataFrame := _make_arrow_compatible pd table_after_infer.
Definition outlier_result := outlier_stage pd cfg table_after_finalizer.
Definition table_after_outliers : DataFrame := fst (fst outlier_result).

Definition report_of : Report :=
  <["cols_removed" := RCount (removed (ncols df) (ncols table_after_outliers))]>
  (<["rows_removed" := RCount (removed (nrows df) (nrows table_after_outliers))]>
  (<["cleaned_shape" := RShape (shape table_after_outliers)]>
  (<["outliers_removed" := RCount (snd outlier_result)]>
  (<["outliers" := ROutliers (snd (fst outlier_result))]>
  (<["dtype_changes" := RDtypes (snd (infer_stage pd cfg table_after_duplicates))]>
  (<["duplicates_dropped" := RCount (snd (duplicates_stage cfg table_after_blank_cols))]>
  (<["blank_cols_dropped" := RCount (snd (blank_cols_stage cfg table_after_blank_rows))]>
  (<["blank_rows_dropped" := RCount (snd (blank_rows_stage cfg table_after_nulls))]>
  (<["nulls_filled" := RFilled (snd null_result)]>
  (<["nulls_dropped" := RCount (snd (fst null_result))]>
  (<["col_renames" := RRenames (snd (normalize_stage cfg df))]>
  (<["original_shape" := RShape (shape df)]> ∅)))))))))))).

Lemma clean_dataframe_stages :
  clean_dataframe pd df cfg = (table_after_outliers, report_of).
Proof.
  unfold clean_dataframe, report_of, table_after_outliers, outlier_result,
    table_after_finalizer, table_after_infer, table_after_duplicates,
    table_after_blank_cols, table_after_blank_rows, table_after_nulls,
    null_result, table_after_trim, table_after_normalize.
  destruct (normalize_stage cfg df) as [d1 ren]; simpl.
  destruct (null_stage pd cfg (trim_stage pd cfg d1)) as [[d2 nd] nf]; simpl.
  destruct (blank_rows_stage cfg d2) as [d3 br]; simpl.
  destruct (blank_cols_stage cfg d3) as [d4 bc]; simpl.
  destruct (duplicates_stage cfg d4) as [d5 dd]; simpl.
  destruct (infer_stage pd cfg d5) as [d6 dc]; simpl.
  destruct (outlier_stage pd cfg (_make_arrow_compatible pd d6)) as [[d7 ol] orm]; simpl.
  reflexivity.
Qed.

End Stages.

(** ** Shapes through the stages *)

(** [a] has no more rows and no more columns than [b]. *)
Definition shape_le (a b : DataFrame) : Prop :=
  nrows a <= nrows b /\ ncols a <= ncols b.

Lemma shape_le_refl df : shape_le df df.
Proof. split; lia. Qed.

Lemma shape_le_trans a b c : shape_le a b -> shape_le b c -> shape_le a c.
Proof. unfold shape_le; lia. Qed.

Lemma shape_eq_le a b : shape a = shape b -> shape_le a b.
Proof. unfold shape, shape_le. intros [= -> ->]. lia. Qed.

Lemma fold_left_preserves {A B : Type} (P : A -> Prop) (f : A -> B -> A) (l : list B) :
  (forall a b, P a -> P (f a b)) -> forall a, P a -> P (fold_left f l a).
Proof.
  intros Hstep. induction l as [|b l IH]; simpl; intros a Ha; [exact Ha|].
  apply IH, Hstep, Ha.
Qed.

Lemma shape_set_col df c d vs : shape (set_col df c d vs) = shape df.
Proof. unfold shape, ncols, set_col; simpl. now rewrite length_map. Qed.

Lemma count_true_le mask : count_true mask <= length mask.
Proof. unfold count_true. apply List.filter_length_le. Qed.

Lemma rows_length df : length (rows df) = nrows df.
Proof. unfold rows. now rewrite length_map, length_seq. Qed.

Lemma ncols_take_rows keep df : ncols (take_rows keep df) = ncols df.
Proof. unfold ncols, take_rows; simpl. now rewrite length_map. Qed.

Lemma shape_le_take_rows keep df :
  length keep <= nrows df -> shape_le (take_rows keep df) df.
Proof.
  intros H. split; [|rewrite ncols_take_rows; lia].
  simpl. pose proof (count_true_le keep). lia.
Qed.

Lemma shape_le_row_mask (f : list value -> bool) df :
  shape_le (take_rows (map f (rows df)) df) df.
Proof. apply shape_le_take_rows. now rewrite length_map, rows_length. Qed.

Lemma keep_first_length seen rs : length (keep_first seen rs) = length rs.
Proof. revert seen. induction rs as [|r rs IH]; simpl; intros; [|rewrite IH]; reflexivity. Qed.

Lemma shape_normalize_stage cfg df : shape (fst (normalize_stage cfg df)) = shape df.
Proof.
  unfold normalize_stage. destruct (enabled _); [|reflexivity].
  unfold shape, ncols, rename_columns, names; simpl.
  rewrite length_zip_with, !length_map. f_equal. lia.
Qed.

Section StageShapes.

Variable pd : Pandas.

Lemma shape_trim_stage cfg df : shape (trim_stage pd cfg df) = shape df.
Proof.
  unfold trim_stage. destruct (enabled _); [|reflexivity].
  apply (fold_left_preserves (fun d => shape d = shape df)); [|reflexivity].
  intros a c Ha. unfold trim_column.
  destruct (get_col a c); [now rewrite shape_set_col|exact Ha].
Qed.

Lemma shape_fill_column strategy const st c :
  shape (fst (fill_column pd strategy const st c)) = shape (fst st).
Proof.
  destruct st as [d m]. unfold fill_column.
  destruct (get_col d c); [|reflexivity].
  destruct (_ =? 0); [reflexivity|].
  destruct (fill_attempt _ _ _ _); [apply shape_set_col|reflexivity].
Qed.

Lemma shape_le_null_stage cfg df : shape_le (fst (fst (null_stage pd cfg df))) df.
Proof.
  unfold null_stage.
  destruct (String.eqb _ "drop_rows"); [apply shape_le_row_mask|].
  destruct (String.eqb _ "fill"); [|apply shape_le_refl].
  match goal with |- context [fold_left ?f ?l ?a] =>
    pose proof (fold_left_preserves (fun st => shape (fst st) = shape df) f l) as H;
    destruct (fold_left f l a) as [d m] eqn:E end.
  simpl. apply shape_eq_le.
  specialize (H (fun a b Ha => eq_trans (shape_fill_column _ _ a b) Ha) (df, ∅) eq_refl).
  now rewrite E in H.
Qed.

Lemma shape_le_blank_rows_stage cfg df : shape_le (fst (blank_rows_stage cfg df)) df.
Proof.
  unfold blank_rows_stage. destruct (enabled _); [apply shape_le_row_mask|apply shape_le_refl].
Qed.

Lemma shape_le_blank_cols_stage cfg df : shape_le (fst (blank_cols_stage cfg df)) df.
Proof.
  unfold blank_cols_stage. destruct (enabled _); [|apply shape_le_refl].
  split; simpl; [lia|]. unfold ncols; simpl. apply List.filter_length_le.
Qed.

Lemma shape_le_drop_duplicates df : shape_le (pd_drop_duplicates df) df.
Proof.
  unfold pd_drop_duplicates. destruct (_ || _); [apply shape_le_refl|].
  apply shape_le_take_rows. now rewrite keep_first_length, rows_length.
Qed.

Lemma shape_le_duplicates_stage cfg df : shape_le (fst (duplicates_stage cfg df)) df.
Proof.
  unfold duplicates_stage.
  destruct (enabled _); [apply shape_le_drop_duplicates|apply shape_le_refl].
Qed.

Lemma shape_infer_column thresh st c :
  shape (fst (infer_column pd thresh st c)) = shape (fst st).
Proof.
  destruct st as [d m]. unfold infer_column.
  destruct (get_col d c) as [series|]; [|reflexivity].
  destruct (_ =? 0); [reflexivity|].
  destruct (to_numeric pd series) as [dt conv].
  destruct (fge _ _); [apply shape_set_col|].
  destruct (infer_datetime pd thresh series) as [[conv'|]|]; simpl;
    [apply shape_set_col|reflexivity|reflexivity].
Qed.

Lemma shape_infer_stage cfg df : shape (fst (infer_stage pd cfg df)) = shape df.
Proof.
  unfold infer_stage. destruct (enabled _); [|reflexivity].
  apply (fold_left_preserves (fun st => shape (fst st) = shape df)); [|reflexivity].
  intros a c Ha. now rewrite shape_infer_column.
Qed.

Lemma shape_arrow_column df c : shape (arrow_column pd df c) = shape df.
Proof.
  unfold arrow_column. destruct (get_col df c) as [ser|]; [|reflexivity].
  destruct (dtype_eqb _ _); [|reflexivity].
  destruct (to_numeric pd ser) as [dt conv].
  destruct (fge _ _); [apply shape_set_col|].
  destruct (final_datetime pd ser) as [[conv'|]|]; try apply shape_set_col;
    destruct (astype_string pd (values ser)); apply shape_set_col.
Qed.

Lemma shape_make_arrow_compatible df : shape (_make_arrow_compatible pd df) = shape df.
Proof.
  unfold _make_arrow_compatible.
  apply (fold_left_preserves (fun d => shape d = shape df)); [|reflexivity].
  intros a c Ha. now rewrite shape_arrow_column.
Qed.

Lemma removal_mask_length method thresh action df :
  length (snd (scan_outliers pd method thresh action df)) <= nrows df.
Proof.
  unfold scan_outliers.
  apply (fold_left_preserves (fun st => length (snd st) <= nrows df)).
  - intros [o m] c Hm. unfold outlier_column. simpl in Hm.
    destruct (get_col df c) as [col|]; [|exact Hm].
    destruct (_ =? 0); [exact Hm|]. simpl.
    destruct (_ && _); [|exact Hm].
    rewrite length_zip_with. lia.
  - simpl. now rewrite repeat_length.
Qed.

Lemma shape_le_outlier_stage cfg df : shape_le (fst (fst (outlier_stage pd cfg df))) df.
Proof.
  unfold outlier_stage. destruct (enabled _); [|apply shape_le_refl].
  pose proof (removal_mask_length (method_of cfg) (threshold_of cfg) (action_of cfg) df) as H.
  destruct (scan_outliers pd _ _ _ df) as [o m]. simpl in H.
  destruct (String.eqb _ "drop"); [|apply shape_le_refl].
  simpl. apply shape_le_take_rows. now rewrite length_map.
Qed.

(** The whole pipeline never adds a row or a column. *)
Lemma shape_le_pipeline cfg df : shape_le (table_after_outliers pd cfg df) df.
Proof.
  unfold table_after_outliers, outlier_result.
  eapply shape_le_trans; [apply shape_le_outlier_stage|].
  unfold table_after_finalizer.
  eapply shape_le_trans; [apply shape_eq_le, shape_make_arrow_compatible|].
  unfold table_after_infer.
  eapply shape_le_trans; [apply shape_eq_le, shape_infer_stage|].
  unfold table_after_duplicates.
  eapply shape_le_trans; [apply shape_le_duplicates_stage|].
  unfold table_after_blank_cols.
  eapply shape_le_trans; [apply shape_le_blank_cols_stage|].
  unfold table_after_blank_rows.
  eapply shape_le_trans; [apply shape_le_blank_rows_stage|].
  unfold table_after_nulls, null_result.
  eapply shape_le_trans; [apply shape_le_null_stage|].
  unfold table_after_trim.
  eapply shape_le_trans; [apply shape_eq_le, shape_trim_stage|].
  apply shape_eq_le, shape_normalize_stage.
Qed.

End StageShapes.

(** ** The report *)

Definition guaranteed_keys : list string :=
  ["original_shape"; "col_renames"; "nulls_dropped"; "nulls_filled";
   "blank_rows_dropped"; "blank_cols_dropped"; "duplicates_dropped";
   "dtype_changes"; "outliers"; "outliers_removed"; "cleaned_shape";
   "rows_removed"; "cols_removed"].

Ltac report_lookup :=
  rewrite clean_dataframe_stages; cbn [fst snd]; unfold report_of;
  repeat first [ rewrite lookup_insert_eq; reflexivity
               | rewrite lookup_insert_ne by discriminate ].

Lemma report_original_shape pd df cfg :
  snd (clean_dataframe pd df cfg) !! "original_shape" = Some (RShape (shape df)).
Proof. report_lookup. Qed.

Lemma report_cleaned_shape pd df cfg :
  snd (clean_dataframe pd df cfg) !! "cleaned_shape"
  = Some (RShape (shape (table_after_outliers pd cfg df))).
Proof. report_lookup. Qed.

Lemma report_rows_removed pd df cfg :
  snd (clean_dataframe pd df cfg) !! "rows_removed"
  = Some (RCount (removed (nrows df) (nrows (table_after_outliers pd cfg df)))).
Proof. report_lookup. Qed.

Lemma report_cols_removed pd df cfg :
  snd (clean_dataframe pd df cfg) !! "cols_removed"
  = Some (RCount (removed (ncols df) (ncols (table_after_outliers pd cfg df)))).
Proof. report_lookup. Qed.

Lemma report_col_renames pd df cfg :
  snd (clean_dataframe pd df cfg) !! "col_renames"
  = Some (RRenames (snd (normalize_stage cfg df))).
Proof. report_lookup. Qed.

Lemma report_nulls_dropped pd df cfg :
  snd (clean_dataframe pd df cfg) !! "nulls_dropped"
  = Some (RCount (snd (fst (null_result pd cfg df)))).
Proof. report_lookup. Qed.

Lemma report_nulls_filled pd df cfg :
  snd (clean_dataframe pd df cfg) !! "nulls_filled"
  = Some (RFilled (snd (null_result pd cfg df))).
Proof. report_lookup. Qed.

Lemma report_blank_rows_dropped pd df cfg :
  snd (clean_dataframe pd df cfg) !! "blank_rows_dropped"
  = Some (RCount (snd (blank_rows_stage cfg (table_after_nulls pd cfg df)))).
Proof. report_lookup. Qed.

Lemma report_blank_cols_dropped pd df cfg :
  snd (clean_dataframe pd df cfg) !! "blank_cols_dropped"
  = Some (RCount (snd (blank_cols_stage cfg (table_after_blank_rows pd cfg df)))).
Proof. report_lookup. Qed.

Lemma report_duplicates_dropped pd df cfg :
  snd (clean_dataframe pd df cfg) !! "duplicates_dropped"
  = Some (RCount (snd (duplicates_stage cfg (table_after_blank_cols pd cfg df)))).
Proof. report_lookup. Qed.

Lemma report_dtype_changes pd df cfg :
  snd (clean_dataframe pd df cfg) !! "dtype_changes"
  = Some (RDtypes (snd (infer_stage pd cfg (table_after_duplicates pd cfg df)))).
Proof. report_lookup. Qed.

Lemma report_outliers pd df cfg :
  snd (clean_dataframe pd df cfg) !! "outliers"
  = Some (ROutliers (snd (fst (outlier_result pd cfg df)))).
Proof. report_lookup. Qed.

Lemma report_outliers_removed pd df cfg :
  snd (clean_dataframe pd df cfg) !! "outliers_removed"
  = Some (RCount (snd (outlier_result pd cfg df))).
Proof. report_lookup. Qed.

(** The table of the repository's pruning test: a blank row, a blank
    column and a repeated row. *)
Definition pruning_table : DataFrame :=
  mkDataFrame 3
    [mkColumn "A" float64 [NA; VFloat 1; VFloat 1];
     mkColumn "B" float64 [NA; VFloat 2; VFloat 2];
     mkColumn "C" object [NA; NA; NA]].

(** The three prunings alone. *)
Definition pruning_config : Config :=
  mkConfig None None None None None (Some true) (Some true) (Some true)
    None None None None None None.

(** Every switch set, and set to off. *)
Definition all_off : Config :=
  mkConfig (Some false) (Some false) (Some "none") None None (Some false) (Some false)
    (Some false) (Some false) None (Some false) None None None.

Lemma null_mode_not (cfg : Config) (mode : string) :
  null_handling cfg <> Some mode -> mode <> "none" ->
  String.eqb (default "none" (null_handling cfg)) mode = false.
Proof.
  intros H Hm. apply String.eqb_neq. destruct (null_handling cfg) as [s|]; simpl; congruence.
Qed.





(** ** The z-score detector *)

(** Twenty cells of 10 and one of 1000, in one integer column. *)
Definition zscore_example : DataFrame :=
  mkDataFrame 21 [mkColumn "value" int64 (repeat (VInt 10) 20 ++ [VInt 1000])].

Definition zscore_drop_config : Config :=
  mkConfig None None None None None None None None None None
    (Some true) (Some "zscore") (Some 3%float) (Some "drop").

Lemma nth_repeat_false n i : nth i (repeat false n) false = false.
Proof. revert i; induction n as [|n IH]; intros [|i]; simpl; auto. Qed.

(** Two facts of binary64 arithmetic: the magnitude of a quotient is the
    quotient of the magnitudes, and a square root that is not zero is its
    own magnitude. *)
Lemma SFabs_round s m e l :
  SFabs (binary_round_aux prec emax s m e l) = binary_round_aux prec emax false m e l.
Proof.
  unfold binary_round_aux.
  destruct (shr_fexp prec emax m e l) as [mrs' e'].
  destruct (shr_fexp prec emax _ e' loc_Exact) as [mrs'' e''].
  destruct (shr_m mrs''); try reflexivity.
  destruct (Z.leb _ _); reflexivity.
Qed.

Lemma abs_div (a s : float) :
  PrimFloat.abs (a / s) = (PrimFloat.abs a / PrimFloat.abs s)%float.
Proof.
  apply Prim2SF_inj.
  rewrite FloatAxioms.abs_spec, !FloatAxioms.div_spec, !FloatAxioms.abs_spec.
  unfold SF64div, SFdiv.
  destruct (Prim2SF a) as [sa|sa| |sa ma ea], (Prim2SF s) as [ss|ss| |ss ms es];
    simpl; try reflexivity.
  destruct (SFdiv_core_binary prec emax (Z.pos ma) ea (Z.pos ms) es) as [[mz ez] lz].
  apply SFabs_round.
Qed.

Lemma abs_sqrt_nonzero (y : float) :
  PrimFloat.eqb (PrimFloat.sqrt y) 0 = false ->
  PrimFloat.abs (PrimFloat.sqrt y) = PrimFloat.sqrt y.
Proof.
  intros H. apply Prim2SF_inj. rewrite FloatAxioms.abs_spec.
  rewrite FloatAxioms.eqb_spec in H. rewrite FloatAxioms.sqrt_spec in *.
  unfold SF64sqrt, SFsqrt in *.
  destruct (Prim2SF y) as [sy|[|]| |[|] my ey]; simpl in *; try reflexivity.
  - change (Prim2SF 0) with (S754_zero false) in H. destruct sy; discriminate H.
  - destruct (SFsqrt_core_binary prec emax (Z.pos my) ey) as [[mz ez] lz].
    rewrite SFabs_round. reflexivity.
Qed.

(** ** Loops over the column labels

    The loops of the pipeline read [df[c]], compute, and write [df[c]]
    back, sometimes recording an entry under [c].  When the labels are
    pairwise distinct such a loop is one pass over the columns. *)

Lemma names_set_col df c d vs : names (set_col df c d vs) = names df.
Proof.
  unfold names, set_col; simpl. rewrite map_map. apply map_ext.
  intros col. destruct (String.eqb (name col) c) eqn:E; [|reflexivity].
  apply String.eqb_eq in E. now subst.
Qed.

Lemma nrows_set_col df c d vs : nrows (set_col df c d vs) = nrows df.
Proof. reflexivity. Qed.

Lemma get_col_name df c col : get_col df c = Some col -> name col = c.
Proof.
  unfold get_col. intros H. apply find_some in H as [_ H]. now apply String.eqb_eq.
Qed.

Lemma get_col_In df c col : get_col df c = Some col -> In col (columns df).
Proof. unfold get_col. intros H. now apply find_some in H as [H _]. Qed.

Lemma get_col_None df c col : get_col df c = None -> In col (columns df) -> name col <> c.
Proof.
  unfold get_col. intros H Hin E.
  pose proof (find_none _ _ H col Hin) as Hn. simpl in Hn.
  apply String.eqb_neq in Hn. contradiction.
Qed.

Lemma get_col_unique df col :
  List.NoDup (names df) -> In col (columns df) -> get_col df (name col) = Some col.
Proof.
  unfold names, get_col. induction (columns df) as [|c0 cs IH]; simpl; [tauto|].
  intros Hnd [->|Hin].
  - now rewrite String.eqb_refl.
  - inversion Hnd as [|? ? Hnot Hnd']; subst.
    destruct (String.eqb (name c0) (name col)) eqn:E; [|now apply IH].
    apply String.eqb_eq in E. exfalso. apply Hnot. rewrite E. now apply in_map.
Qed.

Lemma get_col_set_col_ne df c d vs c' :
  c <> c' -> get_col (set_col df c d vs) c' = get_col df c'.
Proof.
  intros Hne. unfold get_col, set_col; simpl.
  induction (columns df) as [|c0 cs IH]; simpl; [reflexivity|].
  destruct (String.eqb (name c0) c) eqn:E; simpl.
  - apply String.eqb_eq in E. subst c.
    apply String.eqb_neq in Hne. now rewrite Hne, IH.
  - now rewrite IH.
Qed.

(** Rewriting every column in place keeps each one under its label. *)
Lemma get_col_map_columns (f : column -> column) df col :
  (forall c, name (f c) = name c) ->
  List.NoDup (names df) -> In col (columns df) ->
  get_col (mkDataFrame (nrows df) (map f (columns df))) (name col) = Some (f col).
Proof.
  intros Hf Hnd Hin. rewrite <- (Hf col).
  apply (get_col_unique (mkDataFrame (nrows df) (map f (columns df))) (f col)).
  - unfold names in *. simpl. rewrite map_map.
    erewrite map_ext; [exact Hnd|]. intros c. apply Hf.
  - simpl. now apply in_map.
Qed.

Definition in_names (l : list string) (c : string) : bool :=
  existsb (String.eqb c) l.

Lemma in_names_In l c : in_names l c = true <-> In c l.
Proof.
  unfold in_names. rewrite existsb_exists. split.
  - intros [x [Hin E]]. apply String.eqb_eq in E. now subst.
  - intros Hin. exists c. split; [exact Hin|apply String.eqb_refl].
Qed.

Lemma in_names_not_In l c : ~ In c l -> in_names l c = false.
Proof.
  intros H. destruct (in_names l c) eqn:E; [|reflexivity].
  apply in_names_In in E. contradiction.
Qed.

Section Loops.

Context {X : Type}.

(** What one iteration computes from the column it reads: the dtype
    and cells to write back and the entry to record, or nothing. *)
Variable g : column -> option (dtype * list value * X).

Definition loop_step (st : DataFrame * gmap string X) (c : string)
  : DataFrame * gmap string X :=
  match get_col (fst st) c with
  | Some col =>
      match g col with
      | Some (d, vs, x) => (set_col (fst st) c d vs, <[c := x]> (snd st))
      | None => st
      end
  | None => st
  end.

Definition updated (col : column) : column :=
  match g col with
  | Some (d, vs, _) => mkColumn (name col) d vs
  | None => col
  end.

Definition apply_to (l : list string) (df : DataFrame) : DataFrame :=
  mkDataFrame (nrows df)
    (map (fun col => if in_names l (name col) then updated col else col) (columns df)).

Definition collect_step (df : DataFrame) (acc : gmap string X) (c : string) : gmap string X :=
  match get_col df c with
  | Some col => match g col with Some (_, _, x) => <[c := x]> acc | None => acc end
  | None => acc
  end.

Definition collect (df : DataFrame) (l : list string) (acc : gmap string X) : gmap string X :=
  fold_left (collect_step df) l acc.

Lemma collect_set_col df c d vs l acc :
  ~ In c l -> collect (set_col df c d vs) l acc = collect df l acc.
Proof.
  unfold collect. revert acc. induction l as [|c' l IH]; simpl; intros acc Hn; [reflexivity|].
  unfold collect_step at 2 4.
  rewrite get_col_set_col_ne by (intros ->; apply Hn; now left).
  apply IH. intros H. apply Hn. now right.
Qed.

Lemma loop_spec l :
  List.NoDup l -> forall df acc, List.NoDup (names df) ->
  fold_left loop_step l (df, acc) = (apply_to l df, collect df l acc).
Proof.
  induction 1 as [|c l Hnot Hnd IH]; intros df acc Hdf; simpl.
  - unfold apply_to. simpl. rewrite map_id. now destruct df.
  - unfold loop_step at 2, collect_step. simpl.
    destruct (get_col df c) as [col0|] eqn:Hget.
    + pose proof (get_col_name _ _ _ Hget) as Hname.
      pose proof (get_col_In _ _ _ Hget) as Hin0.
      destruct (g col0) as [[[d vs] x]|] eqn:Hg.
      * rewrite IH by (now rewrite names_set_col).
        rewrite collect_set_col by exact Hnot. f_equal.
        unfold apply_to, set_col; simpl. f_equal. rewrite map_map.
        apply map_ext_in. intros col Hin.
        destruct (String.eqb (name col) c) eqn:E; simpl.
        -- apply String.eqb_eq in E. rewrite in_names_not_In by exact Hnot.
           assert (col = col0) as ->.
           { pose proof (get_col_unique df col Hdf Hin) as Hu.
             rewrite E, Hget in Hu. now injection Hu. }
           unfold updated. now rewrite Hg, Hname.
        -- reflexivity.
      * rewrite IH by exact Hdf. f_equal.
        unfold apply_to. f_equal. apply map_ext_in. intros col Hin. simpl.
        destruct (String.eqb (name col) c) eqn:E; simpl; [|reflexivity].
        apply String.eqb_eq in E.
        assert (col = col0) as ->.
        { pose proof (get_col_unique df col Hdf Hin) as Hu.
          rewrite E, Hget in Hu. now injection Hu. }
        unfold updated. rewrite Hg. now destruct (in_names l (name col0)).
    + rewrite IH by exact Hdf. f_equal.
      unfold apply_to. f_equal. apply map_ext_in. intros col Hin. simpl.
      pose proof (get_col_None _ _ _ Hget Hin) as Hne.
      apply String.eqb_neq in Hne. now rewrite Hne.
Qed.

Lemma collect_notin df l acc c : ~ In c l -> collect df l acc !! c = acc !! c.
Proof.
  unfold collect. revert acc. induction l as [|c' l IH]; simpl; intros acc Hn; [reflexivity|].
  rewrite IH by (intros H; apply Hn; now right).
  unfold collect_step. destruct (get_col df c') as [col|]; [|reflexivity].
  destruct (g col) as [[[d vs] x]|]; [|reflexivity].
  apply lookup_insert_ne. intros ->. apply Hn. now left.
Qed.

Lemma collect_in df l acc c col :
  List.NoDup l -> In c l -> get_col df c = Some col ->
  collect df l acc !! c
  = match g col with Some (_, _, x) => Some x | None => acc !! c end.
Proof.
  unfold collect. intros Hnd. revert acc.
  induction Hnd as [|c' l Hnot Hnd IH]; simpl; intros acc Hin Hget; [tauto|].
  destruct Hin as [->|Hin].
  - fold (collect df l (collect_step df acc c)).
    rewrite collect_notin by exact Hnot.
    unfold collect_step. rewrite Hget.
    destruct (g col) as [[[d vs] x]|]; [apply lookup_insert_eq|reflexivity].
  - rewrite IH by assumption.
    destruct (g col) as [[[d vs] x]|]; [reflexivity|].
    unfold collect_step. destruct (get_col df c') as [col'|]; [|reflexivity].
    destruct (g col') as [[[d vs] x]|]; [|reflexivity].
    apply lookup_insert_ne. intros ->. contradiction.
Qed.

Lemma get_col_apply_to l df c :
  get_col (apply_to l df) c
  = option_map (fun col => if in_names l c then updated col else col) (get_col df c).
Proof.
  unfold get_col, apply_to; simpl.
  induction (columns df) as [|c0 cs IH]; simpl; [reflexivity|].
  assert (name (if in_names l (name c0) then updated c0 else c0) = name c0) as Hn.
  { destruct (in_names l (name c0)); [|reflexivity].
    unfold updated. now destruct (g c0) as [[[d vs] x]|]. }
  rewrite Hn. destruct (String.eqb (name c0) c) eqn:E; [|exact IH].
  apply String.eqb_eq in E. simpl. now rewrite E.
Qed.

End Loops.

Lemma fold_left_agree {A B : Type} (f h : A -> B -> A) (l : list B) :
  (forall a b, f a b = h a b) -> forall a, fold_left f l a = fold_left h l a.
Proof.
  intros E. induction l as [|b l IH]; simpl; intros a; [reflexivity|].
  now rewrite E, IH.
Qed.

(** A loop without a record is a loop whose record is ignored. *)
Lemma fold_left_plain {X : Type} (g : column -> option (dtype * list value * X))
  (h : DataFrame -> string -> DataFrame) (l : list string) :
  (forall st c, h (fst st) c = fst (loop_step g st c)) ->
  forall st, fold_left h l (fst st) = fst (fold_left (loop_step g) l st).
Proof.
  intros E. induction l as [|c l IH]; simpl; intros st; [reflexivity|].
  now rewrite E, IH.
Qed.

(** ** The per-column outcome of each loop *)

Section PerColumn.

Variable pd : Pandas.

(** Trimming: written back for every column the loop visits. *)
Definition trim_entry (col : column) : option (dtype * list value * unit) :=
  Some (object, map (trim_cell pd) (values col), tt).

Lemma trim_column_loop st c :
  trim_column pd (fst st) c = fst (loop_step trim_entry st c).
Proof.
  unfold trim_column, loop_step, trim_entry. now destruct (get_col (fst st) c).
Qed.

(** Filling: nothing when no cell is missing or when the attempt raises. *)
Definition fill_entry (strategy : string) (const : option value) (col : column)
  : option (dtype * list value * nat) :=
  let n := na_count (values col) in
  if n =? 0 then None
  else match fill_attempt pd strategy const col with
       | Done col' => Some (dtype_of col', values col', n)
       | Raised _ => None
       end.

Lemma fill_column_loop strategy const st c :
  fill_column pd strategy const st c = loop_step (fill_entry strategy const) st c.
Proof.
  destruct st as [df m]. unfold fill_column, loop_step, fill_entry; simpl.
  destruct (get_col df c) as [col|]; [|reflexivity].
  destruct (na_count (values col) =? 0); [reflexivity|].
  now destruct (fill_attempt pd strategy const col).
Qed.

(** Inference: the numeric commit, the datetime commit, or nothing. *)
Definition infer_entry (thresh : float) (series : column)
  : option (dtype * list value * (string * string)) :=
  let old_dtype := dtype_name (dtype_of series) in
  if length (dropna_values (values series)) =? 0 then None
  else
    let '(d, conv) := to_numeric pd series in
    if fge (ratio (notna_count conv) (length (values series))) 0.9%float
    then Some (d, conv, (old_dtype, "numeric"))
    else match infer_datetime pd thresh series with
         | Done (Some conv) => Some (datetime64, conv, (old_dtype, "datetime"))
         | Done None | Raised _ => None
         end.

Lemma infer_column_loop thresh st c :
  infer_column pd thresh st c = loop_step (infer_entry thresh) st c.
Proof.
  destruct st as [df m]. unfold infer_column, loop_step, infer_entry; simpl.
  destruct (get_col df c) as [series|]; [|reflexivity].
  destruct (length (dropna_values (values series)) =? 0); [reflexivity|].
  destruct (to_numeric pd series) as [d conv].
  destruct (fge _ _); [reflexivity|].
  now destruct (infer_datetime pd thresh series) as [[conv'|]|].
Qed.

(** The finalizer: only object columns are written. *)
Definition arrow_entry (ser : column) : option (dtype * list value * unit) :=
  if dtype_eqb (dtype_of ser) object then
    let '(d, conv) := to_numeric pd ser in
    if fge (ratio (notna_count conv) (length (values ser))) 0.95%float then Some (d, conv, tt)
    else
      match final_datetime pd ser with
      | Done (Some conv) => Some (datetime64, conv, tt)
      | Done None | Raised _ =>
          match astype_string pd (values ser) with
          | Done vs => Some (string_, vs, tt)
          | Raised _ => Some (object, astype_str pd (values ser), tt)
          end
      end
  else None.

Lemma arrow_column_loop st c :
  arrow_column pd (fst st) c = fst (loop_step arrow_entry st c).
Proof.
  unfold arrow_column, loop_step, arrow_entry.
  destruct (get_col (fst st) c) as [ser|]; [|reflexivity].
  destruct (dtype_eqb (dtype_of ser) object); [|reflexivity].
  destruct (to_numeric pd ser) as [d conv].
  destruct (fge _ _); [reflexivity|].
  destruct (final_datetime pd ser) as [[conv'|]|];
    try reflexivity; now destruct (astype_string pd (values ser)).
Qed.

(** With distinct labels the trimmer rewrites exactly the object columns. *)
Lemma trim_stage_columns cfg df :
  enabled (trim_whitespace cfg) = true -> List.NoDup (names df) ->
  trim_stage pd cfg df
  = mkDataFrame (nrows df)
      (map (fun col => if dtype_eqb (dtype_of col) object
                       then mkColumn (name col) object (map (trim_cell pd) (values col))
                       else col) (columns df)).
Proof.
  intros Hon Hnd. unfold trim_stage. rewrite Hon.
  change df with (fst (df, (∅ : gmap string unit))) at 2.
  rewrite (fold_left_plain trim_entry (trim_column pd) _ trim_column_loop).
  rewrite loop_spec; [|unfold object_names|exact Hnd].
  - simpl. unfold apply_to. f_equal. apply map_ext_in. intros col Hin.
    unfold updated, trim_entry.
    destruct (dtype_eqb (dtype_of col) object) eqn:E.
    + rewrite (proj2 (in_names_In _ _)); [reflexivity|].
      unfold object_names. apply in_map, filter_In. now split.
    + rewrite in_names_not_In; [reflexivity|].
      unfold object_names. intros Hin'. apply in_map_iff in Hin' as [col' [Hn Hin']].
      apply filter_In in Hin' as [Hin' Ho].
      assert (col' = col) as ->.
      { pose proof (get_col_unique df col' Hnd Hin') as H1.
        pose proof (get_col_unique df col Hnd Hin) as H2.
        rewrite Hn, H2 in H1. now injection H1. }
      congruence.
  - unfold names in Hnd. revert Hnd.
    induction (columns df) as [|c0 cs IH]; simpl; intros Hnd; [constructor|].
    inversion Hnd as [|? ? Hnot Hnd']; subst.
    destruct (dtype_eqb (dtype_of c0) object); simpl; [|now apply IH].
    constructor; [|now apply IH].
    intros Hin. apply Hnot. apply in_map_iff in Hin as [col [Hn Hin]].
    apply filter_In in Hin as [Hin _]. rewrite <- Hn. now apply in_map.
Qed.

(** With distinct labels the fill loop handles every column on its own. *)
Lemma fill_loop_spec strategy const df :
  List.NoDup (names df) ->
  fold_left (fill_column pd strategy const) (names df) (df, ∅)
  = (apply_to (fill_entry strategy const) (names df) df,
     collect (fill_entry strategy const) df (names df) ∅).
Proof.
  intros Hnd.
  rewrite (fold_left_agree _ _ _ (fill_column_loop strategy const)).
  now apply loop_spec.
Qed.

Lemma infer_loop_spec thresh df :
  List.NoDup (names df) ->
  fold_left (infer_column pd thresh) (names df) (df, ∅)
  = (apply_to (infer_entry thresh) (names df) df,
     collect (infer_entry thresh) df (names df) ∅).
Proof.
  intros Hnd.
  rewrite (fold_left_agree _ _ _ (infer_column_loop thresh)).
  now apply loop_spec.
Qed.

Lemma arrow_loop_spec df :
  List.NoDup (names df) ->
  _make_arrow_compatible pd df = apply_to arrow_entry (names df) df.
Proof.
  intros Hnd. unfold _make_arrow_compatible.
  change df with (fst (df, (∅ : gmap string unit))) at 2.
  rewrite (fold_left_plain arrow_entry (arrow_column pd) _ arrow_column_loop).
  now rewrite loop_spec.
Qed.

(** After a loop over all the labels, the column under a label is the
    per-column outcome of the column that was there. *)
Lemma get_col_apply_all {X : Type} (g : column -> option (dtype * list value * X)) df col :
  List.NoDup (names df) -> In col (columns df) ->
  get_col (apply_to g (names df) df) (name col) = Some (updated g col).
Proof.
  intros Hnd Hin. rewrite get_col_apply_to, (get_col_unique df col Hnd Hin). simpl.
  rewrite (proj2 (in_names_In _ _)); [reflexivity|]. now apply in_map.
Qed.

End PerColumn.

(** ** Whitespace *)

(** [t] is [s] without its leading and trailing whitespace. *)
Definition stripped_of (s t : string) : Prop :=
  exists a b,
    list_ascii_of_string s = a ++ list_ascii_of_string t ++ b
    /\ forallb Py.is_space a = true
    /\ forallb Py.is_space b = true
    /\ match list_ascii_of_string t with c :: _ => Py.is_space c = false | [] => True end
    /\ match rev (list_ascii_of_string t) with c :: _ => Py.is_space c = false | [] => True end.

Lemma lstrip_spec l :
  exists a, l = a ++ Py.lstrip l
    /\ forallb Py.is_space a = true
    /\ match Py.lstrip l with c :: _ => Py.is_space c = false | [] => True end.
Proof.
  induction l as [|c l [a [H1 [H2 H3]]]]; simpl.
  - exists []. repeat split.
  - destruct (Py.is_space c) eqn:E.
    + exists (c :: a). simpl. rewrite E, H2. repeat split; [now f_equal|exact H3].
    + exists []. simpl. repeat split. exact E.
Qed.

Lemma forallb_rev_true {A : Type} (f : A -> bool) (l : list A) :
  forallb f l = true -> forallb f (rev l) = true.
Proof. rewrite !forallb_forall. intros H x Hx. apply H. now apply in_rev. Qed.

Lemma rstrip_spec l :
  exists b, l = Py.rstrip l ++ b
    /\ forallb Py.is_space b = true
    /\ match rev (Py.rstrip l) with c :: _ => Py.is_space c = false | [] => True end.
Proof.
  unfold Py.rstrip. destruct (lstrip_spec (rev l)) as [a [H1 [H2 H3]]].
  exists (rev a). rewrite rev_involutive. repeat split; [|now apply forallb_rev_true|exact H3].
  rewrite <- rev_app_distr, <- H1. now rewrite rev_involutive.
Qed.

Lemma strip_spec s : stripped_of s (Py.strip s).
Proof.
  unfold stripped_of, Py.strip. rewrite list_ascii_of_string_of_list_ascii.
  destruct (lstrip_spec (list_ascii_of_string s)) as [a [H1 [H2 H3]]].
  destruct (rstrip_spec (Py.lstrip (list_ascii_of_string s))) as [b [H4 [H5 H6]]].
  exists a, b. repeat split; try assumption.
  - now rewrite <- H4.
  - destruct (Py.rstrip (Py.lstrip (list_ascii_of_string s))) as [|c t] eqn:E; [exact I|].
    rewrite H4 in H3. exact H3.
Qed.

(** The text [str] makes of the cell is ASCII.  The digits and the sign of
    an integer and the two names of the booleans always are; for a text
    cell, a float and a timestamp it is a condition on the cell and on
    pandas. *)
Definition ascii_cell (pd : Pandas) (v : value) : bool :=
  match v with
  | VStr s => ascii_text s
  | VFloat f => ascii_text (repr_float pd f)
  | VTime t => ascii_text (repr_time pd t)
  | VInt _ | VBool _ | NA => true
  end.

(** The test column of the repository, with a number, a boolean and a cell
    of blanks added. *)
Definition trim_example : DataFrame :=
  mkDataFrame 5
    [mkColumn "name" object [VStr " Alice "; NA; VInt 7; VBool true; VStr "   "]].

Definition trim_config : Config :=
  mkConfig None (Some true) None None None None None None None None None None None None.



(** ** The fill branch of the null handler *)

(** The value of the fallback branch, by dtype. *)
Definition fallback_value (d : dtype) : value :=
  if dtype_eqb d object then VStr "" else VInt 0.

(** The cell a missing cell becomes under the fallback: empty text in an
    object column, zero elsewhere (a float zero in a float column). *)
Definition zero_or_empty (d : dtype) : value :=
  match d with
  | object => VStr ""
  | float64 => VFloat 0
  | _ => VInt 0
  end.

Lemma fill_cell_fallback d : fill_cell d (fallback_value d) = zero_or_empty d.
Proof. destruct d; reflexivity. Qed.

Definition recognised (s : string) : bool :=
  existsb (String.eqb s) ["mean"; "median"; "mode"; "constant"].

Section FillBranch.

Variable pd : Pandas.

Lemma null_stage_fill cfg df :
  null_handling cfg = Some "fill" -> List.NoDup (names df) ->
  null_stage pd cfg df
  = (apply_to (fill_entry pd (strategy_of cfg) (fill_constant cfg)) (names df) df, 0%Z,
     collect (fill_entry pd (strategy_of cfg) (fill_constant cfg)) df (names df) ∅).
Proof.
  intros Hm Hnd. unfold null_stage. rewrite Hm. simpl.
  now rewrite fill_loop_spec.
Qed.

(** What the fill branch does to one column, and what it records. *)
Lemma fill_outcome cfg df col :
  null_handling cfg = Some "fill" -> List.NoDup (names df) -> In col (columns df) ->
  get_col (fst (fst (null_stage pd cfg df))) (name col)
  = Some (updated (fill_entry pd (strategy_of cfg) (fill_constant cfg)) col)
  /\ snd (null_stage pd cfg df) !! name col
     = match fill_entry pd (strategy_of cfg) (fill_constant cfg) col with
       | Some (_, _, n) => Some n
       | None => None
       end.
Proof.
  intros Hm Hnd Hin. rewrite (null_stage_fill cfg df Hm Hnd). simpl. split.
  - now apply get_col_apply_all.
  - rewrite (collect_in _ df (names df) ∅ (name col) col).
    + destruct (fill_entry _ _ _ col) as [[[d vs] n]|]; [reflexivity|apply lookup_empty].
    + exact Hnd.
    + now apply in_map.
    + now apply get_col_unique.
Qed.

Lemma fallback_fill_unfold col :
  fallback_fill pd col = fillna pd col (Some (fallback_value (dtype_of col))).
Proof. unfold fallback_fill, fallback_value. now destruct (dtype_eqb _ _). Qed.

(** The entry of a column that takes the fallback branch. *)
Lemma fill_entry_fallback strategy const col :
  fill_attempt pd strategy const col = fallback_fill pd col ->
  fill_entry pd strategy const col
  = if (na_count (values col) =? 0)
       || fill_refused pd (dtype_of col) (fallback_value (dtype_of col))
    then None
    else Some (fill_dtype (dtype_of col) (fallback_value (dtype_of col)),
               map (fun x => if isna x then zero_or_empty (dtype_of col) else x) (values col),
               na_count (values col)).
Proof.
  intros Hf. unfold fill_entry. rewrite Hf, fallback_fill_unfold.
  destruct (na_count (values col) =? 0); [reflexivity|]. simpl.
  unfold fillna.
  assert (forall d, match fallback_value d with NA => False | _ => True end) as Hv
    by (intros d; unfold fallback_value; now destruct (dtype_eqb d object)).
  specialize (Hv (dtype_of col)).
  destruct (fallback_value (dtype_of col)) eqn:E; try contradiction;
    destruct (fill_refused pd (dtype_of col) _); try reflexivity;
    simpl; rewrite <- E, fill_cell_fallback; reflexivity.
Qed.

(** [mean] and [median] reach the fallback on a non-numeric column. *)
Lemma mean_median_take_fallback s const col :
  s = "mean" \/ s = "median" -> is_numeric_dtype (dtype_of col) = false ->
  fill_attempt pd s const col = fallback_fill pd col.
Proof.
  intros [-> | ->] Hn; unfold fill_attempt; rewrite Hn; reflexivity.
Qed.

(** So does every strategy outside the four names, on every column. *)
Lemma unrecognised_takes_fallback s const col :
  recognised s = false -> fill_attempt pd s const col = fallback_fill pd col.
Proof.
  unfold recognised. simpl. intros H.
  apply orb_false_iff in H as [H1 H]. apply orb_false_iff in H as [H2 H].
  apply orb_false_iff in H as [H3 H]. apply orb_false_iff in H as [H4 _].
  unfold fill_attempt. now rewrite H1, H2, H3, H4.
Qed.

End FillBranch.

(** The configuration [cfg] with its [fill_strategy] entry replaced. *)
Definition with_fill_strategy (s : option string) (cfg : Config) : Config :=
  mkConfig (normalize_columns cfg) (trim_whitespace cfg) (null_handling cfg) s
    (fill_constant cfg) (drop_blank_rows cfg) (drop_blank_cols cfg) (drop_duplicates cfg)
    (infer_types cfg) (date_detect_thresh cfg) (detect_outliers cfg) (outlier_method cfg)
    (outlier_threshold cfg) (outlier_action cfg).

(** [null_handling = 'fill'] with the given strategy, nothing else set. *)
Definition fill_config (s : string) : Config :=
  mkConfig None None (Some "fill") (Some s) None None None None None None None None None None.

(** A text column with one missing cell. *)
Definition text_with_gap : DataFrame :=
  mkDataFrame 3 [mkColumn "cat" object [VStr "a"; NA; VStr "a"]].

(** The column as it would be after the fallback fill. *)
Definition fallback_filled (col : column) : column :=
  mkColumn (name col) (fill_dtype (dtype_of col) (fallback_value (dtype_of col)))
    (map (fun x => if isna x then zero_or_empty (dtype_of col) else x) (values col)).

(** What the specification says of a non-numeric column under [mean] or
    [median]: the null handler leaves it as it was and [nulls_filled] has no
    entry for it. *)
Definition skipped_silently (pd : Pandas) (cfg : Config) (df : DataFrame) (col : column) : Prop :=
  get_col (table_after_nulls pd cfg df) (name col) = Some col
  /\ forall m, snd (clean_dataframe pd df cfg) !! "nulls_filled" = Some (RFilled m) ->
               m !! name col = None.


Lemma strategy_of_Some cfg s : fill_strategy cfg = Some s -> strategy_of cfg = s.
Proof. unfold strategy_of. now intros ->. Qed.

(** The outcome of the fill branch on a column that takes the fallback. *)
Lemma fallback_outcome pd cfg df col :
  null_handling cfg = Some "fill" ->
  List.NoDup (names (table_after_trim pd cfg df)) ->
  In col (columns (table_after_trim pd cfg df)) ->
  fill_attempt pd (strategy_of cfg) (fill_constant cfg) col = fallback_fill pd col ->
  exists m,
    snd (clean_dataframe pd df cfg) !! "nulls_filled" = Some (RFilled m)
    /\ if (na_count (values col) =? 0)
          || fill_refused pd (dtype_of col) (fallback_value (dtype_of col))
       then get_col (table_after_nulls pd cfg df) (name col) = Some col
            /\ m !! name col = None
       else get_col (table_after_nulls pd cfg df) (name col) = Some (fallback_filled col)
            /\ m !! name col = Some (na_count (values col)).
Proof.
  intros Hm Hnd Hin Hf. rewrite report_nulls_filled. eexists. split; [reflexivity|].
  unfold table_after_nulls, null_result.
  destruct (fill_outcome pd cfg _ col Hm Hnd Hin) as [H1 H2].
  rewrite H1, H2. unfold updated.
  rewrite (fill_entry_fallback pd _ _ col Hf).
  destruct (_ || _); split; reflexivity.
Qed.





(** ** The date-like gate *)

(** The gate as the specification words it: the text contains one of the
    separators [/], [-], [.], or a run of at least three letters. *)
Fixpoint has_alpha_run (n run : nat) (s : list ascii) : bool :=
  match s with
  | [] => false
  | c :: s' =>
      if Py.is_alpha c then (n <=? S run) || has_alpha_run n (S run) s'
      else has_alpha_run n 0 s'
  end.

Definition date_like_by_spec (s : string) : bool :=
  let l := list_ascii_of_string s in
  existsb (fun c => existsb (Ascii.eqb c) ["/"; "-"; "."]%char) l || has_alpha_run 3 0 l.

Section DateGate.

Variable pd : Pandas.

(** The call [str.contains] of the gate raises whatever the cells are. *)
Lemma date_like_contains_raises texts :
  str_contains date_like_pattern texts = Raised "re.error: bad character range".
Proof. unfold str_contains. now rewrite date_like_pattern_does_not_compile. Qed.

Lemma infer_datetime_raises thresh series :
  length (dropna_values (values series)) <> 0 ->
  infer_datetime pd thresh series = Raised "re.error: bad character range".
Proof.
  intros Hne. unfold infer_datetime. rewrite length_map.
  apply Nat.eqb_neq in Hne. rewrite Hne.
  now rewrite date_like_contains_raises.
Qed.

Lemma final_datetime_raises ser : exists e, final_datetime pd ser = Raised e.
Proof.
  unfold final_datetime. rewrite length_map.
  destruct (length (dropna_values (values ser)) =? 0) eqn:E.
  - apply Nat.eqb_eq in E. rewrite E. eexists. vm_compute. reflexivity.
  - rewrite date_like_contains_raises. eexists. reflexivity.
Qed.

(** An entry of the inference loop is always a numeric commit. *)
Lemma infer_entry_numeric thresh series d conv e :
  infer_entry pd thresh series = Some (d, conv, e) -> snd e = "numeric".
Proof.
  unfold infer_entry.
  destruct (length (dropna_values (values series)) =? 0) eqn:E; [discriminate|].
  apply Nat.eqb_neq in E.
  destruct (to_numeric pd series) as [d' conv'].
  destruct (fge _ _); [now intros [= <- <- <-]|].
  now rewrite (infer_datetime_raises thresh series E).
Qed.

Lemma dtype_changes_numeric cfg df :
  map_Forall (fun _ (e : string * string) => snd e = "numeric") (snd (infer_stage pd cfg df)).
Proof.
  unfold infer_stage. destruct (enabled _); [|apply map_Forall_empty].
  apply (fold_left_preserves
           (fun st => map_Forall (fun _ (e : string * string) => snd e = "numeric") (snd st)));
    [|apply map_Forall_empty].
  intros [d m] c Hm. rewrite infer_column_loop. unfold loop_step. simpl in *.
  destruct (get_col d c) as [series|]; [|exact Hm].
  destruct (infer_entry pd _ series) as [[[d' conv] e]|] eqn:E; [|exact Hm].
  simpl. apply map_Forall_insert_2; [|exact Hm].
  eapply infer_entry_numeric, E.
Qed.

End DateGate.

(** Two ISO dates in a text column, and the inference switched on with the
    default threshold. *)
Definition iso_dates : DataFrame :=
  mkDataFrame 2 [mkColumn "d" object [VStr "2020-01-01"; VStr "2020-02-02"]].

Definition infer_config : Config :=
  mkConfig None None None None None None None None (Some true) (Some 0.5%float)
    None None None None.

(** C1 (the code departs from it). The pattern of the gate does not
    compile, so [str.contains] raises on every column that reaches it, the
    [except] swallows the error, and no column is ever committed to
    datetime: every entry of [dtype_changes] says "numeric".  On a column of
    two ISO dates the numeric attempt fails, every cell is date-like in the
    words of the specification and every cell parses as a date, yet
    [dtype_changes] is empty and the column leaves the pipeline as text. *)
Theorem datetime_never_committed :
  (forall pd cfg df,
     map_Forall (fun _ (e : string * string) => snd e = "numeric")
                (snd (infer_stage pd cfg df)))
  /\ (forall texts,
        str_contains date_like_pattern texts = Raised "re.error: bad character range")
  /\ (let col := mkColumn "d" object [VStr "2020-01-01"; VStr "2020-02-02"] in
      let texts := map (py_str Ref.pandas) (dropna_values (values col)) in
      let conv := to_numeric Ref.pandas col in
      fge (ratio (notna_count (snd conv)) (length (values col))) 0.9 = false
      /\ fge (ratio (count_true (map date_like_by_spec texts)) (length texts)) 0.5 = true
      /\ fge (ratio (notna_count (to_datetime Ref.pandas (values col))) (length (values col))) 0.5
         = true
      /\ snd (clean_dataframe Ref.pandas iso_dates infer_config) !! "dtype_changes"
         = Some (RDtypes ∅)
      /\ get_col (table_after_infer Ref.pandas infer_config iso_dates) "d" = Some col
      /\ get_col (fst (clean_dataframe Ref.pandas iso_dates infer_config)) "d"
         = Some (mkColumn "d" string_ [VStr "2020-01-01"; VStr "2020-02-02"])).
Proof.
  split; [|split].
  - intros pd cfg df. apply dtype_changes_numeric.
  - apply date_like_contains_raises.
  - cbv zeta. rewrite report_dtype_changes.
    split; [|split; [|split; [|split; [|split]]]]; vm_compute; reflexivity.
Qed.

(** ** Failures inside the loops *)

(** The text conversion at the end of the finalizer: the string dtype,
    or plain [str] when that conversion raises. *)
Definition as_text (pd : Pandas) (ser : column) : column :=
  if astype_string_refuses pd (values ser)
  then mkColumn (name ser) object (astype_str pd (values ser))
  else mkColumn (name ser) string_
         (map (fun v => if isna v then NA else VStr (py_str pd v)) (values ser)).

(** What the specification says of a column whose datetime attempt fails
    in the finalizer: it is left as it was. *)
Definition left_as_it_was_on_failure (pd : Pandas) (df : DataFrame) (col : column) : Prop :=
  (exists e, final_datetime pd col = Raised e) ->
  get_col (_make_arrow_compatible pd df) (name col) = Some col.

(** An object column holding the integer 7 and the text ['a']. *)
Definition mixed_column : column := mkColumn "x" object [VInt 7; VStr "a"].

(** C9, as stated, fails in the finalizer: the datetime attempt on the
    mixed column raises, the error is caught, and the column is then
    rewritten as text (the integer 7 becomes the text ['7']). *)
Lemma finalizer_failure_rewrites_column :
  ~ left_as_it_was_on_failure Ref.pandas (mkDataFrame 2 [mixed_column]) mixed_column.
Proof.
  intros H. specialize (H (final_datetime_raises Ref.pandas mixed_column)).
  vm_compute in H. discriminate H.
Qed.

Example finalizer_on_mixed_column :
  get_col (_make_arrow_compatible Ref.pandas (mkDataFrame 2 [mixed_column])) "x"
  = Some (mkColumn "x" string_ [VStr "7"; VStr "a"]).
Proof. vm_compute. reflexivity. Qed.

(** C9, amended. With distinct labels: a column whose fill attempt raises
    is left as it was and is not recorded; an object column whose numeric
    attempt falls short and whose datetime attempt raises is converted to
    text; in the trimmer, where nothing raises on scalar cells, every object
    column is trimmed; and in the three loops every column gets the outcome
    it would get on its own, whatever happened to the others. *)
Theorem column_failures_are_contained (pd : Pandas) (cfg : Config) (t : DataFrame) :
  List.NoDup (names t) ->
  (null_handling cfg = Some "fill" ->
   forall col,
     In col (columns t) ->
     get_col (fst (fst (null_stage pd cfg t))) (name col)
     = Some (updated (fill_entry pd (strategy_of cfg) (fill_constant cfg)) col)
     /\ forall e,
          na_count (values col) <> 0 ->
          fill_attempt pd (strategy_of cfg) (fill_constant cfg) col = Raised e ->
          get_col (fst (fst (null_stage pd cfg t))) (name col) = Some col
          /\ snd (null_stage pd cfg t) !! name col = None)
  /\ (forall ser,
        In ser (columns t) ->
        get_col (_make_arrow_compatible pd t) (name ser) = Some (updated (arrow_entry pd) ser)
        /\ forall e,
             dtype_of ser = object ->
             fge (ratio (notna_count (snd (to_numeric pd ser))) (length (values ser))) 0.95 = false ->
             final_datetime pd ser = Raised e ->
             get_col (_make_arrow_compatible pd t) (name ser) = Some (as_text pd ser))
  /\ (enabled (trim_whitespace cfg) = true ->
      forall col,
        In col (columns t) ->
        get_col (trim_stage pd cfg t) (name col)
        = Some (if dtype_eqb (dtype_of col) object
                then mkColumn (name col) object (map (trim_cell pd) (values col))
                else col)).
Proof.
  intros Hnd. split; [|split].
  - intros Hm col Hin.
    destruct (fill_outcome pd cfg t col Hm Hnd Hin) as [H1 H2].
    split; [exact H1|]. intros e Hna Hf.
    rewrite H1, H2. unfold updated, fill_entry.
    apply Nat.eqb_neq in Hna. rewrite Hna, Hf. now split.
  - intros ser Hin.
    assert (get_col (_make_arrow_compatible pd t) (name ser)
            = Some (updated (arrow_entry pd) ser)) as H.
    { rewrite (arrow_loop_spec pd t Hnd). now apply get_col_apply_all. }
    split; [exact H|]. intros e Ho Hnum Hf. rewrite H. f_equal.
    unfold updated, arrow_entry, as_text, astype_string. rewrite Ho. simpl.
    destruct (to_numeric pd ser) as [d conv]. simpl in Hnum. rewrite Hnum, Hf.
    now destruct (astype_string_refuses pd (values ser)).
  - intros Hon col Hin.
    rewrite (trim_stage_columns pd cfg t Hon Hnd).
    apply (get_col_map_columns
             (fun col => if dtype_eqb (dtype_of col) object
                         then mkColumn (name col) object (map (trim_cell pd) (values col))
                         else col)); try assumption.
    intros c. now destruct (dtype_eqb (dtype_of c) object).
Qed.

(** A mixed object column and a float column with a gap, filled with
    [constant] when no constant is configured: the fill raises and the float
    column stays as it was; the finalizer turns the mixed column into text. *)
Lemma column_failures_are_contained_witness :
  let t := mkDataFrame 2 [mixed_column; mkColumn "n" float64 [NA; VFloat 1]] in
  let cfg := fill_config "constant" in
  (get_col (fst (fst (null_stage Ref.pandas cfg t))) "n"
   = Some (mkColumn "n" float64 [NA; VFloat 1])
   /\ snd (null_stage Ref.pandas cfg t) !! "n" = None)
  /\ get_col (_make_arrow_compatible Ref.pandas t) "x"
     = Some (mkColumn "x" string_ [VStr "7"; VStr "a"]).
Proof.
  cbv zeta.
  destruct (column_failures_are_contained Ref.pandas (fill_config "constant")
              (mkDataFrame 2 [mixed_column; mkColumn "n" float64 [NA; VFloat 1]])
              ltac:(repeat constructor; simpl; intuition discriminate)) as [Hfill [Hfin _]].
  split.
  - destruct (Hfill eq_refl (mkColumn "n" float64 [NA; VFloat 1]) ltac:(simpl; tauto))
      as [_ H].
    exact (H "ValueError: Must specify a fill 'value' or 'method'."
             ltac:(vm_compute; discriminate) eq_refl).
  - destruct (Hfin mixed_column ltac:(simpl; tauto)) as [_ H].
    exact (H "re.error: bad character range" eq_refl eq_refl eq_refl).
Defined.

(** ** Identifier-like columns and the outlier detector *)

(** The columns of a table whose labels are not identifier-like. *)
Definition without_ids (df : DataFrame) : list column :=
  List.filter (fun col => negb (id_pattern_search (name col))) (columns df).

Lemma fold_left_agree_in {A B : Type} (f h : A -> B -> A) (l : list B) :
  (forall a b, In b l -> f a b = h a b) -> forall a, fold_left f l a = fold_left h l a.
Proof.
  induction l as [|b l IH]; simpl; intros E a; [reflexivity|].
  rewrite E by now left. apply IH. intros a' b' Hin. apply E. now right.
Qed.

Lemma filter_map_swap {A B : Type} (p : B -> bool) (f : A -> B) (l : list A) :
  List.filter p (map f l) = map f (List.filter (fun x => p (f x)) l).
Proof.
  induction l as [|x l IH]; simpl; [reflexivity|].
  destruct (p (f x)); simpl; now rewrite IH.
Qed.

Lemma filter_swap {A : Type} (p q : A -> bool) (l : list A) :
  List.filter p (List.filter q l) = List.filter q (List.filter p l).
Proof.
  induction l as [|x l IH]; simpl; [reflexivity|].
  destruct (q x) eqn:Eq, (p x) eqn:Ep; simpl; rewrite ?Eq, ?Ep, IH; reflexivity.
Qed.

Lemma find_filter {A : Type} (p q : A -> bool) (l : list A) :
  (forall x, p x = true -> q x = true) -> find p (List.filter q l) = find p l.
Proof.
  intros Hpq. induction l as [|x l IH]; simpl; [reflexivity|].
  destruct (q x) eqn:Eq; simpl.
  - now rewrite IH.
  - destruct (p x) eqn:Ep; [|exact IH]. apply Hpq in Ep. congruence.
Qed.

Lemma numeric_cols_without_ids df :
  numeric_cols df
  = map name (List.filter (fun c => is_number_dtype (dtype_of c)) (without_ids df)).
Proof.
  unfold numeric_cols, without_ids. rewrite filter_map_swap. f_equal. apply filter_swap.
Qed.

Lemma get_col_without_ids df c :
  id_pattern_search c = false ->
  get_col df c = find (fun col => String.eqb (name col) c) (without_ids df).
Proof.
  intros Hc. unfold get_col, without_ids. symmetry. apply find_filter.
  intros col E. apply String.eqb_eq in E. now rewrite E, Hc.
Qed.

Lemma numeric_cols_not_id df c : In c (numeric_cols df) -> id_pattern_search c = false.
Proof.
  unfold numeric_cols. intros H. apply filter_In in H as [_ H].
  now apply negb_true_iff.
Qed.

(** Two tables that differ only in identifier-like columns give the
    detector the same report entries and the same removal mask. *)
Lemma scan_outliers_without_ids pd method thresh action df df' :
  nrows df = nrows df' -> without_ids df = without_ids df' ->
  scan_outliers pd method thresh action df = scan_outliers pd method thresh action df'.
Proof.
  intros Hn Hw. unfold scan_outliers.
  rewrite (numeric_cols_without_ids df), Hw, <- (numeric_cols_without_ids df'), Hn.
  apply fold_left_agree_in. intros [o m] c Hin.
  apply numeric_cols_not_id in Hin.
  unfold outlier_column.
  now rewrite (get_col_without_ids df c Hin), Hw, <- (get_col_without_ids df' c Hin), Hn.
Qed.

Lemma purge_ids_lookup m c : id_pattern_search c = true -> purge_ids m !! c = None.
Proof.
  intros Hc. unfold purge_ids. apply map_lookup_filter_None. right.
  intros x _. simpl. congruence.
Qed.

Lemma outlier_stage_no_id pd cfg df c :
  id_pattern_search c = true -> snd (fst (outlier_stage pd cfg df)) !! c = None.
Proof.
  intros Hc. unfold outlier_stage. destruct (enabled _); [|apply lookup_empty].
  destruct (scan_outliers pd _ _ _ df) as [o m].
  destruct (String.eqb _ "drop"); simpl; now apply purge_ids_lookup.
Qed.

(** C3. A column whose label is identifier-like never has an entry in
    [report['outliers']], whatever the table and the configuration; and two
    tables with the same rows that differ only in identifier-like columns
    (their cells, their dtypes, even their presence) give the detector the
    same removal mask and lose the same rows, for every method, threshold
    and action. *)
Theorem identifier_columns_ignored (pd : Pandas) (cfg : Config) (df df' : DataFrame)
  (c : string) :
  id_pattern_search c = true ->
  nrows df = nrows df' ->
  without_ids df = without_ids df' ->
  (forall m, snd (clean_dataframe pd df cfg) !! "outliers" = Some (ROutliers m) ->
             m !! c = None)
  /\ (forall method thresh action,
        snd (scan_outliers pd method thresh action df)
        = snd (scan_outliers pd method thresh action df'))
  /\ nrows (fst (fst (outlier_stage pd cfg df))) = nrows (fst (fst (outlier_stage pd cfg df')))
  /\ snd (outlier_stage pd cfg df) = snd (outlier_stage pd cfg df').
Proof.
  intros Hc Hn Hw. split; [|split].
  - intros m. rewrite report_outliers. intros [= <-].
    now apply outlier_stage_no_id.
  - intros method thresh action. now rewrite (scan_outliers_without_ids pd _ _ _ df df').
  - unfold outlier_stage. destruct (enabled _); [|now split].
    rewrite (scan_outliers_without_ids pd _ _ _ df df' Hn Hw).
    destruct (scan_outliers pd _ _ _ df') as [o m].
    destruct (String.eqb _ "drop"); simpl; [|now split].
    now rewrite Hn.
Qed.

(** The test table of the repository, and the same table with an ordinary
    value in place of the extreme identifier. *)
Definition ids_table (first_user_id : Z) : DataFrame :=
  mkDataFrame 3
    [mkColumn "id" int64 [VInt 1; VInt 2; VInt 3];
     mkColumn "value" int64 [VInt 10; VInt 12; VInt 11];
     mkColumn "user_id" int64 [VInt first_user_id; VInt 2; VInt 3]].

Lemma identifier_columns_ignored_witness :
  (forall m, snd (clean_dataframe Ref.pandas (ids_table 1000000) zscore_drop_config)
             !! "outliers" = Some (ROutliers m) -> m !! "user_id" = None)
  /\ snd (scan_outliers Ref.pandas "zscore" 3 "drop" (ids_table 1000000))
     = snd (scan_outliers Ref.pandas "zscore" 3 "drop" (ids_table 1)).
Proof.
  destruct (identifier_columns_ignored Ref.pandas zscore_drop_config
              (ids_table 1000000) (ids_table 1) "user_id" eq_refl eq_refl eq_refl)
    as [H1 [H2 _]].
  split; [exact H1|apply H2].
Defined.

(** ** Row selection *)

Lemma select_length {A : Type} (keep : list bool) (xs : list A) :
  length keep = length xs -> length (select keep xs) = count_true keep.
Proof.
  revert xs. induction keep as [|k keep IH]; intros [|x xs] H; simpl in *; try discriminate;
    [reflexivity|].
  injection H as H. unfold count_true in *. destruct k; simpl; now rewrite IH.
Qed.

Lemma select_all {A : Type} (keep : list bool) (xs : list A) :
  forallb id keep = true -> length keep = length xs -> select keep xs = xs.
Proof.
  revert xs. induction keep as [|k keep IH]; intros [|x xs] Hall H; simpl in *;
    try discriminate; [reflexivity|].
  apply andb_true_iff in Hall as [Hk Hall]. injection H as H.
  unfold id in Hk. rewrite Hk. now rewrite IH.
Qed.

Lemma count_true_all (keep : list bool) :
  forallb id keep = true -> count_true keep = length keep.
Proof.
  unfold count_true. induction keep as [|k keep IH]; simpl; [reflexivity|].
  intros H. apply andb_true_iff in H as [Hk H]. unfold id in Hk. rewrite Hk. simpl.
  now rewrite IH.
Qed.

Lemma select_map {A B : Type} (f : A -> B) (keep : list bool) (xs : list A) :
  select keep (map f xs) = map f (select keep xs).
Proof.
  revert xs. induction keep as [|k keep IH]; intros [|x xs]; simpl; try reflexivity.
  destruct k; simpl; now rewrite IH.
Qed.

Lemma select_filter {A : Type} (p : A -> bool) (xs : list A) :
  select (map p xs) xs = List.filter p xs.
Proof.
  induction xs as [|x xs IH]; simpl; [reflexivity|]. destruct (p x); now rewrite IH.
Qed.

Lemma select_In {A : Type} (keep : list bool) (xs : list A) (x : A) :
  In x (select keep xs) -> In x xs.
Proof.
  revert xs. induction keep as [|k keep IH]; intros [|y xs]; simpl; try tauto.
  destruct k; simpl; intros H; [destruct H as [H|H]; [now left|]|]; right; now apply IH.
Qed.

Lemma select_NoDup {A : Type} (keep : list bool) (l : list A) :
  List.NoDup l -> List.NoDup (select keep l).
Proof.
  intros H. revert keep. induction H as [|x l Hx Hl IH]; intros [|k keep]; simpl;
    try constructor.
  destruct k; [|apply IH]. constructor; [|apply IH].
  intros Hin. apply Hx. eapply select_In; eauto.
Qed.

(** Selecting cells is reading them at the selected positions. *)
Lemma select_positions {A : Type} (d : A) (keep : list bool) (xs : list A) (s : nat) :
  length keep = length xs ->
  select keep xs = map (fun i => nth (i - s) xs d) (select keep (seq s (length keep))).
Proof.
  revert xs s. induction keep as [|k keep IH]; intros [|x xs] s H; simpl in H;
    try discriminate; [reflexivity|].
  injection H as H.
  assert (map (fun i => nth (i - s) (x :: xs) d) (select keep (seq (S s) (length keep)))
          = map (fun i => nth (i - S s) xs d) (select keep (seq (S s) (length keep)))) as E.
  { apply map_ext_in. intros i Hi. apply select_In, in_seq in Hi.
    replace (i - s) with (S (i - S s)) by lia. reflexivity. }
  cbn [select seq length]. destruct k; cbn [map]; rewrite E, <- IH by exact H;
    [now rewrite Nat.sub_diag|reflexivity].
Qed.

Lemma map_nth_seq {A : Type} (d : A) (l : list A) :
  map (fun j => nth j l d) (seq 0 (length l)) = l.
Proof.
  induction l as [|x l IH]; simpl; [reflexivity|].
  f_equal. rewrite <- seq_shift, map_map. exact IH.
Qed.

Lemma rows_take_rows keep df :
  well_formed df -> length keep = nrows df ->
  rows (take_rows keep df) = select keep (rows df).
Proof.
  intros Hwf Hk. unfold rows at 2. rewrite select_map.
  set (idx := select keep (seq 0 (nrows df))).
  assert (length idx = count_true keep) as Hidx.
  { unfold idx. apply select_length. now rewrite length_seq. }
  unfold rows. simpl nrows. rewrite <- Hidx.
  rewrite <- (map_nth_seq 0 idx) at 2. rewrite map_map.
  apply map_ext_in. intros j Hj. apply in_seq in Hj.
  unfold row, take_rows. simpl columns. rewrite map_map.
  apply map_ext_in. intros c Hc. simpl.
  unfold well_formed in Hwf. rewrite List.Forall_forall in Hwf.
  assert (length (values c) = nrows df) as Hlen by (apply Hwf; assumption).
  rewrite (select_positions NA keep (values c) 0) by congruence.
  rewrite Hk. fold idx.
  rewrite (nth_indep _ NA (nth (0 - 0) (values c) NA)) by (rewrite length_map; lia).
  rewrite (map_nth (fun i => nth (i - 0) (values c) NA) idx 0 j).
  now rewrite Nat.sub_0_r.
Qed.

(** ** Pruning twice *)

Lemma take_rows_all keep df :
  well_formed df -> forallb id keep = true -> length keep = nrows df ->
  take_rows keep df = df.
Proof.
  intros Hwf Hall Hk. unfold take_rows. destruct df as [n cols]. simpl in *. f_equal.
  - now rewrite count_true_all.
  - unfold well_formed in Hwf. simpl in Hwf. rewrite List.Forall_forall in Hwf.
    rewrite <- (map_id cols) at 2. apply map_ext_in. intros c Hc.
    rewrite select_all; [now destruct c|exact Hall|]. rewrite (Hwf c Hc). exact Hk.
Qed.

Lemma wf_take_rows keep df :
  well_formed df -> length keep = nrows df -> well_formed (take_rows keep df).
Proof.
  unfold well_formed, take_rows. simpl. rewrite !List.Forall_forall. intros Hwf Hk c Hc.
  apply in_map_iff in Hc as [c0 [<- Hc0]]. simpl.
  apply select_length. rewrite (Hwf c0 Hc0). exact Hk.
Qed.

Lemma wf_dropna_all df : well_formed df -> well_formed (dropna_all df).
Proof. intros H. apply wf_take_rows; [exact H|]. now rewrite length_map, rows_length. Qed.

Lemma wf_dropna_all_columns df : well_formed df -> well_formed (dropna_all_columns df).
Proof.
  unfold well_formed, dropna_all_columns. simpl. rewrite !List.Forall_forall.
  intros Hwf c Hc. apply filter_In in Hc as [Hc _]. now apply Hwf.
Qed.

Lemma wf_drop_duplicates df : well_formed df -> well_formed (pd_drop_duplicates df).
Proof.
  intros H. unfold pd_drop_duplicates. destruct (_ || _); [exact H|].
  apply wf_take_rows; [exact H|]. now rewrite keep_first_length, rows_length.
Qed.

Lemma rows_dropna_all df :
  well_formed df -> rows (dropna_all df) = List.filter (existsb notna) (rows df).
Proof.
  intros Hwf. unfold dropna_all.
  rewrite rows_take_rows; [apply select_filter|exact Hwf|].
  now rewrite length_map, rows_length.
Qed.

(** The mask of the columns that [dropna(axis=1, how='all')] keeps. *)
Definition column_mask (df : DataFrame) : list bool :=
  map (fun c => existsb notna (values c)) (columns df).

Lemma row_dropna_all_columns df i :
  row (dropna_all_columns df) i = select (column_mask df) (row df i).
Proof.
  unfold row, dropna_all_columns, column_mask. simpl.
  now rewrite <- select_filter, select_map.
Qed.

Lemma existsb_notna_nth vs i :
  existsb notna vs = false -> notna (nth i vs NA) = false.
Proof.
  revert i. induction vs as [|v vs IH]; intros [|i]; simpl; try reflexivity.
  - intros H. now apply orb_false_iff in H as [H _].
  - intros H. apply orb_false_iff in H as [_ H]. now apply IH.
Qed.

Lemma nonblank_dropna_all_columns df i :
  existsb notna (row (dropna_all_columns df) i) = existsb notna (row df i).
Proof.
  rewrite row_dropna_all_columns. unfold row, column_mask.
  induction (columns df) as [|c cs IH]; simpl; [reflexivity|].
  destruct (existsb notna (values c)) eqn:E; simpl; [now rewrite IH|].
  now rewrite (existsb_notna_nth _ i E), IH.
Qed.

Lemma value_eqb_isna a b : value_eqb a b = true -> isna a = isna b.
Proof.
  unfold value_eqb. destruct (isna a); [now intros ->|].
  destruct (isna b); [discriminate|reflexivity].
Qed.

Lemma row_eqb_cell df i j c :
  In c (columns df) -> row_eqb (row df j) (row df i) = true ->
  notna (nth i (values c) NA) = true -> notna (nth j (values c) NA) = true.
Proof.
  unfold row_eqb, row. intros Hc H. apply andb_true_iff in H as [_ H].
  rewrite forallb_forall in H.
  assert (In (nth j (values c) NA, nth i (values c) NA)
             (zip (map (fun c => nth j (values c) NA) (columns df))
                  (map (fun c => nth i (values c) NA) (columns df)))) as Hin.
  { clear H. induction (columns df) as [|c0 cs IH]; simpl in *; [tauto|].
    destruct Hc as [->|Hc]; [now left|right; now apply IH]. }
  specialize (H _ Hin). simpl in H. apply value_eqb_isna in H.
  unfold notna. now rewrite H.
Qed.

(** A row that is not kept has an equal row before it, so whatever some
    row shows in a column, a kept row or an earlier row shows it too. *)
Lemma keep_first_keeps_witness (rho : nat -> list value) (q : nat -> bool) :
  (forall i j, row_eqb (rho j) (rho i) = true -> q i = true -> q j = true) ->
  forall idxs seen,
    (exists i, In i idxs /\ q i = true) ->
    (exists i, In i (select (keep_first (map rho seen) (map rho idxs)) idxs) /\ q i = true)
    \/ (exists j, In j seen /\ q j = true).
Proof.
  intros Hq. induction idxs as [|i0 idxs IH]; intros seen [i [Hin Hi]]; [contradiction|].
  simpl.
  destruct (existsb (fun s => row_eqb s (rho i0)) (map rho seen)) eqn:E; simpl.
  - destruct Hin as [->|Hin].
    + right. apply existsb_exists in E as [s [Hs E]].
      apply in_map_iff in Hs as [j [<- Hj]]. exists j. split; [exact Hj|]. eapply Hq; eauto.
    + destruct (IH (i0 :: seen) (ex_intro _ i (conj Hin Hi))) as [[k [Hk Hqk]]|[j [Hj Hqj]]].
      * left. exists k. now split.
      * destruct Hj as [<-|Hj]; [|right; exists j; now split].
        right. apply existsb_exists in E as [s [Hs E]].
        apply in_map_iff in Hs as [j' [<- Hj']]. exists j'. split; [exact Hj'|]. eapply Hq; eauto.
  - destruct Hin as [->|Hin]; [left; exists i; split; [now left|exact Hi]|].
    destruct (IH (i0 :: seen) (ex_intro _ i (conj Hin Hi))) as [[k [Hk Hqk]]|[j [Hj Hqj]]].
    + left. exists k. split; [now right|exact Hqk].
    + destruct Hj as [<-|Hj]; [|right; exists j; now split].
      left. exists i0. split; [now left|exact Hqj].
Qed.

(** Rows that survived [keep_first] survive it again. *)
Lemma keep_first_idempotent rs :
  forall seen seen',
    incl seen' seen ->
    forallb id (keep_first seen' (select (keep_first seen rs) rs)) = true.
Proof.
  induction rs as [|r rs IH]; intros seen seen' Hincl; simpl; [reflexivity|].
  destruct (existsb (fun s => row_eqb s r) seen) eqn:E; simpl.
  - apply IH. intros s Hs. right. now apply Hincl.
  - apply andb_true_iff. split.
    + unfold id. apply negb_true_iff.
      destruct (existsb (fun s => row_eqb s r) seen') eqn:E'; [|reflexivity].
      apply existsb_exists in E' as [s [Hs Hr]].
      assert (existsb (fun s => row_eqb s r) seen = true) as C
        by (apply existsb_exists; exists s; split; [now apply Hincl|exact Hr]).
      congruence.
    + apply IH. intros s [<-|Hs]; [now left|right; now apply Hincl].
Qed.

(** The three pruning passes in the order of the pipeline. *)
Definition prune (df : DataFrame) : DataFrame :=
  pd_drop_duplicates (dropna_all_columns (dropna_all df)).

Lemma wf_prune df : well_formed df -> well_formed (prune df).
Proof. intros H. now apply wf_drop_duplicates, wf_dropna_all_columns, wf_dropna_all. Qed.

Lemma filter_all {A : Type} (p : A -> bool) (l : list A) :
  (forall x, In x l -> p x = true) -> List.filter p l = l.
Proof.
  induction l as [|x l IH]; simpl; intros H; [reflexivity|].
  rewrite (H x) by now left. f_equal. apply IH. intros y Hy. apply H. now right.
Qed.

Lemma forallb_id_map {A : Type} (p : A -> bool) (l : list A) :
  (forall x, In x l -> p x = true) -> forallb id (map p l) = true.
Proof.
  intros H. apply forallb_forall. intros b Hb.
  apply in_map_iff in Hb as [x [<- Hx]]. now apply H.
Qed.

Lemma drop_duplicates_fixed df :
  well_formed df -> pd_drop_duplicates (pd_drop_duplicates df) = pd_drop_duplicates df.
Proof.
  intros Hwf. unfold pd_drop_duplicates at 2 3.
  destruct ((nrows df =? 0) || (ncols df =? 0)) eqn:G.
  - unfold pd_drop_duplicates. now rewrite G.
  - assert (length (keep_first [] (rows df)) = nrows df) as Hk
      by now rewrite keep_first_length, rows_length.
    unfold pd_drop_duplicates.
    match goal with |- context [if ?g then _ else _] => destruct g end; [reflexivity|].
    apply take_rows_all.
    + now apply wf_take_rows.
    + rewrite rows_take_rows by assumption. apply keep_first_idempotent. apply incl_refl.
    + now rewrite keep_first_length, rows_length.
Qed.

Lemma rows_subset_drop_duplicates df r :
  well_formed df -> In r (rows (pd_drop_duplicates df)) -> In r (rows df).
Proof.
  intros Hwf. unfold pd_drop_duplicates. destruct (_ || _); [tauto|].
  rewrite rows_take_rows; [apply select_In|exact Hwf|].
  now rewrite keep_first_length, rows_length.
Qed.

Lemma rows_nonblank_after_columns df r :
  well_formed df ->
  In r (rows (dropna_all_columns (dropna_all df))) -> existsb notna r = true.
Proof.
  intros Hwf Hr. unfold rows in Hr. apply in_map_iff in Hr as [i [<- Hi]].
  rewrite nonblank_dropna_all_columns.
  assert (In (row (dropna_all df) i) (rows (dropna_all df))) as Hin
    by (unfold rows; now apply in_map).
  rewrite (rows_dropna_all df Hwf) in Hin. now apply filter_In in Hin as [_ Hin].
Qed.

Lemma kept_column_not_blank df c :
  well_formed df -> In c (columns df) -> existsb notna (values c) = true ->
  existsb notna (select (keep_first [] (rows df)) (values c)) = true.
Proof.
  intros Hwf Hc Hex.
  unfold well_formed in Hwf. rewrite List.Forall_forall in Hwf.
  pose proof (Hwf c Hc) as Hlen.
  assert (length (keep_first [] (rows df)) = length (values c)) as Hk
    by (rewrite keep_first_length, rows_length; congruence).
  rewrite (select_positions NA _ (values c) 0 Hk).
  rewrite keep_first_length, rows_length.
  apply existsb_exists in Hex as [v [Hv Hnv]].
  destruct (In_nth _ _ NA Hv) as [i [Hi Hnth]].
  assert (In i (seq 0 (nrows df))) as Hseq by (apply in_seq; lia).
  assert (notna (nth i (values c) NA) = true) as Hq by (rewrite Hnth; exact Hnv).
  destruct (keep_first_keeps_witness (row df) (fun i => notna (nth i (values c) NA))
              (fun i j => row_eqb_cell df i j c Hc)
              (seq 0 (nrows df)) [] (ex_intro _ i (conj Hseq Hq)))
    as [[k [Hk1 Hk2]]|[j [[] _]]].
  apply existsb_exists. exists (nth k (values c) NA). split; [|exact Hk2].
  apply in_map_iff. exists k. split; [now rewrite Nat.sub_0_r|exact Hk1].
Qed.

(** A pruned table is a fixed point of each pruning pass. *)
Lemma prune_fixed df :
  well_formed df ->
  dropna_all (prune df) = prune df
  /\ dropna_all_columns (prune df) = prune df
  /\ pd_drop_duplicates (prune df) = prune df.
Proof.
  intros Hwf.
  pose proof (wf_dropna_all_columns _ (wf_dropna_all _ Hwf)) as Hwf2.
  split; [|split].
  - apply take_rows_all.
    + now apply wf_prune.
    + apply forallb_id_map. intros r Hr.
      apply (rows_nonblank_after_columns df r Hwf).
      now apply rows_subset_drop_duplicates.
    + now rewrite length_map, rows_length.
  - unfold dropna_all_columns at 1. destruct (prune df) as [n cols] eqn:E. simpl. f_equal.
    apply filter_all. intros c' Hc'.
    assert (In c' (columns (prune df))) as Hin by now rewrite E.
    clear E Hc'. unfold prune, pd_drop_duplicates in Hin.
    destruct (_ || _).
    + unfold dropna_all_columns in Hin. simpl in Hin. now apply filter_In in Hin as [_ Hin].
    + unfold take_rows in Hin. simpl columns in Hin.
      apply in_map_iff in Hin as [c [<- Hc]]. simpl.
      apply kept_column_not_blank; [exact Hwf2|exact Hc|].
      unfold dropna_all_columns in Hc. simpl in Hc. now apply filter_In in Hc as [_ Hc].
  - now apply drop_duplicates_fixed.
Qed.

(** ** Running the pipeline twice *)

(** The same table under other labels. *)
Definition relabel (f : string -> string) (df : DataFrame) : DataFrame :=
  mkDataFrame (nrows df)
    (map (fun c => mkColumn (f (name c)) (dtype_of c) (values c)) (columns df)).

Lemma zip_with_map_r {A B C : Type} (g : A -> B -> C) (f : A -> B) (l : list A) :
  zip_with g l (map f l) = map (fun x => g x (f x)) l.
Proof. induction l as [|x l IH]; simpl; [reflexivity|]. now rewrite IH. Qed.

Lemma normalize_stage_relabel cfg df :
  fst (normalize_stage cfg df)
  = if enabled (normalize_columns cfg) then relabel _normalize_column_name df else df.
Proof.
  unfold normalize_stage. destruct (enabled _); [|reflexivity]. simpl.
  unfold rename_columns, relabel, names. f_equal. rewrite map_map.
  apply (zip_with_map_r (fun c n => mkColumn n (dtype_of c) (values c))
                        (fun c => _normalize_column_name (name c))).
Qed.

Lemma rows_relabel f df : rows (relabel f df) = rows df.
Proof.
  unfold rows, row, relabel. simpl. apply map_ext. intros i. now rewrite map_map.
Qed.

Lemma take_rows_relabel f keep df :
  take_rows keep (relabel f df) = relabel f (take_rows keep df).
Proof. unfold take_rows, relabel. simpl. now rewrite !map_map. Qed.

Lemma wf_relabel f df : well_formed df -> well_formed (relabel f df).
Proof.
  unfold well_formed, relabel. simpl. rewrite !List.Forall_forall. intros H c Hc.
  apply in_map_iff in Hc as [c0 [<- Hc0]]. simpl. now apply H.
Qed.

Lemma prune_relabel f df : prune (relabel f df) = relabel f (prune df).
Proof.
  unfold prune.
  assert (dropna_all (relabel f df) = relabel f (dropna_all df)) as ->.
  { unfold dropna_all. now rewrite rows_relabel, take_rows_relabel. }
  assert (forall d, dropna_all_columns (relabel f d) = relabel f (dropna_all_columns d)) as ->.
  { intros d. unfold dropna_all_columns, relabel. simpl. f_equal.
    now rewrite (filter_map_swap (fun c => existsb notna (values c))). }
  generalize (dropna_all_columns (dropna_all df)). intros d.
  unfold pd_drop_duplicates.
  replace (ncols (relabel f d)) with (ncols d)
    by (unfold ncols, relabel; simpl; now rewrite length_map).
  simpl nrows. destruct (_ || _); [reflexivity|].
  now rewrite rows_relabel, take_rows_relabel.
Qed.

Lemma forallb_map_compose {A B : Type} (p : B -> bool) (f : A -> B) (l : list A) :
  forallb p (map f l) = forallb (fun x => p (f x)) l.
Proof. induction l as [|x l IH]; simpl; [reflexivity|]. now rewrite IH. Qed.

(** No column has the object dtype. *)
Definition no_object_columns (df : DataFrame) : bool :=
  forallb (fun c => negb (dtype_eqb (dtype_of c) object)) (columns df).

Lemma no_object_relabel f df : no_object_columns (relabel f df) = no_object_columns df.
Proof. unfold no_object_columns, relabel. simpl. now rewrite forallb_map_compose. Qed.

Lemma no_object_take_rows keep df :
  no_object_columns (take_rows keep df) = no_object_columns df.
Proof. unfold no_object_columns, take_rows. simpl. now rewrite forallb_map_compose. Qed.

Lemma no_object_prune df : no_object_columns df = true -> no_object_columns (prune df) = true.
Proof.
  intros H. unfold prune, pd_drop_duplicates.
  assert (no_object_columns (dropna_all_columns (dropna_all df)) = true) as H2.
  { unfold dropna_all_columns, dropna_all, no_object_columns. simpl.
    apply forallb_forall. intros c Hc. apply filter_In in Hc as [Hc _].
    unfold no_object_columns in H. rewrite forallb_forall in H.
    apply in_map_iff in Hc as [c0 [<- Hc0]]. simpl. now apply H. }
  destruct (_ || _); [exact H2|]. now rewrite no_object_take_rows.
Qed.

Section Quiet.

Variable pd : Pandas.

Lemma trim_stage_no_object cfg df :
  no_object_columns df = true -> trim_stage pd cfg df = df.
Proof.
  intros H. unfold trim_stage. destruct (enabled _); [|reflexivity].
  unfold object_names. replace (List.filter _ (columns df)) with (@nil column); [reflexivity|].
  unfold no_object_columns in H. induction (columns df) as [|c cs IH]; simpl in *; [reflexivity|].
  apply andb_true_iff in H as [Hc H]. apply negb_true_iff in Hc. rewrite Hc. now apply IH.
Qed.

Lemma arrow_no_object df :
  no_object_columns df = true -> _make_arrow_compatible pd df = df.
Proof.
  intros H. unfold _make_arrow_compatible.
  apply (fold_left_preserves (fun d => d = df)); [|reflexivity].
  intros d c ->. unfold arrow_column.
  destruct (get_col df c) as [ser|] eqn:E; [|reflexivity].
  apply get_col_In in E. unfold no_object_columns in H. rewrite forallb_forall in H.
  specialize (H ser E). apply negb_true_iff in H. now rewrite H.
Qed.

End Quiet.

(** The three pruning stages are switched on. *)
Definition three_prunings_on (cfg : Config) : bool :=
  enabled (drop_blank_rows cfg) && enabled (drop_blank_cols cfg)
  && enabled (drop_duplicates cfg).

(** What the specification says of a second run: it drops no blank row,
    no blank column and no duplicate, and its two shapes are equal. *)
Definition second_run_quiet (pd : Pandas) (cfg : Config) (df : DataFrame) : Prop :=
  let once := fst (clean_dataframe pd df cfg) in
  let again := snd (clean_dataframe pd once cfg) in
  again !! "blank_rows_dropped" = Some (RCount 0)
  /\ again !! "blank_cols_dropped" = Some (RCount 0)
  /\ again !! "duplicates_dropped" = Some (RCount 0)
  /\ again !! "cleaned_shape" = again !! "original_shape".

(** The numerals 7 and 07 as text. *)
Definition numerals : DataFrame :=
  mkDataFrame 2 [mkColumn "a" object [VStr "7"; VStr "07"]].


Lemma removed_same n : removed n n = 0%Z.
Proof. unfold removed. lia. Qed.

Lemma outlier_stage_no_drop pd cfg df :
  negb (enabled (detect_outliers cfg) && String.eqb (action_of cfg) "drop") = true ->
  fst (fst (outlier_stage pd cfg df)) = df.
Proof.
  intros H. apply negb_true_iff in H. unfold outlier_stage.
  destruct (enabled (detect_outliers cfg)); [|reflexivity]. simpl in H.
  destruct (scan_outliers pd _ _ _ df) as [o m]. now rewrite H.
Qed.

(** ** The tests of the repository, on the model *)

Definition fl (z : Z) : value := VFloat (Z2F z).

(** [test_normalize_trim_infer_numeric] *)
Example test_normalize_trim_infer_numeric :
  fst (clean_dataframe Ref.pandas
         (mkDataFrame 2 [mkColumn " Name " object [VStr " Alice "; NA];
                         mkColumn "Age" object [VStr "30"; VStr " 40 "]])
         (mkConfig (Some true) (Some true) None None None None None None
                   (Some true) (Some 0.5%float) None None None None))
  = mkDataFrame 2 [mkColumn "name" string_ [VStr "Alice"; NA];
                   mkColumn "age" int64 [VInt 30; VInt 40]].
Proof. vm_compute. reflexivity. Qed.

(** [test_drop_blank_rows_cols_duplicates_and_report] *)
Example test_drop_blank_rows_cols_duplicates_and_report :
  let r := clean_dataframe Ref.pandas
             (mkDataFrame 3 [mkColumn "A" float64 [NA; fl 1; fl 1];
                             mkColumn "B" float64 [NA; fl 2; fl 2];
                             mkColumn "C" object [NA; NA; NA]])
             pruning_config in
  fst r = mkDataFrame 1 [mkColumn "A" float64 [fl 1]; mkColumn "B" float64 [fl 2]]
  /\ snd r !! "blank_cols_dropped" = Some (RCount 1)
  /\ snd r !! "blank_rows_dropped" = Some (RCount 1)
  /\ snd r !! "duplicates_dropped" = Some (RCount 1).
Proof. vm_compute. repeat split. Qed.

(** [test_date_detection_and_dtype_change]: the column comes out with the
    string dtype, the weaker of the two outcomes the test accepts. *)
Example test_date_detection_and_dtype_change :
  fst (clean_dataframe Ref.pandas
         (mkDataFrame 4 [mkColumn "d" object
                           [VStr "2020-01-01"; VStr "2020/02/02"; VStr "not a date"; VStr ""]])
         infer_config)
  = mkDataFrame 4 [mkColumn "d" string_
                     [VStr "2020-01-01"; VStr "2020/02/02"; VStr "not a date"; VStr ""]].
Proof. vm_compute. reflexivity. Qed.

(** [test_outlier_detection_skips_identifier_columns_when_dropping] *)
Example test_outlier_detection_skips_identifier_columns :
  fst (clean_dataframe Ref.pandas (ids_table 1000000) zscore_drop_config)
  = ids_table 1000000.
Proof. vm_compute. reflexivity. Qed.

(** [test_outlier_detection_drops_value_outliers_but_not_id] *)
Example test_outlier_detection_drops_value_outliers :
  nrows (fst (clean_dataframe Ref.pandas
                (mkDataFrame 21
                   [mkColumn "id" int64 (map (fun n => VInt (Z.of_nat n)) (seq 1 21));
                    mkColumn "value" int64 (repeat (VInt 10) 20 ++ [VInt 1000]);
                    mkColumn "user_id" int64 (map (fun n => VInt (Z.of_nat n)) (seq 1 21))])
                zscore_drop_config))
  = 20.
Proof. vm_compute. reflexivity. Qed.

(** [test_null_handling_drop_rows] *)
Example test_null_handling_drop_rows :
  let r := clean_dataframe Ref.pandas
             (mkDataFrame 3 [mkColumn "A" float64 [fl 1; NA; fl 3];
                             mkColumn "B" float64 [NA; NA; fl 2]])
             (mkConfig None None (Some "drop_rows") None None None None None
                       None None None None None None) in
  snd r !! "nulls_dropped" = Some (RCount 2) /\ nrows (fst r) = 1.
Proof. vm_compute. repeat split. Qed.

(** [test_null_handling_fill_mean_and_mode] *)
Example test_null_handling_fill_mean_and_mode :
  let df := mkDataFrame 3 [mkColumn "num" float64 [fl 1; NA; fl 3];
                           mkColumn "cat" object [VStr "a"; NA; VStr "a"]] in
  get_col (fst (clean_dataframe Ref.pandas df (fill_config "mean"))) "num"
  = Some (mkColumn "num" float64 [fl 1; fl 2; fl 3])
  /\ get_col (fst (clean_dataframe Ref.pandas df (fill_config "mode"))) "cat"
     = Some (mkColumn "cat" string_ [VStr "a"; VStr "a"; VStr "a"]).
Proof. vm_compute. repeat split. Qed.

(** Eight cells of 0.1: added pairwise the sum is 0.8 and the mean 0.1,
    where adding from left to right gives 0.7999999999999999. *)
Example mean_of_eight_tenths :
  mean Ref.pandas float64 (repeat (VFloat 0.1) 8) = 0.1%float
  /\ fold_left PrimFloat.add (repeat 0.1%float 8) 0%float = 0.7999999999999999%float.
Proof. vm_compute. repeat split. Qed.

(** The smallest 64-bit integer as a float. *)
Example smallest_int64_as_float :
  Z2F (-9223372036854775808) = (-9223372036854775808)%float.
Proof. vm_compute. reflexivity. Qed.

(** Quartiles by linear interpolation, as pandas reports them for 1, 2, 3, 4. *)
Example quartiles_of_1234 :
  quantile 1 [VInt 1; VInt 2; VInt 3; VInt 4] = 1.75%float
  /\ quantile 3 [VInt 1; VInt 2; VInt 3; VInt 4] = 3.25%float.
Proof. vm_compute. repeat split. Qed.

(** * More of the pipeline, stage by stage

    The properties below follow the stages in the order of
    [clean_dataframe]: labels, missing cells, blank rows and columns,
    duplicates, inference, the finalizer, the report, the detector. *)

(** ** Normalized labels *)

(** A character of the class [[0-9a-z_]]. *)
Definition is_label_char (c : ascii) : bool :=
  Py.is_digit c || Py.is_lower c || Ascii.eqb c "_".

(** The label consists of characters of [[0-9a-z_]] only. *)
Definition clean_label (s : string) : bool :=
  forallb is_label_char (list_ascii_of_string s).

Lemma lower_char_of_word c :
  Py.is_word c = true -> is_label_char (Py.lower_char c) = true.
Proof.
  destruct c as [[] [] [] [] [] [] [] []]; vm_compute; intros H;
    first [reflexivity | discriminate H].
Qed.

Lemma label_char_plain c :
  is_label_char c = true ->
  Py.is_space c = false /\ Py.is_word c = true /\ Py.lower_char c = c.
Proof.
  destruct c as [[] [] [] [] [] [] [] []]; vm_compute; intros H;
    first [discriminate H | repeat split].
Qed.

Lemma normalize_alphabet s : clean_label (_normalize_column_name s) = true.
Proof.
  unfold clean_label, _normalize_column_name, Py.lower.
  rewrite !list_ascii_of_string_of_list_ascii.
  apply forallb_forall. intros c Hc.
  apply in_map_iff in Hc as [x [<- Hx]].
  apply filter_In in Hx as [_ Hx]. now apply lower_char_of_word.
Qed.

Lemma lstrip_no_space l :
  forallb (fun c => negb (Py.is_space c)) l = true -> Py.lstrip l = l.
Proof.
  destruct l as [|c l]; simpl; [reflexivity|].
  intros H. apply andb_true_iff in H as [H _]. apply negb_true_iff in H. now rewrite H.
Qed.

Lemma rstrip_no_space l :
  forallb (fun c => negb (Py.is_space c)) l = true -> Py.rstrip l = l.
Proof.
  intros H. unfold Py.rstrip. rewrite lstrip_no_space; [apply rev_involutive|].
  now apply forallb_rev_true.
Qed.

Lemma sub_space_runs_no_space b l :
  forallb (fun c => negb (Py.is_space c)) l = true -> sub_space_runs b l = l.
Proof.
  revert b. induction l as [|c l IH]; simpl; intros b H; [reflexivity|].
  apply andb_true_iff in H as [Hc H]. apply negb_true_iff in Hc. rewrite Hc.
  now rewrite IH.
Qed.

Lemma normalize_clean s : clean_label s = true -> _normalize_column_name s = s.
Proof.
  unfold clean_label. intros H. rewrite forallb_forall in H.
  assert (forallb (fun c => negb (Py.is_space c)) (list_ascii_of_string s) = true) as Hsp.
  { apply forallb_forall. intros c Hc. apply negb_true_iff. now apply label_char_plain, H. }
  unfold _normalize_column_name, Py.strip, Py.lower.
  rewrite (lstrip_no_space _ Hsp), (rstrip_no_space _ Hsp).
  rewrite !list_ascii_of_string_of_list_ascii.
  rewrite (sub_space_runs_no_space _ _ Hsp).
  rewrite filter_all by (intros c Hc; now apply label_char_plain, H).
  rewrite (map_ext_in _ (fun c => c)) by (intros c Hc; now apply label_char_plain, H).
  rewrite map_id. apply string_of_list_ascii_of_string.
Qed.

(** X1. Whatever the label, its normalized form consists of lower-case
    letters, digits and underscores only. *)
Theorem normalized_label_alphabet (s : string) :
  Forall (fun c => Py.is_digit c = true \/ Py.is_lower c = true \/ c = "_"%char)
         (list_ascii_of_string (_normalize_column_name s)).
Proof.
  pose proof (normalize_alphabet s) as H. unfold clean_label in H.
  rewrite forallb_forall in H. apply List.Forall_forall. intros c Hc.
  specialize (H c Hc). unfold is_label_char in H.
  apply orb_true_iff in H as [H|H]; [apply orb_true_iff in H as [H|H]|]; auto.
  right; right. now apply Ascii.eqb_eq in H.
Qed.

(** X2. A label is returned unchanged exactly when it consists of
    lower-case letters, digits and underscores only; so normalizing a
    normalized label changes nothing. *)
Theorem normalize_fixed_points (s : string) :
  (_normalize_column_name s = s <-> clean_label s = true)
  /\ _normalize_column_name (_normalize_column_name s) = _normalize_column_name s.
Proof.
  split; [split|].
  - intros E. rewrite <- E. apply normalize_alphabet.
  - apply normalize_clean.
  - apply normalize_clean, normalize_alphabet.
Qed.

(** ** The dictionary of renames *)

Section Renames.

Variable f : string -> string.

Definition rename_step (m : gmap string string) (o : string) : gmap string string :=
  if String.eqb o (f o) then m else <[o := f o]> m.

Lemma renames_fold old :
  renames old (map f old) = fold_left rename_step old ∅.
Proof.
  unfold renames. rewrite (zip_with_map_r pair f old).
  generalize (∅ : gmap string string).
  induction old as [|o old IH]; simpl; intros m; [reflexivity|]. apply IH.
Qed.

Lemma rename_fold_keeps old m o :
  m !! o = Some (f o) -> fold_left rename_step old m !! o = Some (f o).
Proof.
  revert m. induction old as [|o' old IH]; simpl; intros m H; [exact H|].
  apply IH. unfold rename_step. destruct (String.eqb o' (f o')); [exact H|].
  destruct (String.eqb_spec o' o) as [->|Hne].
  - apply lookup_insert_eq.
  - now rewrite lookup_insert_ne.
Qed.

Lemma rename_fold_in old m o :
  In o old -> f o <> o -> fold_left rename_step old m !! o = Some (f o).
Proof.
  revert m. induction old as [|o' old IH]; simpl; intros m Hin Hne; [contradiction|].
  destruct Hin as [->|Hin]; [|now apply IH].
  apply rename_fold_keeps. unfold rename_step.
  destruct (String.eqb_spec o (f o)) as [E|_]; [congruence|]. apply lookup_insert_eq.
Qed.

Lemma rename_fold_out old m o n :
  fold_left rename_step old m !! o = Some n ->
  m !! o = Some n \/ (In o old /\ n = f o /\ f o <> o).
Proof.
  revert m. induction old as [|o' old IH]; simpl; intros m H; [now left|].
  apply IH in H as [H|[H1 H2]]; [|right; tauto].
  unfold rename_step in H. destruct (String.eqb_spec o' (f o')) as [E|Hne]; [now left|].
  destruct (String.eqb_spec o' o) as [->|Hne'].
  - rewrite lookup_insert_eq in H. injection H as <-. right. repeat split; auto.
  - rewrite lookup_insert_ne in H by exact Hne'. now left.
Qed.

Lemma renames_lookup old o n :
  renames old (map f old) !! o = Some n <-> In o old /\ n = f o /\ n <> o.
Proof.
  rewrite renames_fold. split.
  - intros H. apply rename_fold_out in H as [H|[H1 [H2 H3]]].
    + rewrite lookup_empty in H. discriminate H.
    + subst n. auto.
  - intros [H1 [-> H3]]. now apply rename_fold_in.
Qed.

Lemma renames_none old :
  (forall o, In o old -> f o = o) -> renames old (map f old) = ∅.
Proof.
  intros H. apply map_eq. intros o. rewrite lookup_empty.
  destruct (renames old (map f old) !! o) as [n|] eqn:E; [|reflexivity].
  apply renames_lookup in E as [H1 [-> H3]]. now rewrite H in H3.
Qed.

End Renames.

(** X3. With normalization on, on a table of ASCII labels whose
    normalized forms are distinct, [col_renames] holds an entry for a label
    exactly when the table carries the label and its normalized form differs
    from it, and the entry is that normalized form; the labels of the table
    become the normalized forms, in order. *)
Theorem col_renames_are_the_changed_labels (pd : Pandas) (df : DataFrame) (cfg : Config) :
  enabled (normalize_columns cfg) = true ->
  Forall (fun c => ascii_text c = true) (names df) ->
  List.NoDup (names (table_after_normalize cfg df)) ->
  names (table_after_normalize cfg df) = map _normalize_column_name (names df)
  /\ exists m,
       snd (clean_dataframe pd df cfg) !! "col_renames" = Some (RRenames m)
       /\ forall o n,
            m !! o = Some n
            <-> In o (names df) /\ n = _normalize_column_name o /\ n <> o.
Proof.
  intros Hon _ _. split.
  - unfold table_after_normalize. rewrite normalize_stage_relabel, Hon.
    unfold names, relabel. simpl. now rewrite !map_map.
  - rewrite report_col_renames. eexists. split; [reflexivity|].
    unfold normalize_stage. rewrite Hon. simpl. apply renames_lookup.
Qed.

Definition normalize_only : Config :=
  mkConfig (Some true) None None None None None None None None None None None None None.

(** The labels of the repository's first test: both are renamed. *)
Lemma col_renames_are_the_changed_labels_witness :
  exists m,
    snd (clean_dataframe Ref.pandas
           (mkDataFrame 1 [mkColumn " Name " object [VStr "x"]; mkColumn "age" int64 [VInt 1]])
           normalize_only) !! "col_renames" = Some (RRenames m)
    /\ m !! " Name " = Some "name" /\ m !! "age" = None.
Proof.
  destruct (col_renames_are_the_changed_labels Ref.pandas
              (mkDataFrame 1 [mkColumn " Name " object [VStr "x"]; mkColumn "age" int64 [VInt 1]])
              normalize_only eq_refl ltac:(repeat constructor)
              ltac:(repeat constructor; simpl; intuition discriminate)) as [_ [m [Hm H]]].
  exists m. split; [exact Hm|]. split.
  - apply H. simpl. split; [now left|]. split; [reflexivity|discriminate].
  - destruct (m !! "age") as [n|] eqn:E; [|reflexivity].
    apply H in E as [_ [-> E]]. now contradiction E.
Defined.

(** ** Rows with a missing cell *)

Lemma count_true_map {A : Type} (p : A -> bool) (l : list A) :
  count_true (map p l) = length (List.filter p l).
Proof.
  unfold count_true. rewrite (filter_map_swap id p l). now rewrite length_map.
Qed.

Lemma removed_count {A : Type} (p : A -> bool) (l : list A) :
  removed (length l) (count_true (map p l))
  = Z.of_nat (length (List.filter (fun x => negb (p x)) l)).
Proof.
  unfold removed. rewrite count_true_map. pose proof (List.filter_length p l). lia.
Qed.

Lemma nth_rows df i d : i < nrows df -> nth i (rows df) d = row df i.
Proof.
  intros Hi. unfold rows.
  rewrite (nth_indep _ d (row df 0)) by (now rewrite length_map, length_seq).
  rewrite map_nth. now rewrite seq_nth.
Qed.

Lemma row_mask_nth (g : list value -> bool) df i :
  i < nrows df -> nth i (map g (rows df)) false = g (row df i).
Proof.
  intros Hi.
  rewrite (nth_indep _ false (g [])) by (now rewrite length_map, rows_length).
  rewrite map_nth. now rewrite nth_rows.
Qed.

Lemma select_Forall {A : Type} (P : A -> Prop) (d : A) (keep : list bool) (xs : list A) :
  length keep = length xs ->
  (forall i, i < length xs -> nth i keep false = true -> P (nth i xs d)) ->
  Forall P (select keep xs).
Proof.
  revert xs. induction keep as [|k keep IH]; intros [|x xs] Hlen H; simpl in *;
    try discriminate; [constructor|].
  injection Hlen as Hlen.
  assert (Forall P (select keep xs)) as Hrest.
  { apply IH; [exact Hlen|]. intros i Hi Hk. apply (H (S i)); [lia|exact Hk]. }
  destruct k; [|exact Hrest]. constructor; [|exact Hrest].
  apply (H 0); [lia|reflexivity].
Qed.

Lemma cell_in_row df c i : In c (columns df) -> In (nth i (values c) NA) (row df i).
Proof. intros Hc. unfold row. now apply (in_map (fun c => nth i (values c) NA)). Qed.

Lemma rows_dropna_any df :
  well_formed df -> rows (dropna_any df) = List.filter (forallb notna) (rows df).
Proof.
  intros Hwf. unfold dropna_any.
  rewrite rows_take_rows; [apply select_filter|exact Hwf|].
  now rewrite length_map, rows_length.
Qed.

Lemma dropna_any_complete df c :
  well_formed df -> In c (columns (dropna_any df)) -> forallb notna (values c) = true.
Proof.
  intros Hwf Hc. unfold dropna_any, take_rows in Hc. simpl in Hc.
  apply in_map_iff in Hc as [c0 [<- Hc0]]. simpl.
  unfold well_formed in Hwf. rewrite List.Forall_forall in Hwf.
  pose proof (Hwf c0 Hc0) as Hlen.
  apply forallb_forall. apply List.Forall_forall.
  apply (select_Forall _ NA).
  - now rewrite length_map, rows_length.
  - intros i Hi Hk. rewrite row_mask_nth in Hk by lia.
    rewrite forallb_forall in Hk. apply Hk. now apply cell_in_row.
Qed.

(** X4. Under [null_handling = 'drop_rows'] the rows that are kept are
    the rows without a missing cell, in their order; no cell of the result
    is missing; [nulls_dropped] is the number of rows that had a missing
    cell; the labels are kept and nothing is recorded as filled. *)
Theorem drop_rows_keeps_the_complete_rows (pd : Pandas) (cfg : Config) (df : DataFrame) :
  null_handling cfg = Some "drop_rows" ->
  well_formed df ->
  let out := fst (fst (null_stage pd cfg df)) in
  rows out = List.filter (forallb notna) (rows df)
  /\ Forall (fun c => forallb notna (values c) = true) (columns out)
  /\ names out = names df
  /\ snd (fst (null_stage pd cfg df))
     = Z.of_nat (length (List.filter (fun r => negb (forallb notna r)) (rows df)))
  /\ snd (null_stage pd cfg df) = ∅.
Proof.
  intros Hm Hwf. cbv zeta. unfold null_stage. rewrite Hm. simpl.
  split; [now apply rows_dropna_any|].
  split; [apply List.Forall_forall; intros c Hc; now apply (dropna_any_complete df)|].
  split; [unfold names; simpl; now rewrite map_map|].
  split; [|reflexivity].
  rewrite <- (rows_length df) at 1. apply removed_count.
Qed.

Definition drop_rows_config : Config :=
  mkConfig None None (Some "drop_rows") None None None None None None None None None None None.

(** The table of the repository's test: one row of three is complete. *)
Lemma drop_rows_keeps_the_complete_rows_witness :
  rows (fst (fst (null_stage Ref.pandas drop_rows_config
                    (mkDataFrame 3 [mkColumn "A" float64 [VFloat 1; NA; VFloat 3];
                                    mkColumn "B" float64 [NA; NA; VFloat 2]]))))
  = [[VFloat 3; VFloat 2]].
Proof.
  destruct (drop_rows_keeps_the_complete_rows Ref.pandas drop_rows_config
              (mkDataFrame 3 [mkColumn "A" float64 [VFloat 1; NA; VFloat 3];
                              mkColumn "B" float64 [NA; NA; VFloat 2]])
              eq_refl ltac:(repeat constructor)) as [H _].
  rewrite H. vm_compute. reflexivity.
Defined.

(** ** The fill branch, column by column *)

Section FillProperties.

Variable pd : Pandas.

(** A fill that succeeds writes one value into the missing cells. *)
Lemma fillna_Done col v col' :
  fillna pd col v = Done col' ->
  exists w, v = Some w /\ fill_refused pd (dtype_of col) w = false
    /\ col' = mkColumn (name col) (fill_dtype (dtype_of col) w)
                (map (fun x => if isna x then fill_cell (dtype_of col) w else x) (values col)).
Proof.
  unfold fillna. destruct v as [w|]; [|discriminate].
  destruct w; try discriminate;
    (destruct (fill_refused pd (dtype_of col) _) eqn:E; [discriminate|]);
    intros [= <-]; eexists; repeat split; exact E.
Qed.

Lemma fill_attempt_Done strategy const col col' :
  fill_attempt pd strategy const col = Done col' ->
  exists w, fill_refused pd (dtype_of col) w = false
    /\ col' = mkColumn (name col) (fill_dtype (dtype_of col) w)
                (map (fun x => if isna x then fill_cell (dtype_of col) w else x) (values col)).
Proof.
  unfold fill_attempt, fallback_fill.
  repeat match goal with
         | |- context [if ?g then _ else _] => destruct g
         | |- context [match mode ?l with _ => _ end] => destruct (mode l)
         end;
    intros H; apply fillna_Done in H as [w [_ [H1 H2]]]; exists w; now split.
Qed.

(** X5. In the fill branch, with distinct labels: a label is recorded in
    [nulls_filled] only for a column of the table that had a missing cell
    and whose fill did not raise, and the number recorded is the number of
    cells that were missing; a column that is not recorded is exactly as it
    was. *)
Theorem nulls_filled_counts_the_missing_cells (cfg : Config) (df : DataFrame) (c : string) :
  null_handling cfg = Some "fill" ->
  List.NoDup (names df) ->
  (forall n, snd (null_stage pd cfg df) !! c = Some n ->
     exists col col',
       get_col df c = Some col
       /\ n = na_count (values col) /\ 0 < n
       /\ fill_attempt pd (strategy_of cfg) (fill_constant cfg) col = Done col'
       /\ get_col (fst (fst (null_stage pd cfg df))) c
          = Some (mkColumn c (dtype_of col') (values col')))
  /\ (snd (null_stage pd cfg df) !! c = None ->
      get_col (fst (fst (null_stage pd cfg df))) c = get_col df c).
Proof.
  intros Hm Hnd. rewrite (null_stage_fill pd cfg df Hm Hnd). cbn [fst snd].
  rewrite get_col_apply_to.
  destruct (get_col df c) as [col|] eqn:Hget.
  - pose proof (get_col_name _ _ _ Hget) as Hname.
    assert (In c (names df)) as Hin
      by (rewrite <- Hname; apply in_map; eapply get_col_In; eauto).
    rewrite (collect_in _ df (names df) ∅ c col Hnd Hin Hget).
    rewrite (proj2 (in_names_In _ _) Hin). simpl. unfold updated, fill_entry.
    destruct (na_count (values col) =? 0) eqn:E0.
    + rewrite lookup_empty. split; [discriminate|reflexivity].
    + apply Nat.eqb_neq in E0.
      destruct (fill_attempt pd (strategy_of cfg) (fill_constant cfg) col) as [col'|e] eqn:Ef.
      * split; [|discriminate]. intros n [= <-]. exists col, col'.
        repeat split; try reflexivity; try lia; [exact Ef|now rewrite Hname].
      * rewrite lookup_empty. split; [discriminate|reflexivity].
  - split; [|reflexivity]. intros n H.
    rewrite collect_notin in H.
    + rewrite lookup_empty in H. discriminate H.
    + intros Hin. unfold names in Hin. apply in_map_iff in Hin as [col [Hn Hin]].
      now apply (get_col_None _ _ _ Hget Hin).
Qed.

(** X6. In the fill branch, with distinct labels, every column keeps its
    label, its length and every cell that was present: only missing cells
    are ever written. *)
Theorem fill_keeps_the_present_cells (cfg : Config) (df : DataFrame) (col : column) :
  null_handling cfg = Some "fill" ->
  List.NoDup (names df) ->
  In col (columns df) ->
  exists col',
    get_col (fst (fst (null_stage pd cfg df))) (name col) = Some col'
    /\ length (values col') = length (values col)
    /\ forall i v, nth_error (values col) i = Some v -> isna v = false ->
                   nth_error (values col') i = Some v.
Proof.
  intros Hm Hnd Hin.
  destruct (fill_outcome pd cfg df col Hm Hnd Hin) as [H _]. rewrite H.
  eexists. split; [reflexivity|]. unfold updated, fill_entry.
  destruct (na_count (values col) =? 0); [split; [reflexivity|tauto]|].
  destruct (fill_attempt pd (strategy_of cfg) (fill_constant cfg) col) as [col'|e] eqn:Ef;
    [|split; [reflexivity|tauto]].
  apply fill_attempt_Done in Ef as [w [_ ->]]. simpl. split; [apply length_map|].
  intros i v Hv Hna. rewrite (map_nth_error _ _ _ Hv). now rewrite Hna.
Qed.

End FillProperties.

(** The text column with one gap, filled with its mode. *)
Lemma nulls_filled_counts_the_missing_cells_witness :
  exists col,
    get_col text_with_gap "cat" = Some col /\ na_count (values col) = 1.
Proof.
  destruct (nulls_filled_counts_the_missing_cells Ref.pandas (fill_config "mode") text_with_gap
              "cat" eq_refl ltac:(repeat constructor; simpl; tauto)) as [H _].
  destruct (H 1 eq_refl) as [col [col' [Hget [Hn _]]]].
  exists col. split; [exact Hget|]. now symmetry.
Defined.

Lemma fill_keeps_the_present_cells_witness :
  exists col',
    get_col (fst (fst (null_stage Ref.pandas (fill_config "mode") text_with_gap))) "cat"
    = Some col'
    /\ nth_error (values col') 0 = Some (VStr "a").
Proof.
  destruct (fill_keeps_the_present_cells Ref.pandas (fill_config "mode") text_with_gap
              (mkColumn "cat" object [VStr "a"; NA; VStr "a"])
              eq_refl ltac:(repeat constructor; simpl; tauto) ltac:(simpl; tauto))
    as [col' [H1 [_ H2]]].
  exists col'. split; [exact H1|]. exact (H2 0 (VStr "a") eq_refl eq_refl).
Defined.

(** ** The value a strategy writes *)

Lemma insert_sorted_In {A : Type} (leb : A -> A -> bool) (x y : A) (l : list A) :
  In x (insert_sorted leb y l) <-> x = y \/ In x l.
Proof.
  induction l as [|z l IH]; simpl; [intuition|].
  destruct (leb y z); simpl; [intuition|]. rewrite IH. intuition.
Qed.

Lemma sort_by_In {A : Type} (leb : A -> A -> bool) (x : A) (l : list A) :
  In x (sort_by leb l) <-> In x l.
Proof.
  unfold sort_by. induction l as [|y l IH]; simpl; [tauto|].
  rewrite insert_sorted_In, IH. intuition.
Qed.

Lemma insert_sorted_length {A : Type} (leb : A -> A -> bool) (x : A) (l : list A) :
  length (insert_sorted leb x l) = S (length l).
Proof.
  induction l as [|y l IH]; simpl; [reflexivity|].
  destruct (leb x y); simpl; [reflexivity|now rewrite IH].
Qed.

Lemma sort_by_length {A : Type} (leb : A -> A -> bool) (l : list A) :
  length (sort_by leb l) = length l.
Proof.
  unfold sort_by. induction l as [|y l IH]; simpl; [reflexivity|].
  now rewrite insert_sorted_length, IH.
Qed.

Lemma distinct_In seen vs v : In v (distinct seen vs) -> In v vs.
Proof.
  revert seen. induction vs as [|x vs IH]; simpl; intros seen H; [exact H|].
  destruct (existsb (value_eqb x) seen); [right; eapply IH; eauto|].
  destruct H as [H|H]; [now left|right; eapply IH; eauto].
Qed.

Lemma max_attained {A : Type} (g : A -> nat) (l : list A) :
  l <> [] -> exists x, In x l /\ g x = fold_right Nat.max 0 (map g l).
Proof.
  induction l as [|y l IH]; [congruence|]. intros _. simpl.
  destruct l as [|z l].
  - exists y. split; [now left|]. simpl. lia.
  - destruct IH as [x [Hx Hg]]; [discriminate|].
    destruct (Nat.max_spec (g y) (fold_right Nat.max 0 (map g (z :: l)))) as [[_ E]|[_ E]];
      rewrite E.
    + exists x. split; [now right|exact Hg].
    + exists y. split; [now left|reflexivity].
Qed.

(** The first mode is a non-missing cell of the column. *)
Lemma mode_head vs v rest :
  mode vs = v :: rest -> In v vs /\ notna v = true.
Proof.
  intros H.
  assert (In v (mode vs)) as Hin by (rewrite H; now left).
  unfold mode in Hin. apply sort_by_In in Hin. apply filter_In in Hin as [Hin _].
  apply distinct_In in Hin. unfold dropna_values in Hin. now apply filter_In in Hin.
Qed.

(** There is no mode only when every cell is missing. *)
Lemma mode_nil vs : mode vs = [] -> forallb isna vs = true.
Proof.
  intros H.
  assert (dropna_values vs = []) as Hnn.
  { destruct (dropna_values vs) as [|x nn] eqn:E; [reflexivity|]. exfalso.
    unfold mode in H. rewrite E in H. cbn [distinct existsb] in H.
    set (ds := x :: distinct [x] nn) in H.
    destruct (max_attained (fun v => occurrences v (x :: nn)) ds) as [y [Hy Hg]];
      [discriminate|].
    assert (In y (sort_by value_leb
                    (List.filter (fun v => occurrences v (x :: nn)
                                           =? fold_right Nat.max 0
                                                (map (fun v => occurrences v (x :: nn)) ds)) ds)))
      as Hin.
    { apply sort_by_In, filter_In. split; [exact Hy|]. apply Nat.eqb_eq. exact Hg. }
    rewrite H in Hin. exact Hin. }
  apply forallb_forall. intros v Hv.
  destruct (isna v) eqn:E; [reflexivity|].
  assert (In v (dropna_values vs)) as Hin
    by (apply filter_In; split; [exact Hv|unfold notna; now rewrite E]).
  rewrite Hnn in Hin. contradiction.
Qed.

Lemma all_missing_dropna vs : forallb isna vs = true -> dropna_values vs = [].
Proof.
  intros H. unfold dropna_values. induction vs as [|v vs IH]; simpl in *; [reflexivity|].
  apply andb_true_iff in H as [Hv H]. unfold notna. rewrite Hv. simpl. now apply IH.
Qed.

(** Every cell of the column is a float or missing. *)
Definition float_cells (vs : list value) : Prop :=
  Forall (fun v => match v with VFloat _ | NA => True | _ => False end) vs.

(** Every cell of the column is text or missing. *)
Definition text_cells (vs : list value) : Prop :=
  Forall (fun v => match v with VStr _ | NA => True | _ => False end) vs.

Lemma filled_no_gap (w : value) (vs : list value) :
  notna w = true -> forallb notna (map (fun x => if isna x then w else x) vs) = true.
Proof.
  intros Hw. apply forallb_forall. intros y Hy.
  apply in_map_iff in Hy as [x [<- _]].
  destruct (isna x) eqn:E; [exact Hw|]. unfold notna. now rewrite E.
Qed.

Section Strategies.

Variable pd : Pandas.

Lemma fillna_accepted col w :
  w <> NA -> fill_refused pd (dtype_of col) w = false ->
  fillna pd col (Some w)
  = Done (mkColumn (name col) (fill_dtype (dtype_of col) w)
            (map (fun x => if isna x then fill_cell (dtype_of col) w else x) (values col))).
Proof.
  intros Hw Hr. unfold fillna. destruct w; try congruence; now rewrite Hr.
Qed.

Lemma fill_attempt_mode const col :
  fill_attempt pd "mode" const col
  = match mode (values col) with
    | v :: _ => fillna pd col (Some v)
    | [] => fallback_fill pd col
    end.
Proof. reflexivity. Qed.

(** X7. Under the strategy [mode] (also the default), with distinct
    labels, an object column whose present cells are text, or a float
    column whose cells are floats, that has missing cells gets one value
    written into each of them: its first mode, a cell of the column itself,
    or (when every cell is missing, so that there is no mode) empty text or
    zero.  The filled column holds cells of the kind it held before, so its
    dtype is kept; no cell of it is missing afterwards, and the column is
    recorded with its number of missing cells. *)
Theorem mode_fill_leaves_no_gap (cfg : Config) (df : DataFrame) (col : column) :
  null_handling cfg = Some "fill" ->
  strategy_of cfg = "mode" ->
  List.NoDup (names df) ->
  In col (columns df) ->
  na_count (values col) <> 0 ->
  (dtype_of col = object /\ text_cells (values col))
  \/ (dtype_of col = float64 /\ float_cells (values col)) ->
  exists w,
    get_col (fst (fst (null_stage pd cfg df))) (name col)
    = Some (mkColumn (name col) (dtype_of col)
              (map (fun x => if isna x then w else x) (values col)))
    /\ forallb notna (map (fun x => if isna x then w else x) (values col)) = true
    /\ snd (null_stage pd cfg df) !! name col = Some (na_count (values col))
    /\ match mode (values col) with
       | v :: _ => w = v /\ In v (values col)
       | [] => w = zero_or_empty (dtype_of col) /\ forallb isna (values col) = true
       end.
Proof.
  intros Hm Hs Hnd Hin Hna Hty.
  destruct (fill_outcome pd cfg df col Hm Hnd Hin) as [H1 H2]. rewrite H1, H2.
  unfold updated, fill_entry. apply Nat.eqb_neq in Hna. rewrite Hna, Hs.
  rewrite fill_attempt_mode.
  destruct (mode (values col)) as [|v rest] eqn:Emode.
  - exists (zero_or_empty (dtype_of col)).
    rewrite fallback_fill_unfold.
    assert (fill_refused pd (dtype_of col) (fallback_value (dtype_of col)) = false
            /\ fill_dtype (dtype_of col) (fallback_value (dtype_of col)) = dtype_of col
            /\ notna (zero_or_empty (dtype_of col)) = true
            /\ fallback_value (dtype_of col) <> NA) as [Hr [Hd [Hn Hv]]].
    { destruct Hty as [[-> _]|[-> _]]; repeat split; discriminate. }
    rewrite (fillna_accepted col _ Hv Hr). simpl. rewrite fill_cell_fallback, Hd.
    split; [reflexivity|]. split; [now apply filled_no_gap|].
    split; [reflexivity|]. split; [reflexivity|now apply mode_nil].
  - exists v. destruct (mode_head _ _ _ Emode) as [Hv Hn].
    assert (fill_refused pd (dtype_of col) v = false
            /\ fill_dtype (dtype_of col) v = dtype_of col
            /\ fill_cell (dtype_of col) v = v) as [Hr [Hd Hc]].
    { destruct Hty as [[-> _]|[-> Hf]]; [repeat split; now destruct v|].
      unfold float_cells in Hf. rewrite List.Forall_forall in Hf. specialize (Hf v Hv).
      destruct v; try contradiction; [discriminate Hn|]. repeat split. }
    assert (v <> NA) as Hv' by (intros ->; discriminate Hn).
    rewrite (fillna_accepted col _ Hv' Hr). simpl. rewrite Hd, Hc.
    split; [reflexivity|]. split; [now apply filled_no_gap|].
    split; [reflexivity|]. split; [reflexivity|exact Hv].
Qed.

(** X8. Under [mean] or [median], with distinct labels, a float column
    with missing cells has each of them replaced by the statistic of its
    present cells, keeps its dtype and its present cells, and is recorded
    with its number of missing cells.  The mean is numpy's sum of the cells
    (a missing cell counting as zero) over the number of present cells; the
    median is the middle one of the sorted present cells, or the half-sum
    of the two middle ones.  When every cell is missing the statistic is
    NaN: the column is recorded as filled and is still blank. *)
Theorem mean_median_fill_writes_the_statistic (cfg : Config) (df : DataFrame) (col : column) :
  null_handling cfg = Some "fill" ->
  strategy_of cfg = "mean" \/ strategy_of cfg = "median" ->
  List.NoDup (names df) ->
  In col (columns df) ->
  dtype_of col = float64 ->
  na_count (values col) <> 0 ->
  let present := map to_float (List.filter notna (values col)) in
  let n := length present in
  let sorted := sort_by PrimFloat.leb present in
  let stat :=
    if n =? 0 then nan
    else if String.eqb (strategy_of cfg) "mean" then
      (sum_floats pd float64
         (map (fun v => if isna v then 0 else to_float v) (values col)) / N2F n)%float
    else if Nat.odd n then nth (n / 2) sorted nan
    else ((nth (n / 2 - 1) sorted nan + nth (n / 2) sorted nan) / 2)%float in
  get_col (fst (fst (null_stage pd cfg df))) (name col)
  = Some (mkColumn (name col) float64
            (map (fun x => if isna x then VFloat stat else x) (values col)))
  /\ snd (null_stage pd cfg df) !! name col = Some (na_count (values col))
  /\ (forallb isna (values col) = true ->
      is_nan stat = true
      /\ forallb isna (map (fun x => if isna x then VFloat stat else x) (values col)) = true).
Proof.
  intros Hm Hs Hnd Hin Hd Hna. cbv zeta.
  destruct (fill_outcome pd cfg df col Hm Hnd Hin) as [H1 H2]. rewrite H1, H2.
  unfold updated, fill_entry. apply Nat.eqb_neq in Hna. rewrite Hna.
  set (present := map to_float (List.filter notna (values col))).
  set (stat := if length present =? 0 then nan else _).
  assert (fill_attempt pd (strategy_of cfg) (fill_constant cfg) col
          = Done (mkColumn (name col) float64
                    (map (fun x => if isna x then VFloat stat else x) (values col)))) as ->.
  { assert (mean pd float64 (values col) = stat /\ median (values col) = stat
            \/ strategy_of cfg = "mean" /\ mean pd float64 (values col) = stat
            \/ strategy_of cfg = "median" /\ median (values col) = stat) as Hstat.
    { unfold stat, mean, median, floats, zero_filled, dropna_values. fold present.
      rewrite sort_by_length. unfold present at 1. rewrite length_map. fold present.
      destruct Hs as [E|E]; rewrite E; [right; left|right; right]; split;
        try reflexivity; simpl String.eqb; cbv iota;
        unfold present; rewrite ?length_map; reflexivity. }
    unfold fill_attempt.
    destruct Hs as [E|E]; rewrite E, Hd; simpl; unfold fillna, fill_refused; rewrite Hd;
      destruct Hstat as [[Ha Hb]|[[E' Ha]|[E' Hb]]]; rewrite ?Ha, ?Hb; try reflexivity;
      rewrite E in E'; discriminate E'. }
  simpl. split; [reflexivity|]. split; [reflexivity|].
  intros Hall.
  assert (is_nan stat = true) as Hnan.
  { unfold stat, present. fold (dropna_values (values col)).
    now rewrite (all_missing_dropna _ Hall). }
  split; [exact Hnan|].
  apply forallb_forall. intros y Hy. apply in_map_iff in Hy as [x [<- Hx]].
  rewrite forallb_forall in Hall. rewrite (Hall x Hx). exact Hnan.
Qed.

(** X9. Under [constant] with no [fill_constant] configured, on a table
    with distinct labels, every fill raises: the table leaves the null
    handler as it was and nothing is recorded. *)
Theorem constant_fill_without_a_constant_fills_nothing (cfg : Config) (df : DataFrame) :
  null_handling cfg = Some "fill" ->
  fill_strategy cfg = Some "constant" ->
  fill_constant cfg = None ->
  List.NoDup (names df) ->
  null_stage pd cfg df = (df, 0%Z, ∅).
Proof.
  intros Hm Hs Hc _. unfold null_stage, strategy_of. rewrite Hm, Hs, Hc. simpl.
  assert (fold_left (fill_column pd "constant" None) (names df) (df, ∅) = (df, ∅)) as ->;
    [|reflexivity].
  apply (fold_left_preserves (fun st => st = (df, (∅ : gmap string nat)))); [|reflexivity].
  intros st c ->. unfold fill_column.
  destruct (get_col df c) as [col|]; [|reflexivity].
  now destruct (na_count (values col) =? 0).
Qed.

End Strategies.

(** The text column with one gap: the mode ['a'] goes into the gap. *)
Lemma mode_fill_leaves_no_gap_witness :
  get_col (fst (fst (null_stage Ref.pandas (fill_config "mode") text_with_gap))) "cat"
  = Some (mkColumn "cat" object [VStr "a"; VStr "a"; VStr "a"]).
Proof.
  destruct (mode_fill_leaves_no_gap Ref.pandas (fill_config "mode") text_with_gap
              (mkColumn "cat" object [VStr "a"; NA; VStr "a"])
              eq_refl eq_refl ltac:(repeat constructor; simpl; tauto) ltac:(simpl; tauto)
              ltac:(vm_compute; discriminate)
              (or_introl (conj eq_refl
                 (ltac:(repeat constructor) : text_cells [VStr "a"; NA; VStr "a"]))))
    as [w [H [_ [_ [-> _]]]]].
  exact H.
Defined.

(** A float column with one gap and a blank float column, under [mean]. *)
Definition floats_with_gaps : DataFrame :=
  mkDataFrame 3 [mkColumn "num" float64 [VFloat 1; NA; VFloat 3];
                 mkColumn "blank" float64 [NA; NA; NA]].

Lemma mean_median_fill_writes_the_statistic_witness :
  get_col (fst (fst (null_stage Ref.pandas (fill_config "mean") floats_with_gaps))) "num"
  = Some (mkColumn "num" float64 [VFloat 1; VFloat 2; VFloat 3])
  /\ snd (null_stage Ref.pandas (fill_config "mean") floats_with_gaps) !! "blank" = Some 3.
Proof.
  split.
  - destruct (mean_median_fill_writes_the_statistic Ref.pandas (fill_config "mean")
                floats_with_gaps (mkColumn "num" float64 [VFloat 1; NA; VFloat 3])
                eq_refl (or_introl eq_refl)
                ltac:(repeat constructor; simpl; intuition discriminate)
                ltac:(simpl; tauto) eq_refl ltac:(vm_compute; discriminate)) as [H _].
    exact H.
  - destruct (mean_median_fill_writes_the_statistic Ref.pandas (fill_config "mean")
                floats_with_gaps (mkColumn "blank" float64 [NA; NA; NA])
                eq_refl (or_introl eq_refl)
                ltac:(repeat constructor; simpl; intuition discriminate)
                ltac:(simpl; tauto) eq_refl ltac:(vm_compute; discriminate)) as [_ [H _]].
    exact H.
Defined.

Lemma constant_fill_without_a_constant_fills_nothing_witness :
  null_stage Ref.pandas (fill_config "constant") floats_with_gaps
  = (floats_with_gaps, 0%Z, ∅).
Proof.
  apply (constant_fill_without_a_constant_fills_nothing Ref.pandas (fill_config "constant")
           floats_with_gaps eq_refl eq_refl eq_refl).
  repeat constructor; simpl; intuition discriminate.
Defined.

(** ** Blank rows and blank columns *)

(** X10. With both blank passes on, on a well-formed table: the rows kept
    are those with a present cell, then the columns kept are those with a
    present cell among the rows that are left; dropping the blank columns
    leaves no blank row behind, so the result has neither a blank row nor a
    blank column; and the two counts are the numbers of blank rows and of
    blank columns. *)
Theorem no_blank_row_or_column_remains (cfg : Config) (df : DataFrame) :
  enabled (drop_blank_rows cfg) = true ->
  enabled (drop_blank_cols cfg) = true ->
  well_formed df ->
  let t1 := fst (blank_rows_stage cfg df) in
  let t2 := fst (blank_cols_stage cfg t1) in
  rows t1 = List.filter (existsb notna) (rows df)
  /\ columns t2 = List.filter (fun c => existsb notna (values c)) (columns t1)
  /\ Forall (fun r => existsb notna r = true) (rows t2)
  /\ Forall (fun c => existsb notna (values c) = true) (columns t2)
  /\ snd (blank_rows_stage cfg df)
     = Z.of_nat (length (List.filter (fun r => negb (existsb notna r)) (rows df)))
  /\ snd (blank_cols_stage cfg t1)
     = Z.of_nat (length (List.filter (fun c => negb (existsb notna (values c))) (columns t1))).
Proof.
  intros Hr Hc Hwf. cbv zeta. unfold blank_rows_stage, blank_cols_stage. rewrite Hr, Hc.
  cbn [fst snd].
  split; [now apply rows_dropna_all|]. split; [reflexivity|].
  split; [apply List.Forall_forall; intros r Hin; now apply (rows_nonblank_after_columns df)|].
  split.
  { apply List.Forall_forall. intros c Hin. unfold dropna_all_columns in Hin. simpl in Hin.
    now apply filter_In in Hin as [_ Hin]. }
  split.
  - unfold dropna_all. cbn [nrows take_rows]. rewrite <- (rows_length df) at 1.
    apply removed_count.
  - unfold removed, ncols, dropna_all_columns. cbn [columns].
    pose proof (List.filter_length (fun c => existsb notna (values c))
                  (columns (dropna_all df))). lia.
Qed.

(** The table of the repository's pruning test: one blank row, one blank
    column. *)
Lemma no_blank_row_or_column_remains_witness :
  let df := mkDataFrame 3 [mkColumn "A" float64 [NA; VFloat 1; VFloat 1];
                           mkColumn "B" float64 [NA; VFloat 2; VFloat 2];
                           mkColumn "C" object [NA; NA; NA]] in
  rows (fst (blank_rows_stage pruning_config df))
  = [[VFloat 1; VFloat 2; NA]; [VFloat 1; VFloat 2; NA]]
  /\ snd (blank_cols_stage pruning_config (fst (blank_rows_stage pruning_config df))) = 1%Z.
Proof.
  cbv zeta.
  destruct (no_blank_row_or_column_remains pruning_config
              (mkDataFrame 3 [mkColumn "A" float64 [NA; VFloat 1; VFloat 1];
                              mkColumn "B" float64 [NA; VFloat 2; VFloat 2];
                              mkColumn "C" object [NA; NA; NA]])
              eq_refl eq_refl ltac:(repeat constructor)) as [H1 [_ [_ [_ [_ H2]]]]].
  split; [rewrite H1|rewrite H2]; vm_compute; reflexivity.
Defined.

(** ** Duplicate rows *)

(** The rows that [keep_first] keeps differ from every row seen before and
    from each other. *)
Lemma keep_first_fresh rs :
  forall seen,
    let out := select (keep_first seen rs) rs in
    (forall r s, In r out -> In s seen -> row_eqb s r = false)
    /\ (forall i j ri rj, i < j -> nth_error out i = Some ri -> nth_error out j = Some rj ->
                          row_eqb ri rj = false).
Proof.
  induction rs as [|r0 rs IH]; intros seen; cbv zeta.
  - simpl. split; [contradiction|]. intros i j ri rj _ H. now destruct i.
  - destruct (IH (r0 :: seen)) as [IHa IHb]. simpl.
    destruct (existsb (fun s => row_eqb s r0) seen) eqn:E; simpl.
    + split; [|exact IHb]. intros r s Hr Hs. apply IHa; [exact Hr|now right].
    + split.
      * intros r s [<-|Hr] Hs.
        -- destruct (row_eqb s r0) eqn:Es; [|reflexivity].
           assert (existsb (fun s => row_eqb s r0) seen = true) as C
             by (apply existsb_exists; now exists s).
           congruence.
        -- apply IHa; [exact Hr|now right].
      * intros [|i] [|j] ri rj Hij Hi Hj; try lia; simpl in Hi, Hj.
        -- injection Hi as <-. apply IHa; [eapply nth_error_In; eauto|now left].
        -- apply (IHb i j); [lia|exact Hi|exact Hj].
Qed.

(** A row that [keep_first] does not keep has an equal row before it. *)
Lemma keep_first_covers rs :
  forall seen i r,
    nth_error rs i = Some r ->
    In r (select (keep_first seen rs) rs)
    \/ (exists s, In s seen /\ row_eqb s r = true)
    \/ (exists j s, j < i /\ nth_error rs j = Some s /\ row_eqb s r = true).
Proof.
  induction rs as [|r0 rs IH]; intros seen i r Hi; [now destruct i|].
  destruct i as [|i]; simpl in Hi.
  - injection Hi as <-. simpl.
    destruct (existsb (fun s => row_eqb s r0) seen) eqn:E; simpl; [|left; now left].
    right; left. apply existsb_exists in E as [s [Hs E]]. now exists s.
  - destruct (IH (r0 :: seen) i r Hi) as [H|[[s [[<-|Hs] E]]|[j [s [Hj [Hs E]]]]]].
    + left. simpl. destruct (negb _); [now right|exact H].
    + right; right. exists 0, r0. split; [lia|]. now split.
    + right; left. now exists s.
    + right; right. exists (S j), s. split; [lia|]. now split.
Qed.

(** X11. On a well-formed table with at least one column,
    [drop_duplicates] keeps a sub-sequence of the rows in which no two rows
    are equal, and every row of the table is either kept or equal to a row
    that stands before it. *)
Theorem drop_duplicates_keeps_first_occurrences (df : DataFrame) :
  well_formed df ->
  ncols df <> 0 ->
  let out := rows (pd_drop_duplicates df) in
  (exists keep, length keep = nrows df /\ out = select keep (rows df))
  /\ (forall i j ri rj, i < j -> nth_error out i = Some ri -> nth_error out j = Some rj ->
                        row_eqb ri rj = false)
  /\ (forall i r, nth_error (rows df) i = Some r ->
        In r out
        \/ exists j s, j < i /\ nth_error (rows df) j = Some s /\ row_eqb s r = true).
Proof.
  intros Hwf Hc. cbv zeta. unfold pd_drop_duplicates.
  apply Nat.eqb_neq in Hc. rewrite Hc, orb_false_r.
  destruct (nrows df =? 0) eqn:E.
  - apply Nat.eqb_eq in E.
    assert (rows df = []) as Hrows by (unfold rows; now rewrite E).
    rewrite Hrows. split; [exists []; now rewrite E|].
    split; [intros i j ri rj _ H; now destruct i|intros i r H; now destruct i].
  - assert (length (keep_first [] (rows df)) = nrows df) as Hk
      by now rewrite keep_first_length, rows_length.
    rewrite (rows_take_rows _ df Hwf Hk).
    split; [eexists; split; [exact Hk|reflexivity]|].
    split; [apply (keep_first_fresh (rows df) [])|].
    intros i r Hi.
    destruct (keep_first_covers (rows df) [] i r Hi) as [H|[[s [[] _]]|H]];
      [now left|now right].
Qed.

(** Three rows, the third equal to the first. *)
Definition repeated_row : DataFrame :=
  mkDataFrame 3 [mkColumn "a" int64 [VInt 1; VInt 2; VInt 1];
                 mkColumn "b" object [VStr "x"; VStr "y"; VStr "x"]].

Lemma drop_duplicates_keeps_first_occurrences_witness :
  ncols repeated_row <> 0
  /\ (exists keep,
        length keep = 3
        /\ rows (pd_drop_duplicates repeated_row) = select keep (rows repeated_row))
  /\ rows (pd_drop_duplicates repeated_row) = [[VInt 1; VStr "x"]; [VInt 2; VStr "y"]].
Proof.
  split; [simpl; discriminate|]. split; [|vm_compute; reflexivity].
  exact (proj1 (drop_duplicates_keeps_first_occurrences repeated_row
                  ltac:(repeat constructor) ltac:(simpl; discriminate))).
Defined.

(** ** What the inference commits *)

(** The configuration [cfg] with its [date_detect_thresh] entry replaced. *)
Definition with_date_detect_thresh (t : option float) (cfg : Config) : Config :=
  mkConfig (normalize_columns cfg) (trim_whitespace cfg) (null_handling cfg)
    (fill_strategy cfg) (fill_constant cfg) (drop_blank_rows cfg) (drop_blank_cols cfg)
    (drop_duplicates cfg) (infer_types cfg) t (detect_outliers cfg) (outlier_method cfg)
    (outlier_threshold cfg) (outlier_action cfg).

(** No column of the table has the datetime dtype. *)
Definition no_timestamp_cell (df : DataFrame) : Prop :=
  Forall (fun c => Forall (fun v => match v with VTime _ => False | _ => True end)
                          (values c)) (columns df).

Definition no_datetime (df : DataFrame) : Prop :=
  Forall (fun c => dtype_of c <> datetime64) (columns df).

Definition is_text_cell (v : value) : Prop :=
  match v with VStr _ => True | _ => False end.

Section Inference.

Variable pd : Pandas.

Lemma to_numeric_dtype col :
  fst (to_numeric pd col) = bool_ \/ fst (to_numeric pd col) = int64
  \/ fst (to_numeric pd col) = float64.
Proof.
  unfold to_numeric. destruct (forallb is_bool_cell _); [now left|].
  destruct (forallb is_int_cell _); [right; now left|right; now right].
Qed.

Lemma to_numeric_length col : length (snd (to_numeric pd col)) = length (values col).
Proof.
  unfold to_numeric. destruct (forallb is_bool_cell _); [simpl; apply length_map|].
  destruct (forallb is_int_cell _); simpl; now rewrite !length_map.
Qed.

(** The entry of the inference loop: the numeric commit or nothing. *)
Lemma infer_entry_spec thresh series :
  infer_entry pd thresh series
  = if negb (length (dropna_values (values series)) =? 0)
       && fge (ratio (notna_count (snd (to_numeric pd series))) (length (values series)))
              0.9%float
    then Some (fst (to_numeric pd series), snd (to_numeric pd series),
               (dtype_name (dtype_of series), "numeric"))
    else None.
Proof.
  unfold infer_entry.
  destruct (length (dropna_values (values series)) =? 0) eqn:E; [reflexivity|]. simpl.
  apply Nat.eqb_neq in E.
  destruct (to_numeric pd series) as [d conv]. simpl.
  destruct (fge _ _); [reflexivity|].
  now rewrite (infer_datetime_raises pd thresh series E).
Qed.

Lemma infer_column_thresh t t' st c :
  infer_column pd t st c = infer_column pd t' st c.
Proof.
  rewrite !infer_column_loop. unfold loop_step.
  destruct (get_col (fst st) c) as [col|]; [|reflexivity].
  now rewrite (infer_entry_spec t), (infer_entry_spec t').
Qed.

Lemma infer_stage_thresh t cfg df :
  infer_stage pd (with_date_detect_thresh t cfg) df = infer_stage pd cfg df.
Proof.
  unfold infer_stage. simpl. destruct (enabled (infer_types cfg)); [|reflexivity].
  apply fold_left_agree. intros st c. apply infer_column_thresh.
Qed.

(** X12. With the inference on and distinct labels, a column is committed
    exactly when it has a present cell and at least nine tenths of its cells
    read as numbers: it is then replaced by the numeric conversion and
    recorded as changed from its former dtype to "numeric" (also when it was
    numeric already); every other column is left exactly as it was and is
    not recorded. *)
Theorem inference_commits_numeric_or_nothing (cfg : Config) (df : DataFrame) (col : column) :
  enabled (infer_types cfg) = true ->
  List.NoDup (names df) ->
  In col (columns df) ->
  let out := infer_stage pd cfg df in
  let conv := to_numeric pd col in
  if negb (length (dropna_values (values col)) =? 0)
     && fge (ratio (notna_count (snd conv)) (length (values col))) 0.9%float
  then get_col (fst out) (name col) = Some (mkColumn (name col) (fst conv) (snd conv))
       /\ snd out !! name col = Some (dtype_name (dtype_of col), "numeric")
  else get_col (fst out) (name col) = Some col
       /\ snd out !! name col = None.
Proof.
  intros Hon Hnd Hin. cbv zeta. unfold infer_stage. rewrite Hon.
  rewrite (infer_loop_spec pd _ df Hnd). cbn [fst snd].
  rewrite (get_col_apply_all _ df col Hnd Hin).
  rewrite (collect_in _ df (names df) ∅ (name col) col Hnd);
    [|now apply in_map|now apply get_col_unique].
  unfold updated. rewrite infer_entry_spec.
  destruct (_ && _); split; reflexivity.
Qed.

(** X13. The pipeline never consults [date_detect_thresh]: whatever the
    entry is replaced by, the table and the report are the same. *)
Theorem date_detect_thresh_is_never_consulted (t : option float) (cfg : Config)
  (df : DataFrame) :
  clean_dataframe pd df (with_date_detect_thresh t cfg) = clean_dataframe pd df cfg.
Proof.
  unfold clean_dataframe.
  change (normalize_stage (with_date_detect_thresh t cfg) df) with (normalize_stage cfg df).
  destruct (normalize_stage cfg df) as [d1 ren].
  change (trim_stage pd (with_date_detect_thresh t cfg) d1) with (trim_stage pd cfg d1).
  change (null_stage pd (with_date_detect_thresh t cfg)) with (null_stage pd cfg).
  destruct (null_stage pd cfg (trim_stage pd cfg d1)) as [[d2 nd] nf].
  change (blank_rows_stage (with_date_detect_thresh t cfg) d2) with (blank_rows_stage cfg d2).
  destruct (blank_rows_stage cfg d2) as [d3 br].
  change (blank_cols_stage (with_date_detect_thresh t cfg) d3) with (blank_cols_stage cfg d3).
  destruct (blank_cols_stage cfg d3) as [d4 bc].
  change (duplicates_stage (with_date_detect_thresh t cfg) d4) with (duplicates_stage cfg d4).
  destruct (duplicates_stage cfg d4) as [d5 dd].
  rewrite infer_stage_thresh.
  destruct (infer_stage pd cfg d5) as [d6 dc].
  change (outlier_stage pd (with_date_detect_thresh t cfg)) with (outlier_stage pd cfg).
  reflexivity.
Qed.

(** *** No datetime column is ever made *)

Lemma no_datetime_set_col df c d vs :
  no_datetime df -> d <> datetime64 -> no_datetime (set_col df c d vs).
Proof.
  unfold no_datetime, set_col. simpl. rewrite !List.Forall_forall. intros H Hd x Hx.
  apply in_map_iff in Hx as [c0 [<- Hc0]].
  destruct (String.eqb (name c0) c); [exact Hd|now apply H].
Qed.

Lemma no_datetime_get_col df c col :
  no_datetime df -> get_col df c = Some col -> dtype_of col <> datetime64.
Proof.
  unfold no_datetime. rewrite List.Forall_forall. intros H Hg. apply H.
  eapply get_col_In; eauto.
Qed.

Lemma no_datetime_take_rows keep df : no_datetime df -> no_datetime (take_rows keep df).
Proof.
  unfold no_datetime, take_rows. simpl. rewrite !List.Forall_forall. intros H x Hx.
  apply in_map_iff in Hx as [c0 [<- Hc0]]. simpl. now apply H.
Qed.

Lemma no_datetime_normalize cfg df :
  no_datetime df -> no_datetime (fst (normalize_stage cfg df)).
Proof.
  intros H. rewrite normalize_stage_relabel. destruct (enabled _); [|exact H].
  unfold no_datetime, relabel in *. simpl. rewrite List.Forall_forall in *. intros x Hx.
  apply in_map_iff in Hx as [c0 [<- Hc0]]. simpl. now apply H.
Qed.

Lemma no_datetime_trim cfg df : no_datetime df -> no_datetime (trim_stage pd cfg df).
Proof.
  intros H. unfold trim_stage. destruct (enabled _); [|exact H].
  apply (fold_left_preserves no_datetime); [|exact H].
  intros d c Hd. unfold trim_column. destruct (get_col d c); [|exact Hd].
  now apply no_datetime_set_col.
Qed.

Lemma fill_dtype_datetime d w : fill_dtype d w = datetime64 -> d = datetime64.
Proof. destruct d, w; simpl; congruence. Qed.

Lemma no_datetime_null cfg df :
  no_datetime df -> no_datetime (fst (fst (null_stage pd cfg df))).
Proof.
  intros H. unfold null_stage.
  destruct (String.eqb _ "drop_rows"); [now apply no_datetime_take_rows|].
  destruct (String.eqb _ "fill"); [|exact H].
  match goal with |- context [fold_left ?f ?l ?a] =>
    pose proof (fold_left_preserves (fun st => no_datetime (fst st)) f l) as P;
    destruct (fold_left f l a) as [d m] eqn:E end.
  simpl.
  assert (forall st c, no_datetime (fst st) ->
            no_datetime (fst (fill_column pd (strategy_of cfg) (fill_constant cfg) st c))) as Hs.
  { intros [d0 m0] c Hd. simpl in Hd. unfold fill_column.
    destruct (get_col d0 c) as [col|] eqn:Hg; [|exact Hd].
    destruct (_ =? 0); [exact Hd|].
    destruct (fill_attempt pd _ _ col) as [col'|] eqn:Ef; [|exact Hd].
    simpl. apply no_datetime_set_col; [exact Hd|].
    apply fill_attempt_Done in Ef as [w [_ ->]]. simpl. intros Hw.
    apply fill_dtype_datetime in Hw. now apply (no_datetime_get_col d0 c col Hd Hg). }
  specialize (P Hs (df, ∅) H). now rewrite E in P.
Qed.

Lemma no_datetime_infer cfg df :
  no_datetime df -> no_datetime (fst (infer_stage pd cfg df)).
Proof.
  intros H. unfold infer_stage. destruct (enabled _); [|exact H].
  apply (fold_left_preserves (fun st => no_datetime (fst st))); [|exact H].
  intros st c Hd. rewrite infer_column_loop. unfold loop_step.
  destruct (get_col (fst st) c) as [series|]; [|exact Hd].
  rewrite infer_entry_spec. destruct (_ && _); [|exact Hd]. simpl.
  apply no_datetime_set_col; [exact Hd|].
  destruct (to_numeric_dtype series) as [E|[E|E]]; rewrite E; discriminate.
Qed.

Lemma arrow_entry_dtype ser d vs u :
  arrow_entry pd ser = Some (d, vs, u) ->
  length vs = length (values ser)
  /\ (d = bool_ \/ d = int64 \/ d = float64 \/ d = string_
      \/ (d = object /\ Forall is_text_cell vs)).
Proof.
  unfold arrow_entry. destruct (dtype_eqb (dtype_of ser) object); [|discriminate].
  pose proof (to_numeric_dtype ser) as Hd. pose proof (to_numeric_length ser) as Hl.
  destruct (to_numeric pd ser) as [d0 conv]. simpl in Hd, Hl.
  destruct (fge _ _).
  - intros [= <- <- <-]. split; [exact Hl|]. tauto.
  - destruct (final_datetime_raises pd ser) as [e ->].
    unfold astype_string. destruct (astype_string_refuses pd (values ser)).
    + intros [= <- <- <-]. split; [apply length_map|]. right; right; right; right.
      split; [reflexivity|]. unfold astype_str. apply List.Forall_forall. intros v Hv.
      apply in_map_iff in Hv as [x [<- _]]. exact I.
    + intros [= <- <- <-]. split; [apply length_map|]. tauto.
Qed.

Lemma no_datetime_arrow df : no_datetime df -> no_datetime (_make_arrow_compatible pd df).
Proof.
  intros H. unfold _make_arrow_compatible.
  apply (fold_left_preserves no_datetime); [|exact H].
  intros d c Hd. change d with (fst (d, (∅ : gmap string unit))).
  rewrite arrow_column_loop. unfold loop_step. cbn [fst snd].
  destruct (get_col d c) as [ser|]; [|exact Hd].
  destruct (arrow_entry pd ser) as [[[d0 vs] u]|] eqn:E; [|exact Hd]. simpl.
  apply no_datetime_set_col; [exact Hd|].
  apply arrow_entry_dtype in E as [_ [->|[->|[->|[->|[-> _]]]]]]; discriminate.
Qed.

Lemma no_datetime_outliers cfg df :
  no_datetime df -> no_datetime (fst (fst (outlier_stage pd cfg df))).
Proof.
  intros H. unfold outlier_stage. destruct (enabled _); [|exact H].
  destruct (scan_outliers pd _ _ _ df) as [o m].
  destruct (String.eqb _ "drop"); [|exact H]. now apply no_datetime_take_rows.
Qed.

Lemma no_datetime_blank_rows cfg df :
  no_datetime df -> no_datetime (fst (blank_rows_stage cfg df)).
Proof.
  intros H. unfold blank_rows_stage.
  destruct (enabled (drop_blank_rows cfg)); [now apply no_datetime_take_rows|exact H].
Qed.

Lemma no_datetime_blank_cols cfg df :
  no_datetime df -> no_datetime (fst (blank_cols_stage cfg df)).
Proof.
  intros H. unfold blank_cols_stage. destruct (enabled (drop_blank_cols cfg)); [|exact H].
  unfold no_datetime, dropna_all_columns in *. simpl. rewrite List.Forall_forall in *.
  intros x Hx. apply filter_In in Hx as [Hx _]. now apply H.
Qed.

Lemma no_datetime_duplicates cfg df :
  no_datetime df -> no_datetime (fst (duplicates_stage cfg df)).
Proof.
  intros H. unfold duplicates_stage. destruct (enabled (drop_duplicates cfg)); [|exact H].
  cbn [fst]. unfold pd_drop_duplicates.
  destruct ((nrows df =? 0) || (ncols df =? 0)); [exact H|].
  now apply no_datetime_take_rows.
Qed.

(** X14. Whatever the configuration, the pipeline never makes a datetime
    column out of cells that are not timestamps: a table with distinct
    normalized labels that has no datetime column and no timestamp cell,
    cleaned with a fill constant that is not a timestamp, is returned
    without a datetime column.  Text that reads as dates stays text. *)
Theorem no_datetime_column_is_made (cfg : Config) (df : DataFrame) :
  List.NoDup (names (table_after_normalize cfg df)) ->
  no_datetime df ->
  no_timestamp_cell df ->
  (forall t, fill_constant cfg <> Some (VTime t)) ->
  no_datetime (fst (clean_dataframe pd df cfg)).
Proof.
  intros _ H _ _. rewrite clean_dataframe_stages. cbn [fst].
  unfold table_after_outliers, outlier_result, table_after_finalizer, table_after_infer,
    table_after_duplicates, table_after_blank_cols, table_after_blank_rows,
    table_after_nulls, null_result, table_after_trim, table_after_normalize.
  apply no_datetime_outliers, no_datetime_arrow, no_datetime_infer,
    no_datetime_duplicates, no_datetime_blank_cols, no_datetime_blank_rows,
    no_datetime_null, no_datetime_trim, no_datetime_normalize, H.
Qed.

(** X15. After the finalizer, with distinct labels: a column that was not
    of object dtype is exactly as it was.  A column that was of object
    dtype keeps its label and its length, and it is the numeric conversion
    of its cells when at least 95% of them read as numbers; otherwise it is
    of the string dtype, every present cell being its text and every
    missing cell still missing; or, when the conversion to the string dtype
    raised, an object column of the text of every cell. *)
Theorem finalizer_leaves_typed_or_text_columns (df : DataFrame) (col : column) :
  List.NoDup (names df) ->
  In col (columns df) ->
  exists col',
    get_col (_make_arrow_compatible pd df) (name col) = Some col'
    /\ name col' = name col
    /\ length (values col') = length (values col)
    /\ (dtype_of col <> object -> col' = col)
    /\ (dtype_of col = object ->
        if fge (ratio (notna_count (snd (to_numeric pd col))) (length (values col)))
               0.95%float
        then dtype_of col' = fst (to_numeric pd col)
             /\ values col' = snd (to_numeric pd col)
        else (dtype_of col' = string_
              /\ astype_string_refuses pd (values col) = false
              /\ values col'
                 = map (fun v => if isna v then NA else VStr (py_str pd v)) (values col))
             \/ (dtype_of col' = object
                 /\ astype_string_refuses pd (values col) = true
                 /\ values col' = map (fun v => VStr (py_str pd v)) (values col))).
Proof.
  intros Hnd Hin. rewrite (arrow_loop_spec pd df Hnd).
  rewrite (get_col_apply_all _ df col Hnd Hin).
  eexists. split; [reflexivity|]. unfold updated.
  destruct (arrow_entry pd col) as [[[d vs] u]|] eqn:E.
  - apply arrow_entry_dtype in E as H. destruct H as [Hl _]. simpl.
    split; [reflexivity|]. split; [exact Hl|]. split.
    + intros Hne. unfold arrow_entry in E.
      destruct (dtype_of col); try discriminate E. congruence.
    + intros Ho. unfold arrow_entry in E. rewrite Ho in E. simpl in E.
      destruct (to_numeric pd col) as [d0 conv]. cbn [fst snd].
      destruct (fge _ _); [injection E as <- <- _; now split|].
      destruct (final_datetime_raises pd col) as [e He]. rewrite He in E.
      unfold astype_string, astype_str in E.
      destruct (astype_string_refuses pd (values col)); injection E as <- <- _;
        [right|left]; repeat split.
  - split; [reflexivity|]. split; [reflexivity|]. split; [reflexivity|].
    intros Ho. unfold arrow_entry in E. rewrite Ho in E. simpl in E.
    destruct (to_numeric pd col) as [d conv]. destruct (fge _ _); [discriminate|].
    destruct (final_datetime pd col) as [[conv'|]|]; try discriminate;
      destruct (astype_string pd (values col)); discriminate.
Qed.

End Inference.

(** A text column of numerals and a text column of words. *)
Definition numerals_and_words : DataFrame :=
  mkDataFrame 2 [mkColumn "n" object [VStr "30"; VStr " 40 "];
                 mkColumn "w" object [VStr "ab"; VStr "cd"]].

Lemma inference_commits_numeric_or_nothing_witness :
  (get_col (fst (infer_stage Ref.pandas infer_config numerals_and_words)) "n"
   = Some (mkColumn "n" int64 [VInt 30; VInt 40])
   /\ snd (infer_stage Ref.pandas infer_config numerals_and_words) !! "n"
      = Some ("object", "numeric"))
  /\ (get_col (fst (infer_stage Ref.pandas infer_config numerals_and_words)) "w"
      = Some (mkColumn "w" object [VStr "ab"; VStr "cd"])
      /\ snd (infer_stage Ref.pandas infer_config numerals_and_words) !! "w" = None).
Proof.
  split.
  - exact (inference_commits_numeric_or_nothing Ref.pandas infer_config numerals_and_words
             (mkColumn "n" object [VStr "30"; VStr " 40 "])
             eq_refl ltac:(repeat constructor; simpl; intuition discriminate)
             ltac:(simpl; tauto)).
  - exact (inference_commits_numeric_or_nothing Ref.pandas infer_config numerals_and_words
             (mkColumn "w" object [VStr "ab"; VStr "cd"])
             eq_refl ltac:(repeat constructor; simpl; intuition discriminate)
             ltac:(simpl; tauto)).
Defined.

Lemma no_datetime_column_is_made_witness :
  no_datetime (fst (clean_dataframe Ref.pandas iso_dates infer_config)).
Proof.
  apply (no_datetime_column_is_made Ref.pandas infer_config iso_dates).
  - repeat constructor; simpl; tauto.
  - repeat constructor; discriminate.
  - repeat constructor.
  - discriminate.
Defined.

Lemma finalizer_leaves_typed_or_text_columns_witness :
  exists col',
    get_col (_make_arrow_compatible Ref.pandas numerals_and_words) "w" = Some col'
    /\ dtype_of col' = string_
    /\ values col' = [VStr "ab"; VStr "cd"].
Proof.
  destruct (finalizer_leaves_typed_or_text_columns Ref.pandas numerals_and_words
              (mkColumn "w" object [VStr "ab"; VStr "cd"])
              ltac:(repeat constructor; simpl; intuition discriminate)
              ltac:(simpl; tauto)) as [col' [H1 [_ [_ [_ H2]]]]].
  exists col'. split; [exact H1|].
  specialize (H2 eq_refl). vm_compute in H2.
  destruct H2 as [[Hd [_ Hv]]|[_ [C _]]]; [now split|discriminate C].
Defined.

(** ** The counts of the report add up *)

Section WholeRuns.

Variable pd : Pandas.

Lemma null_stage_counts cfg df :
  snd (fst (null_stage pd cfg df))
  = removed (nrows df) (nrows (fst (fst (null_stage pd cfg df))))
  /\ ncols (fst (fst (null_stage pd cfg df))) = ncols df.
Proof.
  unfold null_stage.
  destruct (String.eqb _ "drop_rows"); [split; [reflexivity|apply ncols_take_rows]|].
  destruct (String.eqb _ "fill"); [|split; [symmetry; apply removed_same|reflexivity]].
  match goal with |- context [fold_left ?f ?l ?a0] =>
    pose proof (fold_left_preserves (fun st => shape (fst st) = shape df) f l
                  (fun x y Hx => eq_trans (shape_fill_column pd _ _ x y) Hx)
                  (df, ∅) eq_refl) as H;
    destruct (fold_left f l a0) as [d m] end.
  simpl in *. unfold shape in H. injection H as Hr Hc.
  rewrite Hr. split; [symmetry; apply removed_same|exact Hc].
Qed.

Lemma blank_rows_counts cfg df :
  snd (blank_rows_stage cfg df) = removed (nrows df) (nrows (fst (blank_rows_stage cfg df)))
  /\ ncols (fst (blank_rows_stage cfg df)) = ncols df.
Proof.
  unfold blank_rows_stage. destruct (enabled (drop_blank_rows cfg)); simpl.
  - split; [reflexivity|apply ncols_take_rows].
  - split; [symmetry; apply removed_same|reflexivity].
Qed.

Lemma blank_cols_counts cfg df :
  snd (blank_cols_stage cfg df) = removed (ncols df) (ncols (fst (blank_cols_stage cfg df)))
  /\ nrows (fst (blank_cols_stage cfg df)) = nrows df.
Proof.
  unfold blank_cols_stage. destruct (enabled (drop_blank_cols cfg)); simpl.
  - split; reflexivity.
  - split; [symmetry; apply removed_same|reflexivity].
Qed.

Lemma duplicates_counts cfg df :
  snd (duplicates_stage cfg df) = removed (nrows df) (nrows (fst (duplicates_stage cfg df)))
  /\ ncols (fst (duplicates_stage cfg df)) = ncols df.
Proof.
  unfold duplicates_stage. destruct (enabled (drop_duplicates cfg)); cbn [fst snd].
  - split; [reflexivity|]. unfold pd_drop_duplicates.
    destruct ((nrows df =? 0) || (ncols df =? 0)); [reflexivity|apply ncols_take_rows].
  - split; [symmetry; apply removed_same|reflexivity].
Qed.

Lemma outlier_counts cfg df :
  snd (outlier_stage pd cfg df) = removed (nrows df) (nrows (fst (fst (outlier_stage pd cfg df))))
  /\ ncols (fst (fst (outlier_stage pd cfg df))) = ncols df.
Proof.
  unfold outlier_stage. destruct (enabled (detect_outliers cfg)).
  - destruct (scan_outliers pd _ _ _ df) as [o m].
    destruct (String.eqb (action_of cfg) "drop"); cbn [fst snd].
    + split; [reflexivity|apply ncols_take_rows].
    + split; [symmetry; apply removed_same|reflexivity].
  - split; [symmetry; apply removed_same|reflexivity].
Qed.

Lemma shape_eq a b : shape a = shape b -> nrows a = nrows b /\ ncols a = ncols b.
Proof. unfold shape. now intros [= -> ->]. Qed.


(** *** When nothing is switched on *)

(** No stage is switched on and the null handler is in its no-op mode. *)
Definition nothing_enabled (cfg : Config) : bool :=
  negb (enabled (normalize_columns cfg))
  && negb (enabled (trim_whitespace cfg))
  && negb (String.eqb (default "none" (null_handling cfg)) "drop_rows")
  && negb (String.eqb (default "none" (null_handling cfg)) "fill")
  && negb (enabled (drop_blank_rows cfg))
  && negb (enabled (drop_blank_cols cfg))
  && negb (enabled (drop_duplicates cfg))
  && negb (enabled (infer_types cfg))
  && negb (enabled (detect_outliers cfg)).

(** X17. The finalizer is not behind a switch: under a configuration
    that enables nothing, on a table with distinct labels, the table
    returned is the table given with its object columns converted, and it
    is the table given when there is no object column. *)
Theorem finalizer_runs_unconditionally (df : DataFrame) (cfg : Config) :
  nothing_enabled cfg = true ->
  List.NoDup (names df) ->
  fst (clean_dataframe pd df cfg) = _make_arrow_compatible pd df
  /\ (no_object_columns df = true -> fst (clean_dataframe pd df cfg) = df).
Proof.
  intros H _. unfold nothing_enabled in H.
  apply andb_true_iff in H as [H Hout]. apply andb_true_iff in H as [H Hinf].
  apply andb_true_iff in H as [H Hdup]. apply andb_true_iff in H as [H Hcols].
  apply andb_true_iff in H as [H Hrows]. apply andb_true_iff in H as [H Hfill].
  apply andb_true_iff in H as [H Hdrop]. apply andb_true_iff in H as [Hnorm Htrim].
  apply negb_true_iff in Hout, Hinf, Hdup, Hcols, Hrows, Hfill, Hdrop, Htrim, Hnorm.
  assert (fst (clean_dataframe pd df cfg) = _make_arrow_compatible pd df) as E.
  { rewrite clean_dataframe_stages. cbn [fst].
    unfold table_after_outliers, outlier_result, table_after_finalizer, table_after_infer,
      table_after_duplicates, table_after_blank_cols, table_after_blank_rows,
      table_after_nulls, null_result, table_after_trim, table_after_normalize.
    unfold normalize_stage. rewrite Hnorm. cbn [fst].
    unfold trim_stage. rewrite Htrim.
    unfold null_stage. rewrite Hdrop, Hfill. cbn [fst].
    unfold blank_rows_stage. rewrite Hrows. cbn [fst].
    unfold blank_cols_stage. rewrite Hcols. cbn [fst].
    unfold duplicates_stage. rewrite Hdup. cbn [fst].
    unfold infer_stage. rewrite Hinf. cbn [fst].
    unfold outlier_stage. rewrite Hout. reflexivity. }
  split; [exact E|]. intros Hno. rewrite E. now apply arrow_no_object.
Qed.

(** *** Trimming twice *)

Lemma lstrip_head l :
  match l with c :: _ => Py.is_space c = false | [] => True end -> Py.lstrip l = l.
Proof. destruct l as [|c l]; simpl; [reflexivity|]. now intros ->. Qed.

Lemma strip_idempotent s : Py.strip (Py.strip s) = Py.strip s.
Proof.
  destruct (strip_spec s) as [a [b [_ [_ [_ [Hh Ht]]]]]].
  unfold Py.strip at 1. set (t := list_ascii_of_string (Py.strip s)) in *.
  rewrite (lstrip_head t Hh). unfold Py.rstrip.
  rewrite (lstrip_head (rev t) Ht), rev_involutive.
  apply string_of_list_ascii_of_string.
Qed.

Lemma trim_cell_idempotent v : trim_cell pd (trim_cell pd v) = trim_cell pd v.
Proof.
  unfold trim_cell. destruct (isna v); [reflexivity|]. simpl. now rewrite strip_idempotent.
Qed.

(** X18. With distinct labels, trimming a trimmed table changes nothing. *)
Theorem trimming_twice_is_trimming_once (cfg : Config) (df : DataFrame) :
  List.NoDup (names df) ->
  trim_stage pd cfg (trim_stage pd cfg df) = trim_stage pd cfg df.
Proof.
  intros Hnd. destruct (enabled (trim_whitespace cfg)) eqn:Hon;
    [|unfold trim_stage; now rewrite Hon].
  rewrite (trim_stage_columns pd cfg df Hon Hnd).
  rewrite trim_stage_columns; [|exact Hon|].
  - simpl. f_equal. rewrite map_map. apply map_ext. intros col.
    destruct (dtype_eqb (dtype_of col) object) eqn:E; simpl; [|now rewrite E].
    f_equal. rewrite map_map. apply map_ext. intros v. apply trim_cell_idempotent.
  - unfold names in *. simpl. rewrite map_map.
    erewrite map_ext; [exact Hnd|]. intros col. now destruct (dtype_eqb (dtype_of col) object).
Qed.

(** *** The labels of a cleaned table *)

Lemma names_take_rows keep df : names (take_rows keep df) = names df.
Proof. unfold names, take_rows. simpl. now rewrite map_map. Qed.

Lemma names_trim_stage cfg df : names (trim_stage pd cfg df) = names df.
Proof.
  unfold trim_stage. destruct (enabled (trim_whitespace cfg)); [|reflexivity].
  apply (fold_left_preserves (fun d => names d = names df)); [|reflexivity].
  intros d c Hd. unfold trim_column. destruct (get_col d c); [|exact Hd].
  now rewrite names_set_col.
Qed.

Lemma names_null_stage cfg df : names (fst (fst (null_stage pd cfg df))) = names df.
Proof.
  unfold null_stage.
  destruct (String.eqb _ "drop_rows"); [apply names_take_rows|].
  destruct (String.eqb _ "fill"); [|reflexivity].
  match goal with |- context [fold_left ?f ?l ?a] =>
    pose proof (fold_left_preserves (fun st => names (fst st) = names df) f l) as P;
    destruct (fold_left f l a) as [d m] eqn:E end.
  simpl.
  assert (forall st c, names (fst st) = names df ->
            names (fst (fill_column pd (strategy_of cfg) (fill_constant cfg) st c))
            = names df) as Hs.
  { intros [d0 m0] c Hd. simpl in Hd. unfold fill_column.
    destruct (get_col d0 c) as [col|]; [|exact Hd].
    destruct (_ =? 0); [exact Hd|].
    destruct (fill_attempt pd _ _ col); [|exact Hd]. simpl. now rewrite names_set_col. }
  specialize (P Hs (df, ∅) eq_refl). now rewrite E in P.
Qed.

Lemma names_infer_stage cfg df : names (fst (infer_stage pd cfg df)) = names df.
Proof.
  unfold infer_stage. destruct (enabled (infer_types cfg)); [|reflexivity].
  apply (fold_left_preserves (fun st => names (fst st) = names df)); [|reflexivity].
  intros st c Hd. rewrite infer_column_loop. unfold loop_step.
  destruct (get_col (fst st) c) as [series|]; [|exact Hd].
  destruct (infer_entry pd _ series) as [[[d vs] e]|]; [|exact Hd].
  simpl. now rewrite names_set_col.
Qed.

Lemma names_make_arrow_compatible df : names (_make_arrow_compatible pd df) = names df.
Proof.
  unfold _make_arrow_compatible.
  apply (fold_left_preserves (fun d => names d = names df)); [|reflexivity].
  intros d c Hd. change d with (fst (d, (∅ : gmap string unit))).
  rewrite arrow_column_loop. unfold loop_step. cbn [fst snd].
  destruct (get_col d c) as [ser|]; [|exact Hd].
  destruct (arrow_entry pd ser) as [[[d0 vs] u]|]; [|exact Hd].
  simpl. now rewrite names_set_col.
Qed.

Lemma names_outlier_stage cfg df : names (fst (fst (outlier_stage pd cfg df))) = names df.
Proof.
  unfold outlier_stage. destruct (enabled (detect_outliers cfg)); [|reflexivity].
  destruct (scan_outliers pd _ _ _ df) as [o m].
  destruct (String.eqb (action_of cfg) "drop"); [apply names_take_rows|reflexivity].
Qed.

Lemma names_duplicates_stage cfg df : names (fst (duplicates_stage cfg df)) = names df.
Proof.
  unfold duplicates_stage. destruct (enabled (drop_duplicates cfg)); [|reflexivity].
  cbn [fst]. unfold pd_drop_duplicates.
  destruct ((nrows df =? 0) || (ncols df =? 0)); [reflexivity|apply names_take_rows].
Qed.

Lemma names_blank_rows_stage cfg df : names (fst (blank_rows_stage cfg df)) = names df.
Proof.
  unfold blank_rows_stage.
  destruct (enabled (drop_blank_rows cfg)); [apply names_take_rows|reflexivity].
Qed.

Lemma names_blank_cols_stage cfg df :
  exists keep, length keep = ncols df
    /\ names (fst (blank_cols_stage cfg df)) = select keep (names df).
Proof.
  unfold blank_cols_stage. destruct (enabled (drop_blank_cols cfg)); cbn [fst].
  - exists (column_mask df). unfold column_mask, ncols. split; [apply length_map|].
    unfold names, dropna_all_columns. simpl. now rewrite <- select_filter, select_map.
  - exists (repeat true (ncols df)). split; [apply repeat_length|].
    symmetry. apply select_all.
    + apply forallb_forall. intros b Hb. now apply repeat_spec in Hb as ->.
    + unfold names, ncols. now rewrite repeat_length, length_map.
Qed.

(** The labels that leave the pipeline are, in order, labels that left
    the normalization: a stage keeps the labels or drops some of them. *)
Lemma names_of_cleaned cfg df :
  exists keep, length keep = ncols df
    /\ names (fst (clean_dataframe pd df cfg))
       = select keep (names (fst (normalize_stage cfg df))).
Proof.
  rewrite clean_dataframe_stages. cbn [fst].
  unfold table_after_outliers, outlier_result, table_after_finalizer, table_after_infer,
    table_after_duplicates, table_after_blank_cols, table_after_blank_rows,
    table_after_nulls, null_result, table_after_trim, table_after_normalize.
  set (t0 := fst (normalize_stage cfg df)).
  rewrite names_outlier_stage, names_make_arrow_compatible, names_infer_stage,
    names_duplicates_stage.
  destruct (names_blank_cols_stage cfg
              (fst (blank_rows_stage cfg (fst (fst (null_stage pd cfg (trim_stage pd cfg t0)))))))
    as [keep [Hk Hn]].
  exists keep. split.
  - rewrite Hk. rewrite (proj2 (blank_rows_counts cfg _)), (proj2 (null_stage_counts cfg _)).
    rewrite (proj2 (shape_eq _ _ (shape_trim_stage pd cfg t0))).
    apply (proj2 (shape_eq _ _ (shape_normalize_stage cfg df))).
  - rewrite Hn. now rewrite names_blank_rows_stage, names_null_stage, names_trim_stage.
Qed.

Lemma normalized_names cfg df :
  names (fst (normalize_stage cfg df))
  = if enabled (normalize_columns cfg) then map _normalize_column_name (names df)
    else names df.
Proof.
  rewrite normalize_stage_relabel. destruct (enabled (normalize_columns cfg)); [|reflexivity].
  unfold names, relabel. simpl. now rewrite !map_map.
Qed.


(** X20. On a table of ASCII labels whose normalized forms are distinct,
    the labels of the table returned are a selection, in order, of the
    labels of the table given (of their normalized forms when the
    normalization is on): no stage adds, reorders or rewrites a label.  With
    the normalization on, every label returned consists of lower-case
    letters, digits and underscores only. *)
Theorem cleaned_labels_are_a_selection (df : DataFrame) (cfg : Config) :
  Forall (fun c => ascii_text c = true) (names df) ->
  List.NoDup (names (table_after_normalize cfg df)) ->
  (exists keep,
     length keep = ncols df
     /\ names (fst (clean_dataframe pd df cfg))
        = select keep (if enabled (normalize_columns cfg)
                       then map _normalize_column_name (names df)
                       else names df))
  /\ (enabled (normalize_columns cfg) = true ->
      forallb clean_label (names (fst (clean_dataframe pd df cfg))) = true).
Proof.
  intros _ _.
  destruct (names_of_cleaned cfg df) as [keep [Hk Hn]]. rewrite normalized_names in Hn.
  split; [now exists keep|].
  intros Hon. rewrite Hn, Hon. apply forallb_forall. intros o Ho.
  apply select_In in Ho. apply in_map_iff in Ho as [c [<- _]]. apply normalize_alphabet.
Qed.

End WholeRuns.



Lemma finalizer_runs_unconditionally_witness :
  fst (clean_dataframe Ref.pandas numerals no_config)
  = mkDataFrame 2 [mkColumn "a" int64 [VInt 7; VInt 7]].
Proof.
  rewrite (proj1 (finalizer_runs_unconditionally Ref.pandas numerals no_config eq_refl
                    ltac:(repeat constructor; simpl; tauto))).
  vm_compute. reflexivity.
Defined.

Lemma trimming_twice_is_trimming_once_witness :
  let cfg := mkConfig None (Some true) None None None None None None None None None None
               None None in
  let df := mkDataFrame 2 [mkColumn "name" object [VStr " Alice "; NA]] in
  trim_stage Ref.pandas cfg (trim_stage Ref.pandas cfg df) = trim_stage Ref.pandas cfg df.
Proof.
  cbv zeta.
  apply (trimming_twice_is_trimming_once Ref.pandas).
  repeat constructor; simpl; tauto.
Defined.

(** ** The outlier detector *)

(** *** Missing cells *)

Lemma SFcompare_refl x : x <> S754_nan -> SFcompare x x = Some Eq.
Proof.
  destruct x as [s|s| |s m e]; intros H; try congruence; simpl.
  - reflexivity.
  - now destruct s.
  - rewrite Z.compare_refl, Pos.compare_cont_refl. now destruct s.
Qed.

Lemma nan_Prim2SF f : is_nan f = true -> Prim2SF f = S754_nan.
Proof.
  unfold is_nan. rewrite FloatAxioms.eqb_spec. unfold SFeqb. intros H.
  destruct (Prim2SF f) as [s|s| |s m e] eqn:E; try reflexivity;
    rewrite SFcompare_refl in H by discriminate; discriminate H.
Qed.

Lemma missing_to_float v : isna v = true -> Prim2SF (to_float v) = S754_nan.
Proof.
  destruct v; simpl; try discriminate; [reflexivity|apply nan_Prim2SF].
Qed.

Lemma ltb_nan_l x y : Prim2SF x = S754_nan -> PrimFloat.ltb x y = false.
Proof. intros H. rewrite FloatAxioms.ltb_spec, H. reflexivity. Qed.

Lemma ltb_nan_r x y : Prim2SF y = S754_nan -> PrimFloat.ltb x y = false.
Proof.
  intros H. rewrite FloatAxioms.ltb_spec, H. unfold SFltb.
  now destruct (Prim2SF x) as [s|s| |s m e].
Qed.

Lemma zscore_nan mu sigma v :
  isna v = true -> Prim2SF (PrimFloat.abs (zscore mu sigma v)) = S754_nan.
Proof.
  intros H. unfold zscore.
  rewrite FloatAxioms.abs_spec, FloatAxioms.div_spec, FloatAxioms.sub_spec.
  rewrite (missing_to_float v H). reflexivity.
Qed.

(** X21. Under both methods a missing cell is never flagged, whatever the
    threshold and the other cells of the column. *)
Theorem missing_cells_are_never_outliers (pd : Pandas) (d : dtype) (n : nat)
  (thresh : float) (vs : list value) (i : nat) (v : value) :
  nth_error vs i = Some v ->
  isna v = true ->
  nth i (iqr_mask thresh vs) false = false
  /\ nth i (zscore_mask pd d n thresh vs) false = false.
Proof.
  intros Hv Hna. split.
  - unfold iqr_mask. erewrite nth_error_nth by (apply map_nth_error; exact Hv).
    rewrite (ltb_nan_l _ _ (missing_to_float v Hna)).
    now rewrite (ltb_nan_r _ _ (missing_to_float v Hna)).
  - unfold zscore_mask.
    match goal with |- context [if ?g then _ else _] => destruct g end;
      [apply nth_repeat_false|].
    erewrite nth_error_nth by (apply map_nth_error; exact Hv).
    unfold fgt. apply ltb_nan_r, zscore_nan, Hna.
Qed.

Lemma missing_cells_are_never_outliers_witness :
  nth 1 (iqr_mask 1.5 [VInt 1; NA; VInt 2; VInt 3; VInt 100]) false = false
  /\ nth 1 (zscore_mask Ref.pandas float64 5 1.5 [VInt 1; NA; VInt 2; VInt 3; VInt 100])
         false = false.
Proof.
  exact (missing_cells_are_never_outliers Ref.pandas float64 5 1.5
           [VInt 1; NA; VInt 2; VInt 3; VInt 100] 1 NA eq_refl eq_refl).
Defined.

(** *** The entries of the report and the rows removed *)

(** The mask of one column, as the loop of the detector computes it. *)
Definition column_flags (pd : Pandas) (method : string) (thresh : float)
  (df : DataFrame) (c : string) : list bool :=
  match get_col df c with
  | Some col =>
      if length (dropna_values (values col)) =? 0 then repeat false (nrows df)
      else if String.eqb method "iqr" then iqr_mask thresh (values col)
           else zscore_mask pd (dtype_of col) (nrows df) thresh (values col)
  | None => repeat false (nrows df)
  end.

(** Row [i] is flagged in one of the columns the detector examines. *)
Definition flagged (pd : Pandas) (method : string) (thresh : float) (df : DataFrame)
  (i : nat) : bool :=
  existsb (fun c => nth i (column_flags pd method thresh df c) false) (numeric_cols df).

(** What an entry of [report['outliers']] may hold. *)
Definition entry_ok (df : DataFrame) (e : nat * float) : Prop :=
  fst e <= nrows df
  /\ (snd e = ratio (fst e) (nrows df) \/ (fst e = 0 /\ snd e = 0%float)).

Lemma get_col_of_name df c : In c (names df) -> exists col, get_col df c = Some col.
Proof.
  intros Hin. destruct (get_col df c) as [col|] eqn:E; [now exists col|]. exfalso.
  unfold names in Hin. apply in_map_iff in Hin as [col [Hn Hin]].
  now apply (get_col_None _ _ _ E Hin).
Qed.

Lemma numeric_cols_In df c :
  In c (numeric_cols df)
  <-> id_pattern_search c = false
      /\ exists col, In col (columns df) /\ name col = c
                     /\ is_number_dtype (dtype_of col) = true.
Proof.
  unfold numeric_cols. rewrite filter_In, in_map_iff, negb_true_iff. split.
  - intros [[col [Hn Hc]] Hid]. apply filter_In in Hc as [Hc Hd].
    split; [exact Hid|]. now exists col.
  - intros [Hid [col [Hc [Hn Hd]]]]. split; [|exact Hid].
    exists col. split; [exact Hn|]. apply filter_In. now split.
Qed.

Lemma numeric_cols_names df c : In c (numeric_cols df) -> In c (names df).
Proof.
  intros H. apply numeric_cols_In in H as [_ [col [Hc [<- _]]]]. now apply in_map.
Qed.

Lemma nth_zip_with_orb (a b : list bool) (i : nat) :
  length a = length b ->
  nth i (zip_with orb a b) false = nth i a false || nth i b false.
Proof.
  revert b i. induction a as [|x a IH]; intros [|y b] i H; simpl in *; try discriminate.
  - now destruct i.
  - destruct i as [|i]; [reflexivity|]. apply IH. now injection H.
Qed.

Lemma count_true_zero (mask : list bool) (i : nat) :
  count_true mask = 0 -> nth i mask false = false.
Proof.
  unfold count_true. revert i. induction mask as [|b mask IH]; intros i H; [now destruct i|].
  destruct b; simpl in H; [discriminate|]. destruct i as [|i]; [reflexivity|]. now apply IH.
Qed.

Section Detector.

Variable pd : Pandas.
Variable df : DataFrame.
Variable method : string.
Variable thresh : float.
Hypothesis Hwf : well_formed df.

Lemma column_flags_length c : length (column_flags pd method thresh df c) = nrows df.
Proof.
  unfold column_flags. destruct (get_col df c) as [col|] eqn:E; [|apply repeat_length].
  destruct (_ =? 0); [apply repeat_length|].
  unfold well_formed in Hwf. rewrite List.Forall_forall in Hwf.
  pose proof (Hwf col (get_col_In _ _ _ E)) as Hl.
  destruct (String.eqb method "iqr").
  - unfold iqr_mask. now rewrite length_map.
  - unfold zscore_mask. destruct (_ || _); [apply repeat_length|now rewrite length_map].
Qed.

(** One iteration, in terms of the mask of the column. *)
Lemma outlier_column_flags action o m c col :
  get_col df c = Some col ->
  outlier_column pd df method thresh action (o, m) c
  = if length (dropna_values (values col)) =? 0 then (<[c := (0, 0%float)]> o, m)
    else
      let mask := column_flags pd method thresh df c in
      (<[c := (count_true mask, ratio (count_true mask) (nrows df))]> o,
       if String.eqb action "drop" && (0 <? count_true mask)
       then zip_with orb m mask else m).
Proof.
  intros Hg. unfold outlier_column, column_flags. rewrite Hg.
  now destruct (length (dropna_values (values col)) =? 0).
Qed.

Lemma outlier_column_mask o m c :
  length m = nrows df ->
  let m' := snd (outlier_column pd df method thresh "drop" (o, m) c) in
  length m' = nrows df
  /\ forall i, nth i m' false = nth i m false || nth i (column_flags pd method thresh df c) false.
Proof.
  intros Hm. cbv zeta.
  destruct (get_col df c) as [col|] eqn:Hg.
  - rewrite (outlier_column_flags _ _ _ _ col Hg).
    destruct (length (dropna_values (values col)) =? 0) eqn:E.
    + simpl. split; [exact Hm|]. intros i. unfold column_flags. rewrite Hg, E.
      now rewrite nth_repeat_false, orb_false_r.
    + cbv zeta. cbn [snd]. rewrite String.eqb_refl. simpl andb.
      pose proof (column_flags_length c) as Hl.
      destruct (0 <? count_true (column_flags pd method thresh df c)) eqn:Ec.
      * split; [rewrite length_zip_with; lia|].
        intros i. apply nth_zip_with_orb. congruence.
      * split; [exact Hm|]. intros i. apply Nat.ltb_ge in Ec.
        rewrite (count_true_zero (column_flags pd method thresh df c) i) by lia.
        now rewrite orb_false_r.
  - unfold outlier_column. rewrite Hg. simpl. split; [exact Hm|].
    intros i. unfold column_flags. rewrite Hg.
    now rewrite nth_repeat_false, orb_false_r.
Qed.

Lemma scan_mask l :
  forall o m, length m = nrows df ->
    let m' := snd (fold_left (outlier_column pd df method thresh "drop") l (o, m)) in
    length m' = nrows df
    /\ forall i, nth i m' false
                 = nth i m false
                   || existsb (fun c => nth i (column_flags pd method thresh df c) false) l.
Proof.
  induction l as [|c l IH]; intros o m Hm; cbv zeta; cbn [fold_left existsb snd].
  - split; [exact Hm|]. intros i. now rewrite orb_false_r.
  - destruct (outlier_column_mask o m c Hm) as [Hl Hn].
    destruct (outlier_column pd df method thresh "drop" (o, m) c) as [o1 m1]. simpl in Hl, Hn.
    destruct (IH o1 m1 Hl) as [Hl' Hn']. split; [exact Hl'|].
    intros i. rewrite Hn', Hn. now rewrite orb_assoc.
Qed.

Lemma outlier_column_entries action o m c :
  In c (names df) ->
  let o' := fst (outlier_column pd df method thresh action (o, m) c) in
  (exists e, o' = <[c := e]> o /\ entry_ok df e).
Proof.
  intros Hin. cbv zeta. destruct (get_col_of_name df c Hin) as [col Hg].
  rewrite (outlier_column_flags _ _ _ _ col Hg).
  destruct (length (dropna_values (values col)) =? 0).
  - eexists. split; [reflexivity|]. unfold entry_ok. simpl. split; [lia|now right].
  - eexists. split; [reflexivity|]. unfold entry_ok. simpl. split; [|now left].
    rewrite <- (column_flags_length c). apply count_true_le.
Qed.

Lemma scan_entries action l :
  (forall c, In c l -> In c (names df)) ->
  forall o m,
    let o' := fst (fold_left (outlier_column pd df method thresh action) l (o, m)) in
    (forall c e, o' !! c = Some e -> o !! c = Some e \/ (In c l /\ entry_ok df e))
    /\ (forall c, In c l \/ is_Some (o !! c) -> is_Some (o' !! c)).
Proof.
  induction l as [|c0 l IH]; intros Hl o m; cbv zeta; cbn [fold_left fst].
  - split; [intros c e H; now left|]. intros c [[]|H]. exact H.
  - destruct (outlier_column_entries action o m c0 (Hl c0 (or_introl eq_refl)))
      as [e0 [Ho He]].
    destruct (outlier_column pd df method thresh action (o, m) c0) as [o1 m1]. simpl in Ho.
    subst o1.
    destruct (IH (fun c Hc => Hl c (or_intror Hc)) (<[c0 := e0]> o) m1) as [H1 H2].
    split.
    + intros c e H. apply H1 in H as [H|[Hin Hok]]; [|right; split; [now right|exact Hok]].
      destruct (String.eqb_spec c0 c) as [->|Hne].
      * rewrite lookup_insert_eq in H. injection H as <-. right. split; [now left|exact He].
      * rewrite lookup_insert_ne in H by exact Hne. now left.
    + intros c H. apply H2.
      destruct (String.eqb_spec c0 c) as [->|Hne].
      * right. rewrite lookup_insert_eq. now eexists.
      * destruct H as [[E|H]|H]; [contradiction|now left|].
        right. now rewrite lookup_insert_ne.
Qed.

End Detector.

Lemma purge_ids_keep m c : id_pattern_search c = false -> purge_ids m !! c = m !! c.
Proof.
  intros Hc. unfold purge_ids.
  destruct (m !! c) as [e|] eqn:E.
  - apply map_lookup_filter_Some. split; [exact E|exact Hc].
  - apply map_lookup_filter_None. now left.
Qed.

(** X22. With the detector on, on a well-formed table with distinct
    labels whose integers fit 64 bits, [report['outliers']] has an entry for
    an ASCII label exactly when the label is not identifier-like and is
    carried by a column that [select_dtypes(include=['number'])] selects,
    here an int64 or float64 one; the count of an entry is at most the
    number of rows, and its percent is the count over [max(1, rows)] (or 0.0
    with count 0 for a column without a present cell). *)
Theorem outliers_has_an_entry_per_examined_column (pd : Pandas) (cfg : Config)
  (df : DataFrame) (c : string) :
  well_formed df ->
  List.NoDup (names df) ->
  int64_cells df = true ->
  ascii_text c = true ->
  enabled (detect_outliers cfg) = true ->
  let o := snd (fst (outlier_stage pd cfg df)) in
  (is_Some (o !! c)
   <-> id_pattern_search c = false
       /\ exists col, In col (columns df) /\ name col = c
                      /\ is_number_dtype (dtype_of col) = true)
  /\ forall k p, o !! c = Some (k, p) ->
       k <= nrows df /\ (p = ratio k (nrows df) \/ (k = 0 /\ p = 0%float)).
Proof.
  intros Hwf _ _ _ Hon. cbv zeta. rewrite <- numeric_cols_In.
  assert (snd (fst (outlier_stage pd cfg df))
          = purge_ids (fst (scan_outliers pd (method_of cfg) (threshold_of cfg)
                              (action_of cfg) df))) as ->.
  { unfold outlier_stage. rewrite Hon.
    destruct (scan_outliers pd _ _ _ df) as [o m].
    now destruct (String.eqb (action_of cfg) "drop"). }
  unfold scan_outliers.
  destruct (scan_entries pd df (method_of cfg) (threshold_of cfg) Hwf (action_of cfg)
              (numeric_cols df) (numeric_cols_names df) ∅ (repeat false (nrows df)))
    as [H1 H2].
  destruct (id_pattern_search c) eqn:Hid.
  - rewrite (purge_ids_lookup _ c Hid). split.
    + split; [intros [e He]; discriminate He|].
      intros Hin. apply numeric_cols_not_id in Hin. congruence.
    + intros k p H. discriminate H.
  - rewrite (purge_ids_keep _ c Hid). split.
    + split.
      * intros [e He]. apply H1 in He as [He|[Hin _]]; [|exact Hin].
        rewrite lookup_empty in He. discriminate He.
      * intros Hin. apply H2. now left.
    + intros k p H. apply H1 in H as [H|[_ Hok]].
      * rewrite lookup_empty in H. discriminate H.
      * exact Hok.
Qed.

(** X23. With the detector on and the action [drop], on a well-formed
    table with distinct ASCII labels: the rows returned are, in order, the
    rows that no examined column flags; [outliers_removed] is the number of
    rows that some examined column flags; labels and dtypes are kept. *)
Theorem outlier_drop_removes_the_flagged_rows (pd : Pandas) (cfg : Config)
  (df : DataFrame) :
  well_formed df ->
  List.NoDup (names df) ->
  Forall (fun c => ascii_text c = true) (names df) ->
  enabled (detect_outliers cfg) = true ->
  action_of cfg = "drop" ->
  let out := fst (fst (outlier_stage pd cfg df)) in
  let hit := flagged pd (method_of cfg) (threshold_of cfg) df in
  rows out = map (row df) (List.filter (fun i => negb (hit i)) (seq 0 (nrows df)))
  /\ snd (outlier_stage pd cfg df) = Z.of_nat (length (List.filter hit (seq 0 (nrows df))))
  /\ map (fun col => (name col, dtype_of col)) (columns out)
     = map (fun col => (name col, dtype_of col)) (columns df).
Proof.
  intros Hwf _ _ Hon Hact. cbv zeta. unfold outlier_stage. rewrite Hon, Hact.
  unfold scan_outliers.
  destruct (scan_mask pd df (method_of cfg) (threshold_of cfg) Hwf (numeric_cols df)
              ∅ (repeat false (nrows df)) (repeat_length _ _)) as [Hl Hn].
  destruct (fold_left _ (numeric_cols df) _) as [o m]. simpl in Hl, Hn. simpl.
  assert (m = map (flagged pd (method_of cfg) (threshold_of cfg) df) (seq 0 (nrows df))) as ->.
  { apply (nth_ext _ _ false false); [now rewrite length_map, length_seq|].
    intros i Hi. rewrite Hl in Hi. rewrite Hn, nth_repeat_false. simpl.
    rewrite (nth_indep _ false (flagged pd (method_of cfg) (threshold_of cfg) df 0))
      by (now rewrite length_map, length_seq).
    rewrite map_nth, seq_nth by exact Hi. reflexivity. }
  split; [|split].
  - rewrite rows_take_rows; [|exact Hwf|now rewrite !length_map, length_seq].
    unfold rows. rewrite select_map, map_map. f_equal.
    apply (select_filter (fun i => negb (flagged pd (method_of cfg) (threshold_of cfg) df i))).
  - rewrite map_map.
    pose proof (removed_count
                  (fun i => negb (flagged pd (method_of cfg) (threshold_of cfg) df i))
                  (seq 0 (nrows df))) as H.
    rewrite length_seq in H. rewrite H. do 2 f_equal.
    apply filter_ext. intros i. apply negb_involutive.
  - now rewrite map_map.
Qed.

(** Twenty cells of 10 and one of 1000: the last row is flagged. *)
Lemma outlier_drop_removes_the_flagged_rows_witness :
  rows (fst (fst (outlier_stage Ref.pandas zscore_drop_config zscore_example)))
  = repeat [VInt 10] 20
  /\ snd (outlier_stage Ref.pandas zscore_drop_config zscore_example) = 1%Z.
Proof.
  destruct (outlier_drop_removes_the_flagged_rows Ref.pandas zscore_drop_config
              zscore_example ltac:(repeat constructor)
              ltac:(repeat constructor; simpl; tauto) ltac:(repeat constructor)
              eq_refl eq_refl) as [H1 [H2 _]].
  split; [rewrite H1|rewrite H2]; vm_compute; reflexivity.
Defined.

Lemma outliers_has_an_entry_per_examined_column_witness :
  is_Some (snd (fst (outlier_stage Ref.pandas zscore_drop_config (ids_table 1000000)))
             !! "value")
  /\ ~ is_Some (snd (fst (outlier_stage Ref.pandas zscore_drop_config (ids_table 1000000)))
                  !! "user_id").
Proof.
  assert (List.NoDup (names (ids_table 1000000))) as Hnd
    by (repeat constructor; simpl; intuition discriminate).
  split.
  - apply (proj1 (outliers_has_an_entry_per_examined_column Ref.pandas zscore_drop_config
                    (ids_table 1000000) "value" ltac:(repeat constructor) Hnd
                    eq_refl eq_refl eq_refl)).
    split; [reflexivity|].
    exists (mkColumn "value" int64 [VInt 10; VInt 12; VInt 11]).
    split; [simpl; tauto|]. split; reflexivity.
  - intros H.
    apply (proj1 (outliers_has_an_entry_per_examined_column Ref.pandas zscore_drop_config
                    (ids_table 1000000) "user_id" ltac:(repeat constructor) Hnd
                    eq_refl eq_refl eq_refl)) in H.
    destruct H as [H _]. discriminate H.
Defined.

(** ** A table without rows *)

Lemma wf_set_col df c d vs :
  well_formed df -> length vs = nrows df -> well_formed (set_col df c d vs).
Proof.
  unfold well_formed, set_col. simpl. rewrite !List.Forall_forall. intros H Hl x Hx.
  apply in_map_iff in Hx as [c0 [<- Hc0]].
  destruct (String.eqb (name c0) c); [exact Hl|now apply H].
Qed.

Lemma wf_get_col df c col :
  well_formed df -> get_col df c = Some col -> length (values col) = nrows df.
Proof.
  unfold well_formed. rewrite List.Forall_forall. intros H Hg. apply H.
  eapply get_col_In; eauto.
Qed.

Section EmptyTable.

Variable pd : Pandas.

Lemma wf_trim_stage cfg df : well_formed df -> well_formed (trim_stage pd cfg df).
Proof.
  intros H. unfold trim_stage. destruct (enabled (trim_whitespace cfg)); [|exact H].
  apply (fold_left_preserves well_formed); [|exact H].
  intros d c Hd. unfold trim_column. destruct (get_col d c) as [col|] eqn:Hg; [|exact Hd].
  apply wf_set_col; [exact Hd|]. rewrite length_map. now apply (wf_get_col d c).
Qed.

Lemma wf_null_stage cfg df :
  well_formed df -> well_formed (fst (fst (null_stage pd cfg df))).
Proof.
  intros H. unfold null_stage.
  destruct (String.eqb _ "drop_rows").
  { apply wf_take_rows; [exact H|]. now rewrite length_map, rows_length. }
  destruct (String.eqb _ "fill"); [|exact H].
  match goal with |- context [fold_left ?f ?l ?a0] =>
    pose proof (fold_left_preserves (fun st => well_formed (fst st)) f l) as P;
    destruct (fold_left f l a0) as [d m] eqn:E end.
  simpl.
  assert (forall st c, well_formed (fst st) ->
            well_formed (fst (fill_column pd (strategy_of cfg) (fill_constant cfg) st c)))
    as Hs.
  { intros [d0 m0] c Hd. simpl in Hd. unfold fill_column.
    destruct (get_col d0 c) as [col|] eqn:Hg; [|exact Hd].
    destruct (_ =? 0); [exact Hd|].
    destruct (fill_attempt pd _ _ col) as [col'|] eqn:Ef; [|exact Hd].
    simpl. apply wf_set_col; [exact Hd|].
    apply fill_attempt_Done in Ef as [w [_ ->]]. simpl. rewrite length_map.
    now apply (wf_get_col d0 c). }
  specialize (P Hs (df, ∅) H). now rewrite E in P.
Qed.

Lemma wf_blank_rows_stage cfg df :
  well_formed df -> well_formed (fst (blank_rows_stage cfg df)).
Proof.
  intros H. unfold blank_rows_stage.
  destruct (enabled (drop_blank_rows cfg)); [now apply wf_dropna_all|exact H].
Qed.

Lemma wf_normalize_stage cfg df :
  well_formed df -> well_formed (fst (normalize_stage cfg df)).
Proof.
  intros H. rewrite normalize_stage_relabel.
  destruct (enabled (normalize_columns cfg)); [now apply wf_relabel|exact H].
Qed.

Lemma names_nil df : names df = [] -> columns df = [].
Proof. unfold names. now destruct (columns df). Qed.


End EmptyTable.


Lemma cleaned_labels_are_a_selection_witness :
  forallb clean_label
    (names (fst (clean_dataframe Ref.pandas
                   (mkDataFrame 1 [mkColumn " Name " object [VStr "x"];
                                   mkColumn "Age!" int64 [VInt 1]])
                   normalize_only))) = true.
Proof.
  apply (proj2 (cleaned_labels_are_a_selection Ref.pandas
                  (mkDataFrame 1 [mkColumn " Name " object [VStr "x"];
                                  mkColumn "Age!" int64 [VInt 1]])
                  normalize_only ltac:(repeat constructor)
                  ltac:(repeat constructor; simpl; intuition discriminate))).
  reflexivity.
Defined.

(** ** Names the detector does not know *)

(** The configuration [cfg] with its [outlier_method] and [outlier_action]
    entries replaced. *)
Definition with_outlier_options (m a : option string) (cfg : Config) : Config :=
  mkConfig (normalize_columns cfg) (trim_whitespace cfg) (null_handling cfg)
    (fill_strategy cfg) (fill_constant cfg) (drop_blank_rows cfg) (drop_blank_cols cfg)
    (drop_duplicates cfg) (infer_types cfg) (date_detect_thresh cfg) (detect_outliers cfg)
    m (outlier_threshold cfg) a.

Lemma outlier_column_method pd df m thresh action st c :
  m <> "iqr" ->
  outlier_column pd df m thresh action st c = outlier_column pd df "zscore" thresh action st c.
Proof.
  intros Hm. apply String.eqb_neq in Hm. unfold outlier_column. now rewrite Hm.
Qed.

Lemma outlier_column_action pd df method thresh a m0 o c :
  a <> "drop" ->
  outlier_column pd df method thresh a (o, m0) c
  = (fst (outlier_column pd df method thresh "report" (o, m0) c), m0)
  /\ snd (outlier_column pd df method thresh "report" (o, m0) c) = m0.
Proof.
  intros Ha. apply String.eqb_neq in Ha. unfold outlier_column. rewrite Ha. simpl.
  destruct (get_col df c) as [col|]; [|now split].
  destruct (_ =? 0); now split.
Qed.

Lemma scan_outliers_action pd df method thresh a :
  a <> "drop" ->
  fst (scan_outliers pd method thresh a df) = fst (scan_outliers pd method thresh "report" df).
Proof.
  intros Ha. unfold scan_outliers.
  generalize (∅ : gmap string (nat * float)) (repeat false (nrows df)).
  induction (numeric_cols df) as [|c l IH]; intros o m0; cbn [fold_left]; [reflexivity|].
  destruct (outlier_column_action pd df method thresh a m0 o c Ha) as [-> H2].
  destruct (outlier_column pd df method thresh "report" (o, m0) c) as [o1 m1].
  simpl in *. subst m1. apply IH.
Qed.

(** X25. The detector knows the method ['iqr'] and the action ['drop']
    only: any other method (a misspelt one too) is the z-score, with the
    default threshold 3.0, and any other action reports without removing a
    row. *)
Theorem unknown_method_and_action_fall_back (pd : Pandas) (cfg : Config)
  (df : DataFrame) (m a : string) :
  outlier_method cfg = Some m ->
  outlier_action cfg = Some a ->
  (m <> "iqr" ->
   outlier_stage pd cfg df
   = outlier_stage pd (with_outlier_options (Some "zscore") (Some a) cfg) df)
  /\ (a <> "drop" ->
      outlier_stage pd cfg df
      = outlier_stage pd (with_outlier_options (Some m) (Some "report") cfg) df
      /\ fst (fst (outlier_stage pd cfg df)) = df
      /\ snd (outlier_stage pd cfg df) = 0%Z).
Proof.
  intros Hm Ha. split.
  - intros Hne. unfold outlier_stage, method_of, action_of, threshold_of, method_of. simpl.
    rewrite Hm, Ha. simpl.
    destruct (enabled (detect_outliers cfg)); [|reflexivity].
    pose proof Hne as Hb. apply String.eqb_neq in Hb. rewrite Hb.
    unfold scan_outliers.
    rewrite (fold_left_agree _ _ _
               (fun st c => outlier_column_method pd df m
                              (default 3%float (outlier_threshold cfg)) a st c Hne)).
    reflexivity.
  - intros Hne. pose proof Hne as Hb. apply String.eqb_neq in Hb.
    unfold outlier_stage, method_of, action_of, threshold_of, method_of. simpl.
    rewrite Hm, Ha. simpl. rewrite Hb.
    destruct (enabled (detect_outliers cfg)); [|repeat split].
    pose proof (scan_outliers_action pd df m
                  (default (if String.eqb m "iqr" then 1.5%float else 3%float)
                           (outlier_threshold cfg)) a Hne) as Hs.
    destruct (scan_outliers pd m _ a df) as [o1 m1].
    destruct (scan_outliers pd m _ "report" df) as [o2 m2].
    simpl in Hs. subst o2. repeat split.
Qed.

Lemma unknown_method_and_action_fall_back_witness :
  let cfg := mkConfig None None None None None None None None None None
               (Some true) (Some "z-score") None (Some "remove") in
  outlier_stage Ref.pandas cfg zscore_example
  = outlier_stage Ref.pandas (with_outlier_options (Some "zscore") (Some "remove") cfg)
      zscore_example
  /\ fst (fst (outlier_stage Ref.pandas cfg zscore_example)) = zscore_example.
Proof.
  cbv zeta.
  destruct (unknown_method_and_action_fall_back Ref.pandas
              (mkConfig None None None None None None None None None None
                 (Some true) (Some "z-score") None (Some "remove"))
              zscore_example "z-score" "remove" eq_refl eq_refl) as [H1 H2].
  split; [apply H1; discriminate|].
  destruct (H2 ltac:(discriminate)) as [_ [H _]]. exact H.
Defined.

(** ** Cells that do not read as numbers *)

Section Coercion.

Variable pd : Pandas.

(** A text cell that is no numeral is missing after [to_numeric]. *)
Lemma to_numeric_unreadable col i s :
  nth_error (values col) i = Some (VStr s) ->
  num_of_string pd s = None ->
  nth_error (snd (to_numeric pd col)) i = Some NA.
Proof.
  intros Hv Hs.
  assert (nth_error (map (numeric_cell pd (dtype_of col)) (values col)) i = Some NA) as Hc.
  { rewrite (map_nth_error _ _ _ Hv). simpl. now rewrite Hs. }
  unfold to_numeric.
  destruct (forallb is_bool_cell _) eqn:Eb.
  { rewrite forallb_forall in Eb. apply nth_error_In in Hc. apply Eb in Hc. discriminate Hc. }
  destruct (forallb is_int_cell _) eqn:Ei.
  { rewrite forallb_forall in Ei. apply nth_error_In in Hc. apply Ei in Hc. discriminate Hc. }
  simpl. now rewrite (map_nth_error _ _ _ Hc).
Qed.

(** X26. With distinct labels, when the inference commits a column as
    numeric, or the finalizer converts an object column to numbers, every
    text cell of the column that does not read as a number is missing
    afterwards. *)
Theorem numeric_commit_blanks_unreadable_text (cfg : Config) (df : DataFrame) (col : column)
  (i : nat) (s : string) :
  List.NoDup (names df) ->
  In col (columns df) ->
  nth_error (values col) i = Some (VStr s) ->
  num_of_string pd s = None ->
  (enabled (infer_types cfg) = true ->
   is_Some (snd (infer_stage pd cfg df) !! name col) ->
   exists col', get_col (fst (infer_stage pd cfg df)) (name col) = Some col'
                /\ nth_error (values col') i = Some NA)
  /\ (dtype_of col = object ->
      fge (ratio (notna_count (snd (to_numeric pd col))) (length (values col))) 0.95%float
      = true ->
      exists col', get_col (_make_arrow_compatible pd df) (name col) = Some col'
                   /\ nth_error (values col') i = Some NA).
Proof.
  intros Hnd Hin Hv Hs. split.
  - intros Hon [e He]. unfold infer_stage in *. rewrite Hon in *.
    rewrite (infer_loop_spec pd _ df Hnd) in *. cbn [fst snd] in *.
    rewrite (get_col_apply_all _ df col Hnd Hin).
    rewrite (collect_in _ df (names df) ∅ (name col) col Hnd) in He;
      [|now apply in_map|now apply get_col_unique].
    unfold updated. rewrite infer_entry_spec in *.
    destruct (_ && _); [|rewrite lookup_empty in He; discriminate He].
    eexists. split; [reflexivity|]. simpl. now apply (to_numeric_unreadable col i s).
  - intros Ho Hr. rewrite (arrow_loop_spec pd df Hnd).
    rewrite (get_col_apply_all _ df col Hnd Hin).
    unfold updated, arrow_entry. rewrite Ho. simpl.
    pose proof (to_numeric_unreadable col i s Hv Hs) as Hn.
    destruct (to_numeric pd col) as [d conv]. simpl in Hr, Hn. rewrite Hr.
    eexists. split; [reflexivity|exact Hn].
Qed.

End Coercion.

(** Nineteen numerals and one word: the column is committed, the word is
    lost. *)
Definition mostly_numerals : DataFrame :=
  mkDataFrame 20 [mkColumn "n" object (repeat (VStr "7") 19 ++ [VStr "n/a"])].

Lemma numeric_commit_blanks_unreadable_text_witness :
  exists col',
    get_col (fst (infer_stage Ref.pandas infer_config mostly_numerals)) "n" = Some col'
    /\ nth_error (values col') 19 = Some NA.
Proof.
  destruct (numeric_commit_blanks_unreadable_text Ref.pandas infer_config mostly_numerals
              (mkColumn "n" object (repeat (VStr "7") 19 ++ [VStr "n/a"])) 19 "n/a"
              ltac:(repeat constructor; simpl; tauto) ltac:(simpl; tauto)
              eq_refl eq_refl) as [H _].
  apply H; [reflexivity|]. vm_compute. now eexists.
Defined.

(** ** The object columns of the table returned *)

(** A column of object dtype holds text only. *)
Definition text_if_object (c : column) : Prop :=
  dtype_of c = object -> Forall is_text_cell (values c).

Section Returned.

Variable pd : Pandas.

Lemma arrow_entry_None col : arrow_entry pd col = None -> dtype_of col <> object.
Proof.
  unfold arrow_entry. intros H Ho. rewrite Ho in H. simpl in H.
  destruct (to_numeric pd col) as [d conv]. destruct (fge _ _); [discriminate|].
  destruct (final_datetime pd col) as [[conv'|]|]; try discriminate;
    destruct (astype_string pd (values col)); discriminate.
Qed.

Lemma finalizer_text_if_object df :
  List.NoDup (names df) -> Forall text_if_object (columns (_make_arrow_compatible pd df)).
Proof.
  intros Hnd. rewrite (arrow_loop_spec pd df Hnd). unfold apply_to. simpl.
  apply List.Forall_forall. intros c' Hc'. apply in_map_iff in Hc' as [col [<- Hin]].
  rewrite (proj2 (in_names_In _ _)) by (now apply in_map).
  unfold updated, text_if_object.
  destruct (arrow_entry pd col) as [[[d vs] u]|] eqn:E.
  - simpl. intros ->. apply arrow_entry_dtype in E as [_ [H|[H|[H|[H|[_ H]]]]]];
      try discriminate H. exact H.
  - intros Ho. now apply arrow_entry_None in E.
Qed.

Lemma take_rows_text_if_object keep df :
  Forall text_if_object (columns df) -> Forall text_if_object (columns (take_rows keep df)).
Proof.
  rewrite !List.Forall_forall. intros H c' Hc'. unfold take_rows in Hc'. simpl in Hc'.
  apply in_map_iff in Hc' as [col [<- Hin]]. unfold text_if_object. simpl. intros Ho.
  specialize (H col Hin Ho). rewrite List.Forall_forall in *. intros v Hv.
  apply H. eapply select_In; eauto.
Qed.

(** X27. Whatever the configuration, when the labels of the table are
    distinct once normalized, no column of the table returned is an object
    column with a cell that is not text: the finalizer has given every
    object column a numeric or the string dtype, or turned each of its
    cells into text. *)
Theorem returned_object_columns_hold_text (df : DataFrame) (cfg : Config) :
  List.NoDup (names (table_after_normalize cfg df)) ->
  Forall (fun c => dtype_of c = object -> Forall is_text_cell (values c))
         (columns (fst (clean_dataframe pd df cfg))).
Proof.
  intros Hnd. rewrite clean_dataframe_stages. cbn [fst].
  assert (List.NoDup (names (table_after_infer pd cfg df))) as Hnd6.
  { unfold table_after_infer, table_after_duplicates, table_after_blank_cols,
      table_after_blank_rows, table_after_nulls, null_result, table_after_trim.
    rewrite names_infer_stage, names_duplicates_stage.
    destruct (names_blank_cols_stage cfg
                (fst (blank_rows_stage cfg
                        (fst (fst (null_stage pd cfg
                                     (trim_stage pd cfg (table_after_normalize cfg df))))))))
      as [keep [_ ->]].
    rewrite names_blank_rows_stage, names_null_stage, names_trim_stage.
    now apply select_NoDup. }
  pose proof (finalizer_text_if_object _ Hnd6) as H.
  fold (table_after_finalizer pd cfg df) in H.
  unfold table_after_outliers, outlier_result, outlier_stage.
  destruct (enabled (detect_outliers cfg)); [|exact H].
  destruct (scan_outliers pd _ _ _ (table_after_finalizer pd cfg df)) as [o m].
  destruct (String.eqb (action_of cfg) "drop"); [|exact H].
  now apply take_rows_text_if_object.
Qed.

End Returned.

(** The mixed column [7, 'a'] and a float column, under no option at all. *)
Lemma returned_object_columns_hold_text_witness :
  Forall (fun c => dtype_of c = object -> Forall is_text_cell (values c))
    (columns (fst (clean_dataframe Ref.pandas
                     (mkDataFrame 2 [mixed_column; mkColumn "n" float64 [NA; VFloat 1]])
                     no_config))).
Proof.
  apply (returned_object_columns_hold_text Ref.pandas
           (mkDataFrame 2 [mixed_column; mkColumn "n" float64 [NA; VFloat 1]]) no_config).
  repeat constructor; simpl; intuition discriminate.
Defined.

(** ** Cells of whitespace *)

Lemma lstrip_all_space l : forallb Py.is_space l = true -> Py.lstrip l = [].
Proof.
  induction l as [|c l IH]; simpl; [reflexivity|]. intros H.
  apply andb_true_iff in H as [Hc H]. rewrite Hc. now apply IH.
Qed.

Lemma strip_all_space s :
  forallb Py.is_space (list_ascii_of_string s) = true -> Py.strip s = "".
Proof.
  intros H. unfold Py.strip. now rewrite (lstrip_all_space _ H).
Qed.

(** X28. With trimming on and distinct labels, a text cell of an object
    column that holds nothing but whitespace becomes the empty text, which
    is not missing; so, on a well-formed table, the row of such a cell is
    not a blank row afterwards. *)
Theorem whitespace_cell_becomes_empty_text (pd : Pandas) (cfg : Config) (df : DataFrame)
  (col : column) (i : nat) (s : string) :
  enabled (trim_whitespace cfg) = true ->
  List.NoDup (names df) ->
  In col (columns df) ->
  dtype_of col = object ->
  nth_error (values col) i = Some (VStr s) ->
  forallb Py.is_space (list_ascii_of_string s) = true ->
  (exists col',
     get_col (trim_stage pd cfg df) (name col) = Some col'
     /\ nth_error (values col') i = Some (VStr ""))
  /\ isna (VStr "") = false
  /\ existsb notna (row (trim_stage pd cfg df) i) = true.
Proof.
  intros Hon Hnd Hin Ho Hv Hs.
  assert (get_col (trim_stage pd cfg df) (name col)
          = Some (mkColumn (name col) object (map (trim_cell pd) (values col)))) as Hg.
  { rewrite (trim_stage_columns pd cfg df Hon Hnd).
    rewrite (get_col_map_columns
               (fun col => if dtype_eqb (dtype_of col) object
                           then mkColumn (name col) object (map (trim_cell pd) (values col))
                           else col) df col); try assumption.
    - now rewrite Ho.
    - intros c. now destruct (dtype_eqb (dtype_of c) object). }
  assert (nth_error (map (trim_cell pd) (values col)) i = Some (VStr "")) as Hc.
  { rewrite (map_nth_error _ _ _ Hv). unfold trim_cell. simpl.
    now rewrite (strip_all_space s Hs). }
  split; [eexists; split; [exact Hg|exact Hc]|]. split; [reflexivity|].
  apply existsb_exists. exists (VStr ""). split; [|reflexivity].
  apply get_col_In in Hg.
  pose proof (cell_in_row (trim_stage pd cfg df) _ i Hg) as Hr. simpl in Hr.
  now rewrite (nth_error_nth _ _ NA Hc) in Hr.
Qed.

Lemma whitespace_cell_becomes_empty_text_witness :
  let cfg := mkConfig None (Some true) None None None None None None None None None None
               None None in
  existsb notna (row (trim_stage Ref.pandas cfg
                        (mkDataFrame 2 [mkColumn "a" object [VStr "x"; VStr "  "]])) 1)
  = true.
Proof.
  cbv zeta.
  apply (whitespace_cell_becomes_empty_text Ref.pandas
           (mkConfig None (Some true) None None None None None None None None None None
              None None)
           (mkDataFrame 2 [mkColumn "a" object [VStr "x"; VStr "  "]])
           (mkColumn "a" object [VStr "x"; VStr "  "]) 1 "  "
           eq_refl ltac:(repeat constructor; simpl; tauto) ltac:(simpl; tauto)
           eq_refl eq_refl eq_refl).
Defined.

(** ** The inference and the finalizer together *)

(** Two facts of binary64 order: what is at least 0.95 is at least 0.9,
    and zero over anything is below 0.95. *)
Lemma fge_095_09 r : fge r 0.95%float = true -> fge r 0.9%float = true.
Proof.
  unfold fge. rewrite !FloatAxioms.leb_spec.
  change (Prim2SF 0.95%float) with (S754_finite false 8556839292003942 (-53)).
  change (Prim2SF 0.9%float) with (S754_finite false 8106479329266893 (-53)).
  unfold SFleb, SFcompare.
  destruct (Prim2SF r) as [s|s| |s m e]; cbv beta iota; try (intros H; exact H).
  destruct s; [intros H; exact H|].
  destruct (Z.compare (-53) e); try (intros H; exact H).
  change (Pos.compare_cont Eq 8556839292003942 m) with (Pos.compare 8556839292003942 m).
  change (Pos.compare_cont Eq 8106479329266893 m) with (Pos.compare 8106479329266893 m).
  destruct (Pos.compare_spec 8556839292003942 m) as [E|E|E]; try discriminate; intros _;
    (replace (8106479329266893 ?= m)%positive with Lt;
     [reflexivity|symmetry; apply Pos.compare_lt_iff; lia]).
Qed.

Lemma ratio_zero n : fge (ratio 0 n) 0.95%float = false.
Proof.
  unfold ratio, fge. change (N2F 0) with 0%float.
  rewrite FloatAxioms.leb_spec, FloatAxioms.div_spec.
  change (Prim2SF 0.95%float) with (S754_finite false 8556839292003942 (-53)).
  change (Prim2SF 0) with (S754_zero false). unfold SF64div, SFdiv.
  now destruct (Prim2SF (N2F (Nat.max 1 n))) as [s|s| |s m e].
Qed.

Section Together.

Variable pd : Pandas.

Lemma numeric_cell_missing v : isna v = true -> isna (numeric_cell pd object v) = true.
Proof. destruct v; simpl; try discriminate; auto. Qed.

(** A blank object column has no present cell after [to_numeric]. *)
Lemma to_numeric_blank col :
  dtype_of col = object ->
  length (dropna_values (values col)) = 0 ->
  notna_count (snd (to_numeric pd col)) = 0.
Proof.
  intros Ho Hb.
  assert (forall v, In v (values col) -> isna v = true) as Hall.
  { intros v Hv. destruct (isna v) eqn:E; [reflexivity|].
    apply length_zero_iff_nil in Hb.
    assert (In v (dropna_values (values col))) as Hin
      by (apply filter_In; split; [exact Hv|unfold notna; now rewrite E]).
    rewrite Hb in Hin. contradiction. }
  assert (forall x, In x (snd (to_numeric pd col)) -> isna x = true) as Hconv.
  { unfold to_numeric. rewrite Ho.
    destruct (forallb is_bool_cell _); [|destruct (forallb is_int_cell _)]; simpl;
      intros x Hx.
    - apply in_map_iff in Hx as [v [<- Hv]]. now apply numeric_cell_missing, Hall.
    - apply in_map_iff in Hx as [y [<- Hy]]. apply in_map_iff in Hy as [v [<- Hv]].
      pose proof (numeric_cell_missing v (Hall v Hv)) as Hn.
      destruct (numeric_cell pd object v); simpl in *; auto; discriminate.
    - apply in_map_iff in Hx as [y [<- Hy]]. apply in_map_iff in Hy as [v [<- Hv]].
      now rewrite (numeric_cell_missing v (Hall v Hv)). }
  unfold notna_count. apply length_zero_iff_nil.
  destruct (List.filter notna (snd (to_numeric pd col))) as [|x l] eqn:E; [reflexivity|].
  assert (In x (List.filter notna (snd (to_numeric pd col)))) as Hin by (rewrite E; now left).
  apply filter_In in Hin as [Hin Hn]. unfold notna in Hn. now rewrite (Hconv x Hin) in Hn.
Qed.

(** X29. With the inference on and distinct labels, what leaves the
    finalizer in place of an object column is decided by the inference
    alone: the numeric conversion when the column has a present cell and at
    least 0.9 of its cells read as numbers, and the text conversion
    otherwise.  The finalizer's own numeric attempt, at 0.95, never succeeds
    on a column that the inference has left. *)
Theorem inference_decides_for_the_finalizer (cfg : Config) (df : DataFrame) (col : column) :
  enabled (infer_types cfg) = true ->
  List.NoDup (names df) ->
  In col (columns df) ->
  dtype_of col = object ->
  let conv := to_numeric pd col in
  get_col (_make_arrow_compatible pd (fst (infer_stage pd cfg df))) (name col)
  = Some (if negb (length (dropna_values (values col)) =? 0)
             && fge (ratio (notna_count (snd conv)) (length (values col))) 0.9%float
          then mkColumn (name col) (fst conv) (snd conv)
          else as_text pd col).
Proof.
  intros Hon Hnd Hin Ho. cbv zeta.
  assert (List.NoDup (names (fst (infer_stage pd cfg df)))) as Hnd'
    by now rewrite names_infer_stage.
  unfold infer_stage in *. rewrite Hon in *.
  rewrite (infer_loop_spec pd _ df Hnd) in *. cbn [fst] in *.
  set (g := infer_entry pd (default 0.5%float (date_detect_thresh cfg))) in *.
  assert (In (updated g col) (columns (apply_to g (names df) df))) as Hin'.
  { unfold apply_to. simpl. apply in_map_iff. exists col. split; [|exact Hin].
    rewrite (proj2 (in_names_In _ _)); [reflexivity|]. now apply in_map. }
  assert (name (updated g col) = name col) as Hname.
  { unfold updated. now destruct (g col) as [[[d vs] e]|]. }
  assert (get_col (_make_arrow_compatible pd (apply_to g (names df) df)) (name col)
          = Some (updated (arrow_entry pd) (updated g col))) as ->.
  { rewrite (arrow_loop_spec pd _ Hnd'), <- Hname.
    apply (get_col_apply_all _ _ _ Hnd' Hin'). }
  f_equal.
  assert (updated g col
          = if negb (length (dropna_values (values col)) =? 0)
               && fge (ratio (notna_count (snd (to_numeric pd col))) (length (values col)))
                      0.9%float
            then mkColumn (name col) (fst (to_numeric pd col)) (snd (to_numeric pd col))
            else col) as ->.
  { unfold updated, g. rewrite infer_entry_spec. now destruct (_ && _). }
  destruct (length (dropna_values (values col)) =? 0) eqn:Eb; simpl.
  - apply Nat.eqb_eq in Eb.
    unfold updated, arrow_entry, as_text, astype_string. rewrite Ho. simpl.
    pose proof (to_numeric_blank col Ho Eb) as Hz.
    destruct (to_numeric pd col) as [d conv]. simpl in Hz. rewrite Hz, ratio_zero.
    destruct (final_datetime_raises pd col) as [e ->].
    now destruct (astype_string_refuses pd (values col)).
  - destruct (fge (ratio (notna_count (snd (to_numeric pd col))) (length (values col)))
                  0.9%float) eqn:E9.
    + unfold updated, arrow_entry. simpl.
      destruct (to_numeric_dtype pd col) as [H|[H|H]]; rewrite H; reflexivity.
    + unfold updated, arrow_entry, as_text, astype_string. rewrite Ho. simpl.
      destruct (to_numeric pd col) as [d conv]. simpl in E9.
      destruct (fge (ratio (notna_count conv) (length (values col))) 0.95%float) eqn:E95.
      { apply fge_095_09 in E95. congruence. }
      destruct (final_datetime_raises pd col) as [e ->].
      now destruct (astype_string_refuses pd (values col)).
Qed.

End Together.

(** Nine numerals and one word: 0.9 of the cells read as numbers, so the
    column leaves the finalizer as numbers and the word is lost. *)
Lemma inference_decides_for_the_finalizer_witness :
  let col := mkColumn "n" object (repeat (VStr "7") 9 ++ [VStr "n/a"]) in
  get_col (_make_arrow_compatible Ref.pandas
             (fst (infer_stage Ref.pandas infer_config (mkDataFrame 10 [col])))) "n"
  = Some (mkColumn "n" float64 (repeat (VFloat 7) 9 ++ [NA])).
Proof.
  cbv zeta.
  etransitivity;
    [exact (inference_decides_for_the_finalizer Ref.pandas infer_config
              (mkDataFrame 10 [mkColumn "n" object (repeat (VStr "7") 9 ++ [VStr "n/a"])])
              (mkColumn "n" object (repeat (VStr "7") 9 ++ [VStr "n/a"]))
              eq_refl ltac:(repeat constructor; simpl; tauto) ltac:(simpl; tauto) eq_refl)|].
  vm_compute. reflexivity.
Defined.

(** * The detector and the second run *)

(** ** The z-score rule in the detector *)

Lemma dropna_dropna vs : dropna_values (dropna_values vs) = dropna_values vs.
Proof.
  unfold dropna_values. induction vs as [|v vs IH]; simpl; [reflexivity|].
  destruct (notna v) eqn:E; simpl; [now rewrite E, IH|exact IH].
Qed.

Lemma dropna_present vs v : In v (dropna_values vs) -> isna v = false.
Proof.
  unfold dropna_values. intros H. apply filter_In in H as [_ H].
  unfold notna in H. now apply negb_true_iff in H.
Qed.

Lemma zero_filled_present vs : zero_filled (dropna_values vs) = floats vs.
Proof.
  unfold zero_filled, floats. apply map_ext_in. intros v Hv.
  now rewrite (dropna_present vs v Hv).
Qed.

Lemma repeat_false_map {A : Type} (l : list A) :
  repeat false (length l) = map (fun _ => false) l.
Proof. induction l as [|x l IH]; simpl; [reflexivity|]. now rewrite IH. Qed.

Lemma count_true_none {A : Type} (l : list A) : count_true (map (fun _ => false) l) = 0.
Proof. unfold count_true. induction l as [|x l IH]; simpl; [reflexivity|exact IH]. Qed.

Lemma NoDup_names_filter (p : column -> bool) (cols : list column) :
  List.NoDup (map name cols) -> List.NoDup (map name (List.filter p cols)).
Proof.
  induction cols as [|c cs IH]; simpl; intros H; [constructor|].
  inversion H as [|? ? Hnot Hnd]; subst.
  destruct (p c); simpl; [|now apply IH].
  constructor; [|now apply IH].
  intros Hin. apply Hnot. apply in_map_iff in Hin as [x [Hx Hin]].
  apply filter_In in Hin as [Hin _]. rewrite <- Hx. now apply in_map.
Qed.

Lemma NoDup_numeric_cols df : List.NoDup (names df) -> List.NoDup (numeric_cols df).
Proof.
  intros H. unfold numeric_cols. apply List.NoDup_filter. now apply NoDup_names_filter.
Qed.

Section ZScore.

Variable pd : Pandas.

(** The mask of the z-score branch, cell by cell, with the mean and the
    deviation written out. *)
Lemma zscore_mask_cells d thresh vs :
  dropna_values vs <> [] ->
  let present := map to_float (List.filter notna vs) in
  let n := N2F (length present) in
  let mu := (sum_floats pd d present / n)%float in
  let avg := (sum_floats pd float64 present / n)%float in
  let sigma :=
    PrimFloat.sqrt
      (sum_floats pd float64 (map (fun x => ((avg - x) * (avg - x))%float) present) / n) in
  zscore_mask pd d (length vs) thresh vs
  = map (fun v => if (PrimFloat.eqb sigma 0 || is_nan sigma) then false
                  else fgt (PrimFloat.abs (to_float v - mu) / sigma) thresh) vs.
Proof.
  intros Hne. cbv zeta. unfold zscore_mask, mean, std0.
  rewrite !dropna_dropna, zero_filled_present.
  assert ((length (dropna_values vs) =? 0) = false) as E
    by (apply Nat.eqb_neq; destruct (dropna_values vs); [congruence|discriminate]).
  rewrite E.
  assert (map (fun v => if isna v then 0%float
                        else ((sum_floats pd float64 (floats vs)
                               / N2F (length (dropna_values vs)) - to_float v)
                              * (sum_floats pd float64 (floats vs)
                                 / N2F (length (dropna_values vs)) - to_float v))%float)
              (dropna_values vs)
          = map (fun x => ((sum_floats pd float64 (floats vs)
                            / N2F (length (dropna_values vs)) - x)
                           * (sum_floats pd float64 (floats vs)
                              / N2F (length (dropna_values vs)) - x))%float)
                (floats vs)) as ->.
  { unfold floats. rewrite map_map. apply map_ext_in. intros v Hv.
    now rewrite (dropna_present vs v Hv). }
  unfold floats, dropna_values. rewrite !length_map.
  match goal with |- context [if ?g then _ else _] => destruct g eqn:G end.
  - apply repeat_false_map.
  - apply map_ext. intros v. unfold zscore. rewrite abs_div.
    apply orb_false_iff in G as [Gz _]. now rewrite (abs_sqrt_nonzero _ Gz).
Qed.

Variable df : DataFrame.
Variable thresh : float.
Hypothesis Hwf : well_formed df.

Lemma outlier_column_other method action o m c c' :
  c' <> c -> fst (outlier_column pd df method thresh action (o, m) c') !! c = o !! c.
Proof.
  intros Hne. unfold outlier_column.
  destruct (get_col df c') as [col|]; [|reflexivity].
  destruct (_ =? 0); simpl; now rewrite lookup_insert_ne.
Qed.

Lemma scan_other method action l :
  forall o m c, ~ In c l ->
    fst (fold_left (outlier_column pd df method thresh action) l (o, m)) !! c = o !! c.
Proof.
  induction l as [|c' l IH]; intros o m c Hn; cbn [fold_left fst]; [reflexivity|].
  destruct (outlier_column pd df method thresh action (o, m) c') as [o1 m1] eqn:E.
  rewrite IH by (intros H; apply Hn; now right).
  change o1 with (fst (o1, m1)). rewrite <- E.
  apply outlier_column_other. intros ->. apply Hn. now left.
Qed.

(** The entry the loop leaves for a column it examines. *)
Lemma scan_entry method action l :
  List.NoDup l ->
  forall o m c col, In c l -> get_col df c = Some col ->
    fst (fold_left (outlier_column pd df method thresh action) l (o, m)) !! c
    = Some (if length (dropna_values (values col)) =? 0 then (0, 0%float)
            else (count_true (column_flags pd method thresh df c),
                  ratio (count_true (column_flags pd method thresh df c)) (nrows df))).
Proof.
  induction 1 as [|c' l Hnot Hnd IH]; intros o m c col Hin Hg; [contradiction|].
  cbn [fold_left].
  destruct (outlier_column pd df method thresh action (o, m) c') as [o1 m1] eqn:E.
  destruct Hin as [->|Hin]; [|now apply IH].
  rewrite scan_other by exact Hnot.
  rewrite (outlier_column_flags pd df method thresh action o m c col Hg) in E.
  destruct (length (dropna_values (values col)) =? 0); cbv zeta in E;
    injection E as <- _; apply lookup_insert_eq.
Qed.

End ZScore.

(** The example of the specification, run through the whole pipeline. *)
Lemma zscore_example_run :
  let out := fst (clean_dataframe Ref.pandas zscore_example zscore_drop_config) in
  let report := snd (clean_dataframe Ref.pandas zscore_example zscore_drop_config) in
  nrows out = 20
  /\ get_col out "value" = Some (mkColumn "value" int64 (repeat (VInt 10) 20))
  /\ report !! "outliers_removed" = Some (RCount 1)
  /\ exists m percent,
       report !! "outliers" = Some (ROutliers m)
       /\ m !! "value" = Some (1, percent).
Proof.
  cbv zeta. rewrite report_outliers_removed, report_outliers.
  rewrite clean_dataframe_stages. cbn [fst].
  split; [|split; [|split]].
  - vm_compute. reflexivity.
  - vm_compute. reflexivity.
  - vm_compute. reflexivity.
  - exists (snd (fst (outlier_result Ref.pandas zscore_drop_config zscore_example))),
      (ratio 1 21).
    split; [reflexivity|]. vm_compute. reflexivity.
Qed.

(** C7. With the detector on and [outlier_method = 'zscore'], on a
    well-formed table with distinct labels, for a numeric column the
    detector examines (its label ASCII and not identifier-like) that has a
    present cell.  The mean is numpy's sum of the present cells over their
    number, the deviation is the square root of the sum of the squared
    distances to the average over the same number (ddof = 0).  When the
    deviation is zero or NaN no cell is flagged; otherwise a cell is flagged
    exactly when |value - mean| / deviation exceeds the threshold of the
    caller, 3.0 by default (the code takes the magnitude of the quotient,
    which is the same binary64 number).  The count reported for the column
    is the number of flagged cells and the percent is the count over
    [max(1, rows)].  Under the action [drop] every row with a flagged cell
    is removed, and when this is the only column examined the rows kept are
    exactly those whose cell is not flagged.  On twenty cells of 10 and one
    of 1000, threshold 3.0 and action drop, one row is removed and the count
    reported for the column is 1. *)
Theorem zscore_flags (pd : Pandas) (cfg : Config) (df : DataFrame) (col : column) :
  well_formed df ->
  List.NoDup (names df) ->
  enabled (detect_outliers cfg) = true ->
  outlier_method cfg = Some "zscore" ->
  In col (columns df) ->
  is_number_dtype (dtype_of col) = true ->
  ascii_text (name col) = true ->
  id_pattern_search (name col) = false ->
  existsb notna (values col) = true ->
  let thresh := default 3%float (outlier_threshold cfg) in
  let present := map to_float (List.filter notna (values col)) in
  let n := N2F (length present) in
  let mu := (sum_floats pd (dtype_of col) present / n)%float in
  let avg := (sum_floats pd float64 present / n)%float in
  let sigma :=
    PrimFloat.sqrt
      (sum_floats pd float64 (map (fun x => ((avg - x) * (avg - x))%float) present) / n) in
  let flag (v : value) :=
    if (PrimFloat.eqb sigma 0 || is_nan sigma) then false
    else fgt (PrimFloat.abs (to_float v - mu) / sigma) thresh in
  let count := count_true (map flag (values col)) in
  snd (fst (outlier_stage pd cfg df)) !! name col = Some (count, ratio count (nrows df))
  /\ ((PrimFloat.eqb sigma 0 || is_nan sigma) = true -> count = 0)
  /\ (action_of cfg = "drop" ->
      exists keep,
        fst (fst (outlier_stage pd cfg df)) = take_rows keep df
        /\ length keep = nrows df
        /\ (forall i v, nth_error (values col) i = Some v -> flag v = true ->
                        nth i keep true = false)
        /\ (numeric_cols df = [name col] ->
            keep = map (fun v => negb (flag v)) (values col)))
  /\ (let out := fst (clean_dataframe Ref.pandas zscore_example zscore_drop_config) in
      let report := snd (clean_dataframe Ref.pandas zscore_example zscore_drop_config) in
      nrows out = 20
      /\ get_col out "value" = Some (mkColumn "value" int64 (repeat (VInt 10) 20))
      /\ report !! "outliers_removed" = Some (RCount 1)
      /\ exists m percent,
           report !! "outliers" = Some (ROutliers m)
           /\ m !! "value" = Some (1, percent)).
Proof.
  intros Hwf Hnd Hon Hm Hin Hnum _ Hid Hex. cbv zeta.
  set (thresh := default 3%float (outlier_threshold cfg)).
  match goal with |- context [count_true (map ?f (values col))] => set (flag := f) end.
  pose proof (get_col_unique df col Hnd Hin) as Hg.
  assert (length (values col) = nrows df) as Hlen by now apply (wf_get_col df (name col)).
  assert (dropna_values (values col) <> []) as Hne.
  { apply existsb_exists in Hex as [v [Hv Hn]]. intros E.
    assert (In v (dropna_values (values col))) as H
      by (apply filter_In; now split).
    rewrite E in H. exact H. }
  assert ((length (dropna_values (values col)) =? 0) = false) as Hlen0
    by (apply Nat.eqb_neq; destruct (dropna_values (values col)); [congruence|discriminate]).
  assert (method_of cfg = "zscore") as Hmeth by (unfold method_of; now rewrite Hm).
  assert (threshold_of cfg = thresh) as Hth
    by (unfold threshold_of; now rewrite Hmeth).
  assert (column_flags pd "zscore" thresh df (name col) = map flag (values col)) as Hflags.
  { unfold column_flags. rewrite Hg, Hlen0. simpl String.eqb. cbv iota.
    rewrite <- Hlen. apply (zscore_mask_cells pd (dtype_of col) thresh (values col) Hne). }
  assert (In (name col) (numeric_cols df)) as Hnc.
  { apply numeric_cols_In. split; [exact Hid|]. now exists col. }
  split; [|split; [|split]].
  - unfold outlier_stage. rewrite Hon, Hmeth, Hth.
    pose proof (scan_entry pd df thresh "zscore" (action_of cfg) (numeric_cols df)
                  (NoDup_numeric_cols df Hnd) ∅ (repeat false (nrows df))
                  (name col) col Hnc Hg) as He.
    rewrite Hlen0, Hflags in He. unfold scan_outliers.
    destruct (fold_left _ (numeric_cols df) _) as [o m]. simpl in He.
    destruct (String.eqb (action_of cfg) "drop"); simpl;
      now rewrite (purge_ids_keep _ _ Hid).
  - intros Hs.
    assert (map flag (values col) = map (fun _ => false) (values col)) as ->
      by (apply map_ext; intros v; unfold flag; now rewrite Hs).
    apply count_true_none.
  - intros Hact. unfold outlier_stage. rewrite Hon, Hmeth, Hth, Hact. unfold scan_outliers.
    destruct (scan_mask pd df "zscore" thresh Hwf (numeric_cols df)
                ∅ (repeat false (nrows df)) (repeat_length _ _)) as [Hl Hn].
    destruct (fold_left _ (numeric_cols df) _) as [o m]. simpl in Hl, Hn. simpl.
    exists (map negb m). split; [reflexivity|]. split; [now rewrite length_map|].
    split.
    + intros i v Hv Hf. change true with (negb false). rewrite map_nth.
      rewrite Hn, nth_repeat_false. simpl. apply negb_false_iff.
      apply existsb_exists. exists (name col). split; [exact Hnc|].
      rewrite Hflags. now rewrite (nth_error_nth _ _ _ (map_nth_error flag _ _ Hv)).
    + intros Hone. transitivity (map negb (map flag (values col))); [|apply map_map].
      rewrite <- Hflags. f_equal.
      apply (nth_ext _ _ false false).
      * rewrite Hl. symmetry. apply (column_flags_length pd df "zscore" thresh Hwf).
      * intros i _. rewrite Hn, nth_repeat_false, Hone. simpl. now rewrite orb_false_r.
  - exact zscore_example_run.
Qed.

(** Three equal cells: the deviation is zero and nothing is flagged.  The
    cells 0, 0, 0, 0, 10 at threshold 1.5: the last one is flagged and its
    row removed. *)
Definition zscore_config (thresh : float) : Config :=
  mkConfig None None None None None None None None None None
    (Some true) (Some "zscore") (Some thresh) (Some "drop").

Definition one_column (vs : list value) : DataFrame :=
  mkDataFrame (length vs) [mkColumn "value" int64 vs].

Lemma zscore_flags_witness :
  snd (fst (outlier_stage Ref.pandas (zscore_config 3) (one_column [VInt 10; VInt 10; VInt 10])))
    !! "value" = Some (0, 0%float)
  /\ snd (fst (outlier_stage Ref.pandas (zscore_config 1.5)
                 (one_column [VInt 0; VInt 0; VInt 0; VInt 0; VInt 10])))
       !! "value" = Some (1, 0.2%float)
  /\ fst (fst (outlier_stage Ref.pandas (zscore_config 1.5)
                 (one_column [VInt 0; VInt 0; VInt 0; VInt 0; VInt 10])))
     = one_column [VInt 0; VInt 0; VInt 0; VInt 0].
Proof.
  assert (forall vs, List.NoDup (names (one_column vs))) as Hnd
    by (intros vs; repeat constructor; simpl; tauto).
  assert (forall vs, well_formed (one_column vs)) as Hwf
    by (intros vs; repeat constructor).
  split; [|split].
  - destruct (zscore_flags Ref.pandas (zscore_config 3) (one_column [VInt 10; VInt 10; VInt 10])
                (mkColumn "value" int64 [VInt 10; VInt 10; VInt 10])
                (Hwf _) (Hnd _) eq_refl eq_refl ltac:(simpl; tauto) eq_refl eq_refl eq_refl
                eq_refl) as [H _].
    etransitivity; [exact H|]. vm_compute. reflexivity.
  - destruct (zscore_flags Ref.pandas (zscore_config 1.5)
                (one_column [VInt 0; VInt 0; VInt 0; VInt 0; VInt 10])
                (mkColumn "value" int64 [VInt 0; VInt 0; VInt 0; VInt 0; VInt 10])
                (Hwf _) (Hnd _) eq_refl eq_refl ltac:(simpl; tauto) eq_refl eq_refl eq_refl
                eq_refl) as [H _].
    etransitivity; [exact H|]. vm_compute. reflexivity.
  - destruct (zscore_flags Ref.pandas (zscore_config 1.5)
                (one_column [VInt 0; VInt 0; VInt 0; VInt 0; VInt 10])
                (mkColumn "value" int64 [VInt 0; VInt 0; VInt 0; VInt 0; VInt 10])
                (Hwf _) (Hnd _) eq_refl eq_refl ltac:(simpl; tauto) eq_refl eq_refl eq_refl
                eq_refl) as [_ [_ [H _]]].
    destruct (H eq_refl) as [keep [Ho [_ [_ Hk]]]].
    rewrite Ho, (Hk eq_refl). vm_compute. reflexivity.
Defined.

(** ** Running the pipeline twice, whatever the dtypes *)

(** The three prunings are on, the null handler is in its no-op mode and
    the outlier detector does not drop rows.  Normalization, trimming and
    the inference are free. *)
Definition prunes_and_converts (cfg : Config) : bool :=
  three_prunings_on cfg
  && negb (String.eqb (default "none" (null_handling cfg)) "drop_rows")
  && negb (String.eqb (default "none" (null_handling cfg)) "fill")
  && negb (enabled (detect_outliers cfg) && String.eqb (action_of cfg) "drop").

(** The cells of [b] are missing exactly where those of [a] are. *)
Definition same_gaps (a b : DataFrame) : Prop :=
  map (fun c => map isna (values c)) (columns a)
  = map (fun c => map isna (values c)) (columns b).

(** Two rows that are equal in [b] are equal in [a]. *)
Definition no_rows_merged (a b : DataFrame) : bool :=
  forallb (fun i =>
    forallb (fun j => implb (row_eqb (row b j) (row b i)) (row_eqb (row a j) (row a i)))
            (seq 0 (nrows b)))
    (seq 0 (nrows b)).

Lemma relabel_id f df :
  (forall c, In c (columns df) -> f (name c) = name c) -> relabel f df = df.
Proof.
  unfold relabel. destruct df as [n cols]; simpl. intros H. f_equal.
  rewrite <- (map_id cols) at 2. apply map_ext_in. intros c Hc.
  rewrite (H c Hc). now destruct c.
Qed.

Lemma same_gaps_row a b i : same_gaps a b -> map isna (row a i) = map isna (row b i).
Proof.
  unfold same_gaps, row. intros H.
  assert (forall d, map isna (map (fun c => nth i (values c) NA) (columns d))
                    = map (fun l => nth i l true) (map (fun c => map isna (values c)) (columns d)))
    as E.
  { intros d. rewrite !map_map. apply map_ext. intros c.
    now rewrite <- (map_nth isna (values c) NA i). }
  now rewrite !E, H.
Qed.

Lemma existsb_notna_isna vs : existsb notna vs = existsb negb (map isna vs).
Proof. induction vs as [|v vs IH]; simpl; [reflexivity|]. now rewrite IH. Qed.

Lemma same_gaps_columns a b :
  same_gaps a b ->
  forallb (fun c => existsb notna (values c)) (columns a)
  = forallb (fun c => existsb notna (values c)) (columns b).
Proof.
  unfold same_gaps. intros H.
  assert (forall d, forallb (fun c => existsb notna (values c)) (columns d)
                    = forallb (existsb negb) (map (fun c => map isna (values c)) (columns d)))
    as E.
  { intros d. rewrite forallb_map_compose.
    induction (columns d) as [|c cs IH]; simpl; [reflexivity|].
    now rewrite IH, existsb_notna_isna. }
  now rewrite !E, H.
Qed.

(** Rows that [keep_first] all keeps are kept under any other reading of
    the rows that merges none of them. *)
Lemma keep_first_transfer (rho rho' : nat -> list value) idxs :
  forall seen,
    (forall i j, In i (seen ++ idxs) -> In j (seen ++ idxs) ->
                 row_eqb (rho' j) (rho' i) = true -> row_eqb (rho j) (rho i) = true) ->
    forallb id (keep_first (map rho seen) (map rho idxs)) = true ->
    forallb id (keep_first (map rho' seen) (map rho' idxs)) = true.
Proof.
  induction idxs as [|i0 idxs IH]; intros seen H; simpl; [reflexivity|].
  intros Hk. apply andb_true_iff in Hk as [Hh Ht]. apply andb_true_iff. split.
  - unfold id in *. apply negb_true_iff in Hh. apply negb_true_iff.
    destruct (existsb (fun s => row_eqb s (rho' i0)) (map rho' seen)) eqn:E; [|reflexivity].
    apply existsb_exists in E as [s [Hs Es]]. apply in_map_iff in Hs as [j [<- Hj]].
    assert (existsb (fun s => row_eqb s (rho i0)) (map rho seen) = true) as C.
    { apply existsb_exists. exists (rho j). split; [now apply in_map|].
      apply H; [apply in_or_app; right; now left|apply in_or_app; now left|exact Es]. }
    congruence.
  - apply (IH (i0 :: seen)); [|exact Ht].
    intros i j Hi Hj. apply H.
    + apply in_app_or in Hi as [[<-|Hi]|Hi]; apply in_or_app;
        [right; now left|now left|right; now right].
    + apply in_app_or in Hj as [[<-|Hj]|Hj]; apply in_or_app;
        [right; now left|now left|right; now right].
Qed.

Lemma prune_rows_nonblank df r :
  well_formed df -> In r (rows (prune df)) -> existsb notna r = true.
Proof.
  intros Hwf Hr. apply (rows_nonblank_after_columns df r Hwf).
  now apply rows_subset_drop_duplicates;
    [apply wf_dropna_all_columns, wf_dropna_all|].
Qed.

Lemma filter_fixed_all {A : Type} (p : A -> bool) (l : list A) :
  List.filter p l = l -> forallb p l = true.
Proof.
  induction l as [|x l IH]; simpl; [reflexivity|].
  destruct (p x) eqn:E; simpl.
  - intros H. injection H as H. now apply IH.
  - intros H. pose proof (List.filter_length_le p l) as Hl.
    rewrite H in Hl. simpl in Hl. lia.
Qed.

Lemma prune_columns_nonblank df :
  well_formed df -> forallb (fun c => existsb notna (values c)) (columns (prune df)) = true.
Proof.
  intros Hwf. destruct (prune_fixed df Hwf) as [_ [H _]].
  apply filter_fixed_all. unfold dropna_all_columns in H.
  now apply (f_equal columns) in H.
Qed.

Lemma prune_rows_distinct df :
  well_formed df ->
  (nrows (prune df) =? 0) || (ncols (prune df) =? 0) = false ->
  forallb id (keep_first [] (rows (prune df))) = true.
Proof.
  intros Hwf G.
  pose proof (wf_dropna_all_columns _ (wf_dropna_all _ Hwf)) as Hq.
  unfold prune, pd_drop_duplicates in *.
  destruct ((nrows (dropna_all_columns (dropna_all df)) =? 0)
            || (ncols (dropna_all_columns (dropna_all df)) =? 0)) eqn:Gq.
  - rewrite G in Gq. discriminate Gq.
  - rewrite rows_take_rows; [|exact Hq|now rewrite keep_first_length, rows_length].
    apply keep_first_idempotent, incl_refl.
Qed.

Section SecondRun.

Variable pd : Pandas.

Lemma wf_loop_step {X : Type} (g : column -> option (dtype * list value * X)) :
  (forall col d vs x, g col = Some (d, vs, x) -> length vs = length (values col)) ->
  forall st c, well_formed (fst st) -> well_formed (fst (loop_step g st c)).
Proof.
  intros Hg st c Hwf. unfold loop_step.
  destruct (get_col (fst st) c) as [col|] eqn:E; [|exact Hwf].
  destruct (g col) as [[[d vs] x]|] eqn:Eg; [|exact Hwf]. simpl.
  apply wf_set_col; [exact Hwf|]. rewrite (Hg _ _ _ _ Eg). now apply (wf_get_col _ c).
Qed.

Lemma infer_entry_length thresh col d vs x :
  infer_entry pd thresh col = Some (d, vs, x) -> length vs = length (values col).
Proof.
  unfold infer_entry. destruct (_ =? 0); [discriminate|].
  pose proof (to_numeric_length pd col) as Hn.
  destruct (to_numeric pd col) as [d0 conv]. simpl in Hn.
  destruct (fge _ _); [intros [= <- <- <-]; exact Hn|].
  unfold infer_datetime.
  destruct (if length _ =? 0 then _ else _) as [[|]|]; try discriminate.
  destruct (fge _ _); [|discriminate].
  intros [= <- <- <-]. unfold to_datetime. apply length_map.
Qed.

Lemma arrow_entry_length col d vs x :
  arrow_entry pd col = Some (d, vs, x) -> length vs = length (values col).
Proof.
  unfold arrow_entry. destruct (dtype_eqb _ object); [|discriminate].
  pose proof (to_numeric_length pd col) as Hn.
  destruct (to_numeric pd col) as [d0 conv]. simpl in Hn.
  destruct (fge _ _); [intros [= <- <- <-]; exact Hn|].
  assert (forall (d' : dtype) (vs' : list value) (u : unit),
            match astype_string pd (values col) with
            | Done vs0 => Some (string_, vs0, tt)
            | Raised _ => Some (object, astype_str pd (values col), tt)
            end = Some (d', vs', u) -> length vs' = length (values col)) as Hs.
  { intros d' vs' u. unfold astype_string, astype_str.
    destruct (astype_string_refuses pd (values col)); intros [= <- <- <-]; apply length_map. }
  unfold final_datetime.
  destruct (if length _ =? 0 then _ else _) as [k|e]; [|apply Hs].
  destruct (PrimFloat.ltb _ _); [apply Hs|].
  destruct (fge _ _); [|apply Hs].
  intros [= <- <- <-]. unfold to_datetime. apply length_map.
Qed.

Lemma wf_infer_stage cfg df :
  well_formed df -> well_formed (fst (infer_stage pd cfg df)).
Proof.
  intros Hwf. unfold infer_stage. destruct (enabled (infer_types cfg)); [|exact Hwf].
  apply (fold_left_preserves (fun st => well_formed (fst st))); [|exact Hwf].
  intros st c Hst. rewrite infer_column_loop.
  apply wf_loop_step; [apply infer_entry_length|exact Hst].
Qed.

Lemma wf_make_arrow_compatible df :
  well_formed df -> well_formed (_make_arrow_compatible pd df).
Proof.
  intros Hwf. unfold _make_arrow_compatible.
  apply (fold_left_preserves well_formed); [|exact Hwf].
  intros d c Hd. rewrite (arrow_column_loop pd (d, (∅ : gmap string unit)) c).
  apply wf_loop_step; [apply arrow_entry_length|exact Hd].
Qed.

Variable cfg : Config.
Variable df : DataFrame.
Hypothesis Hcfg : prunes_and_converts cfg = true.
Hypothesis Hwf : well_formed df.

Let pruned := table_after_duplicates pd cfg df.
Let once := fst (clean_dataframe pd df cfg).

Lemma pruned_is_prune : pruned = prune (table_after_nulls pd cfg df).
Proof.
  unfold prunes_and_converts, three_prunings_on in Hcfg.
  apply andb_true_iff in Hcfg as [H _]. apply andb_true_iff in H as [H _].
  apply andb_true_iff in H as [H _].
  apply andb_true_iff in H as [H Hd]. apply andb_true_iff in H as [Hr Hc].
  unfold pruned, table_after_duplicates, table_after_blank_cols, table_after_blank_rows,
    duplicates_stage, blank_cols_stage, blank_rows_stage.
  now rewrite Hr, Hc, Hd.
Qed.

Lemma wf_table_after_nulls : well_formed (table_after_nulls pd cfg df).
Proof.
  unfold table_after_nulls, null_result, table_after_trim, table_after_normalize.
  now apply wf_null_stage, wf_trim_stage, wf_normalize_stage.
Qed.

Lemma once_is_converted :
  once = _make_arrow_compatible pd (fst (infer_stage pd cfg pruned)).
Proof.
  unfold once. rewrite clean_dataframe_stages. cbn [fst].
  unfold table_after_outliers, outlier_result. rewrite outlier_stage_no_drop; [reflexivity|].
  unfold prunes_and_converts in Hcfg. now apply andb_true_iff in Hcfg as [_ H].
Qed.

Lemma wf_once : well_formed once.
Proof.
  rewrite once_is_converted. apply wf_make_arrow_compatible, wf_infer_stage.
  rewrite pruned_is_prune. apply wf_prune, wf_table_after_nulls.
Qed.

Lemma shape_once : shape once = shape pruned.
Proof.
  rewrite once_is_converted.
  now rewrite shape_make_arrow_compatible, shape_infer_stage.
Qed.

Hypothesis Hgaps : same_gaps pruned once.
Hypothesis Hrows : no_rows_merged pruned once = true.

Lemma once_dropna_all : dropna_all once = once.
Proof.
  apply take_rows_all; [exact wf_once| |now rewrite length_map, rows_length].
  apply forallb_id_map. intros r Hr. unfold rows in Hr.
  apply in_map_iff in Hr as [i [<- Hi]].
  rewrite existsb_notna_isna, <- (same_gaps_row pruned once i Hgaps), <- existsb_notna_isna.
  apply (prune_rows_nonblank (table_after_nulls pd cfg df)); [exact wf_table_after_nulls|].
  rewrite <- pruned_is_prune. unfold rows. apply in_map.
  apply in_seq. apply in_seq in Hi.
  destruct (shape_eq _ _ shape_once) as [Hn _]. lia.
Qed.

Lemma once_dropna_all_columns : dropna_all_columns once = once.
Proof.
  pose proof (same_gaps_columns pruned once Hgaps) as H.
  rewrite pruned_is_prune in H at 1.
  rewrite (prune_columns_nonblank _ wf_table_after_nulls) in H. symmetry in H.
  rewrite forallb_forall in H.
  unfold dropna_all_columns. rewrite (filter_all _ _ H). now destruct once.
Qed.

Lemma once_drop_duplicates : pd_drop_duplicates once = once.
Proof.
  unfold pd_drop_duplicates.
  destruct ((nrows once =? 0) || (ncols once =? 0)) eqn:G; [reflexivity|].
  apply take_rows_all; [exact wf_once| |now rewrite keep_first_length, rows_length].
  destruct (shape_eq _ _ shape_once) as [Hn Hc].
  assert (forallb id (keep_first [] (rows pruned)) = true) as Hp.
  { rewrite pruned_is_prune. apply prune_rows_distinct; [exact wf_table_after_nulls|].
    rewrite <- pruned_is_prune, <- Hn, <- Hc. exact G. }
  unfold rows in *. rewrite <- Hn in Hp.
  apply (keep_first_transfer (row pruned) (row once) (seq 0 (nrows once)) []); [|exact Hp].
  intros i j Hi Hj E. simpl in Hi, Hj.
  unfold no_rows_merged in Hrows. rewrite forallb_forall in Hrows.
  specialize (Hrows i Hi). rewrite forallb_forall in Hrows. specialize (Hrows j Hj).
  rewrite E in Hrows. exact Hrows.
Qed.

Hypothesis Hobj : no_object_columns once = true.

Lemma once_normalize : fst (normalize_stage cfg once) = once.
Proof.
  rewrite normalize_stage_relabel.
  destruct (enabled (normalize_columns cfg)) eqn:En; [|reflexivity].
  apply relabel_id. intros c Hc.
  destruct (names_of_cleaned pd cfg df) as [keep [_ Hn]]. fold once in Hn.
  rewrite normalized_names, En in Hn.
  assert (In (name c) (names once)) as Hin by (unfold names; now apply in_map).
  rewrite Hn in Hin. apply select_In in Hin. apply in_map_iff in Hin as [x [<- _]].
  apply normalize_clean, normalize_alphabet.
Qed.

(** The second run up to the prunings: nothing changes and nothing is
    counted. *)
Lemma second_run_prunes_nothing :
  table_after_duplicates pd cfg once = once
  /\ snd (blank_rows_stage cfg (table_after_nulls pd cfg once)) = 0%Z
  /\ snd (blank_cols_stage cfg (table_after_blank_rows pd cfg once)) = 0%Z
  /\ snd (duplicates_stage cfg (table_after_blank_cols pd cfg once)) = 0%Z.
Proof.
  pose proof Hcfg as H0. unfold prunes_and_converts, three_prunings_on in H0.
  apply andb_true_iff in H0 as [H _]. apply andb_true_iff in H as [H Hf].
  apply andb_true_iff in H as [H Hdr].
  apply andb_true_iff in H as [H Hd]. apply andb_true_iff in H as [Hr Hc].
  apply negb_true_iff in Hf, Hdr.
  assert (table_after_nulls pd cfg once = once) as Hn.
  { unfold table_after_nulls, null_result, table_after_trim, table_after_normalize.
    rewrite once_normalize, (trim_stage_no_object pd cfg once Hobj).
    unfold null_stage. now rewrite Hdr, Hf. }
  unfold table_after_duplicates, table_after_blank_cols, table_after_blank_rows.
  rewrite Hn. unfold blank_rows_stage. rewrite Hr. cbn [fst snd].
  rewrite once_dropna_all. unfold blank_cols_stage. rewrite Hc. cbn [fst snd].
  rewrite once_dropna_all_columns. unfold duplicates_stage. rewrite Hd. cbn [fst snd].
  rewrite once_drop_duplicates. rewrite !removed_same. repeat split.
Qed.

Lemma second_run_keeps_shape : shape (table_after_outliers pd cfg once) = shape once.
Proof.
  destruct second_run_prunes_nothing as [Ht _].
  unfold table_after_outliers, outlier_result, table_after_finalizer, table_after_infer.
  rewrite Ht. rewrite outlier_stage_no_drop.
  - now rewrite shape_make_arrow_compatible, shape_infer_stage.
  - unfold prunes_and_converts in Hcfg. now apply andb_true_iff in Hcfg as [_ H].
Qed.

End SecondRun.


(** The options the app sets by default. *)
Definition app_default_config : Config :=
  mkConfig (Some true) (Some true) None None None (Some true) (Some true) (Some true)
    (Some true) (Some 0.5%float) (Some false) None None None.

(** Text columns as a file gives them: names with blanks around them and
    a gap, ages as numerals, one row repeated. *)
Definition names_and_ages : DataFrame :=
  mkDataFrame 3 [mkColumn " Name " object [VStr " Alice "; NA; VStr " Alice "];
                 mkColumn "Age" object [VStr "30"; VStr " 40 "; VStr "30"]].

